(** * The data-normalization layer of the India dashboard

    A shallow embedding of [modules/utils.py] (the eleven dataset loaders)
    and of the composite-field parsing done by the chapters
    [education_landscape.py] and [historical_timeline.py], together with
    the properties the specification states about them.

    Conventions of the embedding
    - a pandas cell is a [cell]: an integer, a float or a string; a null
      cell is the float NaN, as in pandas;
    - a float is the exact decimal its literal denotes ([FFin q]), an
      infinity or NaN; binary64 rounding is not modelled;
    - a [DataFrame] is a row count and an ordered list of named columns;
    - Python exceptions are the [Raise] case of [result]; [try/except] is a
      [match] on it. *)

From Stdlib Require Import String Ascii List ZArith QArith Lia Bool.
From Stdlib Require Import Permutation Sorted DecimalString.
From Stdlib Require DecimalPos DecimalZ.
Import ListNotations.
Open Scope string_scope.
Open Scope Z_scope.

(** ** Exceptions *)

Inductive exn : Type :=
| AttributeError
| KeyError
| ValueError
| TypeError
| OverflowError.

Inductive result (A : Type) : Type :=
| Ok (a : A)
| Raise (e : exn).
Arguments Ok {A} a.
Arguments Raise {A} e.

Definition bind {A B : Type} (r : result A) (f : A -> result B) : result B :=
  match r with
  | Ok a => f a
  | Raise e => Raise e
  end.

Notation "x <- c ;; k" := (bind c (fun x => k))
  (at level 61, c at next level, right associativity).

(** [[f(x) for x in l]]: the comprehension stops at the first exception. *)
Fixpoint mapM {A B : Type} (f : A -> result B) (l : list A) : result (list B) :=
  match l with
  | [] => Ok []
  | x :: l' => y <- f x ;; ys <- mapM f l' ;; Ok (y :: ys)
  end.

Definition is_ok {A : Type} (r : result A) : bool :=
  match r with Ok _ => true | Raise _ => false end.

(** ** Python strings *)

Module Py.

(** Strings are sequences of characters of one byte. The classes below are
    those of Python on ASCII text; on the characters of other scripts
    Python knows more digits, letters and white space, and the statements
    that depend on a class are about ASCII text. *)
Definition is_digit (c : ascii) : bool :=
  let n := nat_of_ascii c in (48 <=? n)%nat && (n <=? 57)%nat.

Definition is_alpha (c : ascii) : bool :=
  let n := nat_of_ascii c in
  ((65 <=? n)%nat && (n <=? 90)%nat) || ((97 <=? n)%nat && (n <=? 122)%nat).

(** ASCII white space, as [str.strip] and the numeric constructors see it. *)
Definition is_space (c : ascii) : bool :=
  let n := nat_of_ascii c in
  ((9 <=? n)%nat && (n <=? 13)%nat) || (n =? 32)%nat
  || ((28 <=? n)%nat && (n <=? 31)%nat).

Definition digit_val (c : ascii) : Z := Z.of_nat (nat_of_ascii c) - 48.

Definition lower (c : ascii) : ascii :=
  let n := nat_of_ascii c in
  if (65 <=? n)%nat && (n <=? 90)%nat then ascii_of_nat (n + 32) else c.

Fixpoint lower_str (s : string) : string :=
  match s with
  | EmptyString => EmptyString
  | String c s' => String (lower c) (lower_str s')
  end.

(** [s.startswith(p)] *)
Fixpoint startswith (p s : string) : bool :=
  match p, s with
  | EmptyString, _ => true
  | String a p', String b s' => Ascii.eqb a b && startswith p' s'
  | String _ _, EmptyString => false
  end.

(** [sub in s] *)
Fixpoint contains (sub s : string) : bool :=
  startswith sub s ||
  match s with
  | EmptyString => false
  | String _ s' => contains sub s'
  end.

Definition snoc (s : string) (c : ascii) : string := s ++ String c EmptyString.

(** [s.split(sep)] for a non-empty separator: a left-to-right scan for
    non-overlapping occurrences. [skip] counts the characters of a
    separator still to be passed over and [cur] is the piece being built. *)
Fixpoint split_go (sep s : string) (skip : nat) (cur : string) : list string :=
  match s with
  | EmptyString => [cur]
  | String c s' =>
      match skip with
      | S k => split_go sep s' k cur
      | O =>
          if startswith sep s
          then cur :: split_go sep s' (String.length sep - 1) EmptyString
          else split_go sep s' O (snoc cur c)
      end
  end.

Definition split (sep s : string) : list string := split_go sep s O EmptyString.

(** [s.replace(old, new)] for a non-empty [old]: every non-overlapping
    occurrence, from the left. *)
Fixpoint replace_go (old new s : string) (skip : nat) : string :=
  match s with
  | EmptyString => EmptyString
  | String c s' =>
      match skip with
      | S k => replace_go old new s' k
      | O =>
          if startswith old s
          then new ++ replace_go old new s' (String.length old - 1)
          else String c (replace_go old new s' O)
      end
  end.

Definition replace (old new s : string) : string := replace_go old new s O.

Fixpoint lstrip (s : string) : string :=
  match s with
  | EmptyString => EmptyString
  | String c s' => if is_space c then lstrip s' else s
  end.

Fixpoint rstrip (s : string) : string :=
  match s with
  | EmptyString => EmptyString
  | String c s' =>
      match rstrip s' with
      | EmptyString => if is_space c then EmptyString else String c EmptyString
      | r => String c r
      end
  end.

Definition strip (s : string) : string := rstrip (lstrip s).

(** The maximal run of characters satisfying [p] at the head of [s], and
    what follows it. *)
Fixpoint span (p : ascii -> bool) (s : string) : string * string :=
  match s with
  | EmptyString => (EmptyString, EmptyString)
  | String c s' =>
      if p c then let '(a, b) := span p s' in (String c a, b)
      else (EmptyString, s)
  end.

(** [re.search(r'(\d+)', s)]: the first maximal run of digits. *)
Fixpoint search_digits (s : string) : option string :=
  match s with
  | EmptyString => None
  | String c s' =>
      if is_digit c then Some (fst (span is_digit s)) else search_digits s'
  end.

(** [re.search(r'([A-Za-z]+)', s)]: the first maximal run of letters. The
    optional non-capturing tail [(?:-[A-Za-z]+)?] of the festivals pattern
    does not change group 1. *)
Fixpoint search_letters (s : string) : option string :=
  match s with
  | EmptyString => None
  | String c s' =>
      if is_alpha c then Some (fst (span is_alpha s)) else search_letters s'
  end.

(** [re.search(r'-?\d+', s)]: the leftmost position where a digit, or a
    minus sign followed by a digit, starts. *)
Fixpoint search_signed_digits (s : string) : option string :=
  match s with
  | EmptyString => None
  | String c s' =>
      if is_digit c then Some (fst (span is_digit s))
      else if Ascii.eqb c "-"%char then
        match s' with
        | String d _ =>
            if is_digit d then Some (String c (fst (span is_digit s')))
            else search_signed_digits s'
        | EmptyString => None
        end
      else search_signed_digits s'
  end.

(** Decimal digits of a numeric literal: [digit (["_"] digit)*]. Returns
    the digits read (underscores dropped) and the rest of the input. *)
Fixpoint digitpart_go (s : string) (prev_digit : bool)
  : string * string :=
  match s with
  | EmptyString => (EmptyString, EmptyString)
  | String c s' =>
      if is_digit c then
        let '(a, b) := digitpart_go s' true in (String c a, b)
      else if Ascii.eqb c "_"%char && prev_digit then
        match s' with
        | String d _ =>
            if is_digit d then digitpart_go s' false
            else (EmptyString, s)
        | EmptyString => (EmptyString, s)
        end
      else (EmptyString, s)
  end.

Definition digitpart (s : string) : string * string := digitpart_go s false.

Fixpoint digits_value_go (s : string) (acc : Z) : Z :=
  match s with
  | EmptyString => acc
  | String c s' => digits_value_go s' (10 * acc + digit_val c)
  end.

Definition digits_value (s : string) : Z := digits_value_go s 0.

(** An optional sign: [true] for a minus. *)
Definition sign (s : string) : bool * string :=
  match s with
  | String c s' =>
      if Ascii.eqb c "-"%char then (true, s')
      else if Ascii.eqb c "+"%char then (false, s')
      else (false, s)
  | EmptyString => (false, s)
  end.

Definition apply_sign (neg : bool) (z : Z) : Z := if neg then - z else z.

(** [int(s)] for a string, base 10. Python refuses a text of more than
    4300 digits with a ValueError; the statements that need an integer to
    be read bound the length of the text. *)
Definition int_of_str (s : string) : result Z :=
  let '(neg, r) := sign (strip s) in
  match digitpart r with
  | (String c ds, EmptyString) => Ok (apply_sign neg (digits_value (String c ds)))
  | _ => Raise ValueError
  end.

Definition str_of_Z (z : Z) : string := NilZero.string_of_int (Z.to_int z).

End Py.

(** ** Floats *)

Inductive pyfloat : Type :=
| FFin (q : Q)
| FInf (neg : bool)
| FNaN.

Module Float.

(** [m * 10^e], reduced. *)
Definition dec (m e : Z) : Q :=
  if 0 <=? e then inject_Z (m * 10 ^ e)
  else Qred (Qmake m (Z.to_pos (10 ^ (- e)))).

Definition of_Z (z : Z) : pyfloat := FFin (inject_Z z).

(** The exponent part [(e|E) [sign] digitpart] of a float literal, if one
    starts here; otherwise exponent 0 and the input untouched. *)
Definition exponent (s : string) : Z * string :=
  match s with
  | String c s' =>
      if Ascii.eqb (Py.lower c) "e"%char then
        let '(neg, r) := Py.sign s' in
        match Py.digitpart r with
        | (String d ds, rest) =>
            (Py.apply_sign neg (Py.digits_value (String d ds)), rest)
        | _ => (0, s)
        end
      else (0, s)
  | EmptyString => (0, s)
  end.

(** The unsigned body of a float literal: [inf], [infinity], [nan], or
    [digitpart [. [digitpart]] [exp]] or [. digitpart [exp]]. *)
Definition unsigned_of_str (neg : bool) (s : string) : result pyfloat :=
  let l := Py.lower_str s in
  if String.eqb l "inf" || String.eqb l "infinity" then Ok (FInf neg)
  else if String.eqb l "nan" then Ok FNaN
  else
    let '(ip, r1) := Py.digitpart s in
    let '(fp, r2) :=
      match r1 with
      | String c r =>
          if Ascii.eqb c "."%char then Py.digitpart r else (EmptyString, r1)
      | EmptyString => (EmptyString, r1)
      end in
    match (ip ++ fp)%string with
    | EmptyString => Raise ValueError
    | ds =>
        let '(e, r3) := exponent r2 in
        match r3 with
        | EmptyString =>
            Ok (FFin (dec (Py.apply_sign neg (Py.digits_value ds))
                          (e - Z.of_nat (String.length fp))))
        | _ => Raise ValueError
        end
    end.

(** [float(s)] for a string, as the exact value of the decimal. Python
    rounds that value to 53 bits: the two agree on the integers up to
    2^53, and a statement that names the float of a text stays there. *)
Definition of_str (s : string) : result pyfloat :=
  let '(neg, r) := Py.sign (Py.strip s) in unsigned_of_str neg r.

(** [x <= n] for a float and an integer; false on NaN. *)
Definition leb_Z (f : pyfloat) (n : Z) : bool :=
  match f with
  | FFin q => Qle_bool q (inject_Z n)
  | FInf neg => neg
  | FNaN => false
  end.

(** The digits after the point of [r / den], at most [fuel] of them. *)
Fixpoint frac_digits (fuel : nat) (r den : Z) : string :=
  match fuel with
  | O => EmptyString
  | S k =>
      if r =? 0 then EmptyString
      else Py.str_of_Z (10 * r / den) ++ frac_digits k (10 * r mod den) den
  end.

(** A plain decimal text of a float. Python's [repr] agrees with it on the
    short decimals of the data; the loaders take the text of a float as a
    parameter, and this is the instance the examples use. *)
Definition repr (f : pyfloat) : string :=
  match f with
  | FNaN => "nan"
  | FInf true => "-inf"
  | FInf false => "inf"
  | FFin q =>
      let n := Z.abs (Qnum q) in
      let d := Zpos (Qden q) in
      (if Qnum q <? 0 then "-" else "") ++ Py.str_of_Z (n / d) ++ "."
      ++ match frac_digits 17 (n mod d) d with
         | EmptyString => "0"
         | s => s
         end
  end.

End Float.

(** ** Cells *)

Inductive cell : Type :=
| VInt (z : Z)
| VFloat (f : pyfloat)
| VStr (s : string).

Definition NaN : cell := VFloat FNaN.

(** [isinstance(v, str)] *)
Definition is_str (v : cell) : bool :=
  match v with VStr _ => true | _ => false end.

(** [pd.isna(v)] *)
Definition isna (v : cell) : bool :=
  match v with VFloat FNaN => true | _ => false end.

(** A float literal of the source, [m * 10^e]. *)
Definition VDec (m e : Z) : cell := VFloat (FFin (Float.dec m e)).

(** [str(v)]; the text of a float is left to [float_repr]. *)
Definition str_of_cell (float_repr : pyfloat -> string) (v : cell) : string :=
  match v with
  | VInt z => Py.str_of_Z z
  | VFloat f => float_repr f
  | VStr s => s
  end.

(** ** Dictionaries with string keys, in insertion order *)

Module Dict.

Section Dict.
Context {V : Type}.

Fixpoint get (k : string) (d : list (string * V)) : option V :=
  match d with
  | [] => None
  | (k', v) :: d' => if String.eqb k k' then Some v else get k d'
  end.

(** [d[k] = v]: an existing key keeps its position. *)
Fixpoint set (k : string) (v : V) (d : list (string * V)) : list (string * V) :=
  match d with
  | [] => [(k, v)]
  | (k', v') :: d' =>
      if String.eqb k k' then (k', v) :: d' else (k', v') :: set k v d'
  end.

Definition mem (k : string) (d : list (string * V)) : bool :=
  match get k d with Some _ => true | None => false end.

(** A dictionary display [{k1: v1, k2: v2, ...}]: entries are inserted from
    left to right, so a repeated key keeps its first position and its last
    value. *)
Definition literal (entries : list (string * V)) : list (string * V) :=
  fold_left (fun d kv => set (fst kv) (snd kv) d) entries [].

(** [d.get(x, default)] for a cell [x]: only a string can equal a key. *)
Definition get_cell (d : list (string * V)) (x : cell) (default : V) : V :=
  match x with
  | VStr s => match get s d with Some v => v | None => default end
  | _ => default
  end.

End Dict.

End Dict.

(** ** pandas *)

Record DataFrame : Type := mkDF {
  nrows : nat;
  columns : list (string * list cell)
}.

Module pd.

(** [c in df.columns] *)
Definition has_col (df : DataFrame) (c : string) : bool := Dict.mem c (columns df).

(** [df[c]] *)
Definition getitem (df : DataFrame) (c : string) : result (list cell) :=
  match Dict.get c (columns df) with
  | Some col => Ok col
  | None => Raise KeyError
  end.

Definition is_float (v : cell) : bool :=
  match v with VFloat _ => true | _ => false end.

Definition to_float (v : cell) : cell :=
  match v with VInt z => VFloat (Float.of_Z z) | _ => v end.

(** The dtype a column of Python values gets: integers standing with floats
    (and no string) become floats; a column holding a string is an object
    column and keeps its values. *)
Definition infer (col : list cell) : list cell :=
  if existsb is_float col && negb (existsb is_str col)
  then map to_float col else col.

(** [df[c] = series], for a series over the index of [df]. *)
Definition setitem_series (df : DataFrame) (c : string) (col : list cell)
  : DataFrame :=
  mkDF (nrows df) (Dict.set c col (columns df)).

(** [df[c] = v] for a scalar [v]. *)
Definition setitem_scalar (df : DataFrame) (c : string) (v : cell) : DataFrame :=
  setitem_series df c (repeat v (nrows df)).

(** [df[c] = [f(i) for i in range(len(df))]] *)
Definition setitem_range (df : DataFrame) (c : string) (f : nat -> cell)
  : DataFrame :=
  setitem_series df c (infer (map f (seq 0 (nrows df)))).

(** [df[c] = l] for a Python list [l]: the length must match. *)
Definition setitem_list (df : DataFrame) (c : string) (l : list cell)
  : result DataFrame :=
  if (length l =? nrows df)%nat then Ok (setitem_series df c (infer l))
  else Raise ValueError.

(** [series.map(f)] and [series.apply(f)] *)
Definition map_series (f : cell -> cell) (col : list cell) : list cell :=
  infer (map f col).

(** The [.str] accessor exists on an empty column and on one that holds a
    string; on a numeric column it raises. *)
Definition str_accessor (col : list cell) : result (list cell) :=
  match col with
  | [] => Ok col
  | _ => if existsb is_str col then Ok col else Raise AttributeError
  end.

(** [series.str.extract(pattern)[0]] for a pattern with one group, given as
    the search function of that group. *)
Definition str_extract (search : string -> option string) (col : list cell)
  : result (list cell) :=
  col' <- str_accessor col ;;
  Ok (map (fun v =>
             match v with
             | VStr s => match search s with Some m => VStr m | None => NaN end
             | _ => NaN
             end) col').

(** One token of [pd.to_numeric]: an integer, a float, or (with
    [errors='coerce']) NaN. The token grammar is taken to be Python's;
    that of pandas differs on some tokens (it refuses [1_000]), and the
    statements on coerced columns say only what holds for either. *)
Definition numeric_of_str (s : string) : cell :=
  match Py.int_of_str s with
  | Ok z => VInt z
  | Raise _ =>
      match Float.of_str s with
      | Ok f => VFloat f
      | Raise _ => NaN
      end
  end.

Definition coerce (v : cell) : cell :=
  match v with VStr s => numeric_of_str s | _ => v end.

(** [pd.to_numeric(series, errors='coerce')] *)
Definition to_numeric (col : list cell) : list cell := infer (map coerce col).

(** [v <= n] for a cell of a numeric column. *)
Definition le_cell (n : Z) (v : cell) : result bool :=
  match v with
  | VInt z => Ok (z <=? n)
  | VFloat f => Ok (Float.leb_Z f n)
  | VStr _ => Raise TypeError
  end.

Fixpoint select {A : Type} (mask : list bool) (l : list A) : list A :=
  match mask, l with
  | b :: mask', x :: l' => if b then x :: select mask' l' else select mask' l'
  | _, _ => []
  end.

(** [df[mask]] for a boolean series over the index of [df]. *)
Definition filter_rows (df : DataFrame) (mask : list bool) : DataFrame :=
  mkDF (length (select mask (seq 0 (nrows df))))
       (map (fun nc => (fst nc, select mask (snd nc))) (columns df)).

(** [pd.DataFrame({k: l, ...})] *)
Definition DataFrame_of_dict (d : list (string * list cell)) : DataFrame :=
  mkDF (match d with [] => O | (_, l) :: _ => length l end)
       (map (fun nc => (fst nc, infer (snd nc))) d).

(** [df.at[i, c] = v] *)
Fixpoint set_nth {A : Type} (i : nat) (v : A) (l : list A) : list A :=
  match l, i with
  | [], _ => []
  | _ :: l', O => v :: l'
  | x :: l', S i' => x :: set_nth i' v l'
  end.

Definition set_at (df : DataFrame) (i : nat) (c : string) (v : cell)
  : result DataFrame :=
  col <- getitem df c ;;
  Ok (setitem_series df c (set_nth i v col)).

(** [df.at[i, c]] *)
Definition at_ (df : DataFrame) (i : nat) (c : string) : result cell :=
  col <- getitem df c ;;
  match nth_error col i with
  | Some v => Ok v
  | None => Raise KeyError
  end.

End pd.

(** ** modules/utils.py *)

Module utils.

(** The double-quote character, for the one table entry that holds it. *)
Definition dq : string := String (ascii_of_nat 34) EmptyString.

(** *** The file system and [pd.read_csv] *)

(** What [pd.read_csv(path, encoding=e)] does for one encoding. *)
Inductive read_outcome : Type :=
| ReadOk (df : DataFrame)
| ReadUnicodeDecodeError
| ReadException.

(** A file system: [None] where no file is, else what reading the file
    with a given encoding does. *)
Definition filesystem : Type := string -> option (string -> read_outcome).

(** [os.path.exists(path)] *)
Definition path_exists (fs : filesystem) (path : string) : bool :=
  match fs path with Some _ => true | None => false end.

Definition encodings : list string := ["utf-8"; "latin-1"; "cp1252"; "iso-8859-1"].

Fixpoint safe_read_csv_loop (read : string -> read_outcome) (encs : list string)
  : option DataFrame :=
  match encs with
  | [] => None
  | encoding :: encs' =>
      match read encoding with
      | ReadOk df => Some df
      | ReadUnicodeDecodeError => safe_read_csv_loop read encs'
      | ReadException => None
      end
  end.

(** Safely read a CSV file with encoding fallbacks. A missing file makes
    [pd.read_csv] raise, which the general handler turns into [None]. *)
Definition safe_read_csv (fs : filesystem) (file_path : string) : option DataFrame :=
  match fs file_path with
  | None => None
  | Some read => safe_read_csv_loop read encodings
  end.

(** [df.columns] on what [safe_read_csv] returned: [None] has no such
    attribute. Every loader touches [df.columns] first. *)
Definition columns_of (df : option DataFrame) : result DataFrame :=
  match df with
  | Some d => Ok d
  | None => Raise AttributeError
  end.

(** *** Shapes shared by the loaders *)

(** [[col for col in required_columns if col not in df.columns]] *)
Definition missing_columns (required_columns : list string) (df : DataFrame)
  : list string :=
  filter (fun col => negb (pd.has_col df col)) required_columns.

(** [for col in missing_columns: <default col>] *)
Definition add_missing (default : DataFrame -> string -> DataFrame)
  (missing : list string) (df : DataFrame) : DataFrame :=
  fold_left default missing df.

(** [f"<name> {i+1}"] *)
Definition numbered (name : string) (i : nat) : cell :=
  VStr (name ++ " " ++ Py.str_of_Z (Z.of_nat i + 1)).

(** [df[c] = df[key].map(f)] *)
Definition assign_map (df : DataFrame) (c key : string) (f : cell -> cell)
  : result DataFrame :=
  col <- pd.getitem df key ;;
  Ok (pd.setitem_series df c (pd.map_series f col)).

(** [df[c] = df[key]] *)
Definition assign_copy (df : DataFrame) (c key : string) : result DataFrame :=
  col <- pd.getitem df key ;;
  Ok (pd.setitem_series df c col).

(** [if c not in df.columns: df[c] = df[key].map(lambda x: d.get(x, default))] *)
Definition lookup_if_absent (c key : string) (d : list (string * cell))
  (default : cell) (df : DataFrame) : result DataFrame :=
  if pd.has_col df c then Ok df
  else assign_map df c key (fun x => Dict.get_cell d x default).

(** *** load_linguistic_data *)

Definition linguistic_required : list string := ["Language"; "Speakers"; "Percentage"].

Definition linguistic_default (df : DataFrame) (col : string) : DataFrame :=
  if String.eqb col "Language" then pd.setitem_range df col (numbered "Language")
  else if String.eqb col "Speakers" then pd.setitem_scalar df col (VInt 0)
  else if String.eqb col "Percentage" then pd.setitem_scalar df col (VDec 0 (-1))
  else df.

Definition reconcile_linguistic (df : DataFrame) : result DataFrame :=
  Ok (add_missing linguistic_default (missing_columns linguistic_required df) df).

(** *** load_religious_data *)

Definition religious_required : list string := ["Religion"; "Percentage"; "Population"].

Definition religious_default (df : DataFrame) (col : string) : DataFrame :=
  if String.eqb col "Religion" then pd.setitem_range df col (numbered "Religion")
  else if String.eqb col "Percentage" then pd.setitem_scalar df col (VDec 0 (-1))
  else if String.eqb col "Population" then pd.setitem_scalar df col (VInt 0)
  else df.

Definition reconcile_religious (df : DataFrame) : result DataFrame :=
  Ok (add_missing religious_default (missing_columns religious_required df) df).

(** *** load_state_data *)

Definition state_required : list string :=
  ["State"; "Population (millions)"; "Area (sq km)"; "Literacy Rate (%)"; "Region"].

Definition state_default (df : DataFrame) (col : string) : DataFrame :=
  if String.eqb col "State" then pd.setitem_range df col (numbered "State")
  else if String.eqb col "Population (millions)" then pd.setitem_scalar df col (VDec 0 (-1))
  else if String.eqb col "Area (sq km)" then pd.setitem_scalar df col (VInt 0)
  else if String.eqb col "Literacy Rate (%)" then pd.setitem_scalar df col (VDec 0 (-1))
  else if String.eqb col "Region" then pd.setitem_scalar df col (VStr "Unknown")
  else df.

(** HDI values by state (approximations based on 2021-22 data). *)
Definition hdi_values : list (string * cell) :=
  Dict.literal [
    ("Kerala", VDec 782 (-3));
    ("Delhi", VDec 746 (-3));
    ("Goa", VDec 761 (-3));
    ("Punjab", VDec 723 (-3));
    ("Tamil Nadu", VDec 708 (-3));
    ("Himachal Pradesh", VDec 725 (-3));
    ("Maharashtra", VDec 696 (-3));
    ("Karnataka", VDec 682 (-3));
    ("Telangana", VDec 669 (-3));
    ("Gujarat", VDec 672 (-3));
    ("Haryana", VDec 708 (-3));
    ("Uttarakhand", VDec 684 (-3));
    ("West Bengal", VDec 641 (-3));
    ("Andhra Pradesh", VDec 649 (-3));
    ("Rajasthan", VDec 629 (-3));
    ("Odisha", VDec 606 (-3));
    ("Assam", VDec 613 (-3));
    ("Jharkhand", VDec 599 (-3));
    ("Chhattisgarh", VDec 613 (-3));
    ("Madhya Pradesh", VDec 603 (-3));
    ("Uttar Pradesh", VDec 596 (-3));
    ("Bihar", VDec 574 (-3));
    ("Manipur", VDec 697 (-3));
    ("Tripura", VDec 658 (-3));
    ("Meghalaya", VDec 636 (-3));
    ("Nagaland", VDec 679 (-3));
    ("Sikkim", VDec 716 (-3));
    ("Mizoram", VDec 705 (-3));
    ("Arunachal Pradesh", VDec 662 (-3));
    ("Jammu and Kashmir", VDec 688 (-3));
    ("Chandigarh", VDec 775 (-3));
    ("Puducherry", VDec 738 (-3));
    ("Andaman and Nicobar Islands", VDec 74 (-2));
    ("Lakshadweep", VDec 712 (-3));
    ("Dadra and Nagar Haveli", VDec 663 (-3));
    ("Daman and Diu", VDec 681 (-3));
    ("Ladakh", VDec 674 (-3))
  ].

(** Urbanization rates by state (approximations). *)
Definition urbanization_values : list (string * cell) :=
  Dict.literal [
    ("Delhi", VDec 975 (-1));
    ("Chandigarh", VDec 973 (-1));
    ("Puducherry", VDec 683 (-1));
    ("Goa", VDec 622 (-1));
    ("Mizoram", VDec 521 (-1));
    ("Tamil Nadu", VDec 484 (-1));
    ("Kerala", VDec 477 (-1));
    ("Maharashtra", VDec 452 (-1));
    ("Gujarat", VDec 426 (-1));
    ("Karnataka", VDec 386 (-1));
    ("Telangana", VDec 389 (-1));
    ("Punjab", VDec 375 (-1));
    ("Haryana", VDec 348 (-1));
    ("Andhra Pradesh", VDec 335 (-1));
    ("West Bengal", VDec 319 (-1));
    ("Uttarakhand", VDec 302 (-1));
    ("Jammu and Kashmir", VDec 274 (-1));
    ("Nagaland", VDec 289 (-1));
    ("Manipur", VDec 292 (-1));
    ("Jharkhand", VDec 241 (-1));
    ("Rajasthan", VDec 249 (-1));
    ("Chhattisgarh", VDec 232 (-1));
    ("Madhya Pradesh", VDec 276 (-1));
    ("Odisha", VDec 167 (-1));
    ("Assam", VDec 141 (-1));
    ("Bihar", VDec 113 (-1));
    ("Himachal Pradesh", VDec 100 (-1));
    ("Sikkim", VDec 251 (-1));
    ("Tripura", VDec 262 (-1));
    ("Meghalaya", VDec 201 (-1));
    ("Arunachal Pradesh", VDec 229 (-1));
    ("Uttar Pradesh", VDec 223 (-1));
    ("Andaman and Nicobar Islands", VDec 377 (-1));
    ("Dadra and Nagar Haveli", VDec 472 (-1));
    ("Daman and Diu", VDec 752 (-1));
    ("Lakshadweep", VDec 781 (-1));
    ("Ladakh", VDec 214 (-1))
  ].

(** Example data for capitals. *)
Definition capitals : list (string * cell) :=
  Dict.literal [
    ("Andhra Pradesh", VStr "Amaravati");
    ("Arunachal Pradesh", VStr "Itanagar");
    ("Assam", VStr "Dispur");
    ("Bihar", VStr "Patna");
    ("Chhattisgarh", VStr "Raipur");
    ("Goa", VStr "Panaji");
    ("Gujarat", VStr "Gandhinagar");
    ("Haryana", VStr "Chandigarh");
    ("Himachal Pradesh", VStr "Shimla");
    ("Jharkhand", VStr "Ranchi");
    ("Karnataka", VStr "Bengaluru");
    ("Kerala", VStr "Thiruvananthapuram");
    ("Madhya Pradesh", VStr "Bhopal");
    ("Maharashtra", VStr "Mumbai");
    ("Manipur", VStr "Imphal");
    ("Meghalaya", VStr "Shillong");
    ("Mizoram", VStr "Aizawl");
    ("Nagaland", VStr "Kohima");
    ("Odisha", VStr "Bhubaneswar");
    ("Punjab", VStr "Chandigarh");
    ("Rajasthan", VStr "Jaipur");
    ("Sikkim", VStr "Gangtok");
    ("Tamil Nadu", VStr "Chennai");
    ("Telangana", VStr "Hyderabad");
    ("Tripura", VStr "Agartala");
    ("Uttar Pradesh", VStr "Lucknow");
    ("Uttarakhand", VStr "Dehradun");
    ("West Bengal", VStr "Kolkata");
    ("Andaman and Nicobar Islands", VStr "Port Blair");
    ("Chandigarh", VStr "Chandigarh");
    ("Dadra and Nagar Haveli", VStr "Silvassa");
    ("Daman and Diu", VStr "Daman");
    ("Delhi", VStr "New Delhi");
    ("Jammu and Kashmir", VStr "Srinagar/Jammu");
    ("Ladakh", VStr "Leh");
    ("Lakshadweep", VStr "Kavaratti");
    ("Puducherry", VStr "Puducherry")
  ].

(** Official languages by state. *)
Definition languages : list (string * cell) :=
  Dict.literal [
    ("Andhra Pradesh", VStr "Telugu");
    ("Arunachal Pradesh", VStr "English");
    ("Assam", VStr "Assamese");
    ("Bihar", VStr "Hindi, Urdu");
    ("Chhattisgarh", VStr "Hindi");
    ("Goa", VStr "Konkani, Marathi");
    ("Gujarat", VStr "Gujarati");
    ("Haryana", VStr "Hindi");
    ("Himachal Pradesh", VStr "Hindi, Sanskrit");
    ("Jharkhand", VStr "Hindi");
    ("Karnataka", VStr "Kannada");
    ("Kerala", VStr "Malayalam");
    ("Madhya Pradesh", VStr "Hindi");
    ("Maharashtra", VStr "Marathi");
    ("Manipur", VStr "Manipuri");
    ("Meghalaya", VStr "English");
    ("Mizoram", VStr "Mizo, English");
    ("Nagaland", VStr "English");
    ("Odisha", VStr "Odia");
    ("Punjab", VStr "Punjabi");
    ("Rajasthan", VStr "Hindi");
    ("Sikkim", VStr "Nepali, English");
    ("Tamil Nadu", VStr "Tamil");
    ("Telangana", VStr "Telugu, Urdu");
    ("Tripura", VStr "Bengali, English");
    ("Uttar Pradesh", VStr "Hindi, Urdu");
    ("Uttarakhand", VStr "Hindi, Sanskrit");
    ("West Bengal", VStr "Bengali");
    ("Delhi", VStr "Hindi, English");
    ("Jammu and Kashmir", VStr "Urdu, Kashmiri, Dogri");
    ("Ladakh", VStr "Ladakhi, Hindi, English")
  ].

(** Major crops by state. *)
Definition crops : list (string * cell) :=
  Dict.literal [
    ("Punjab", VStr "Wheat, Rice, Maize, Sugarcane");
    ("Haryana", VStr "Wheat, Rice, Sugarcane, Cotton");
    ("Uttar Pradesh", VStr "Wheat, Rice, Sugarcane, Pulses");
    ("Bihar", VStr "Rice, Wheat, Maize, Pulses");
    ("West Bengal", VStr "Rice, Jute, Tea, Pulses");
    ("Assam", VStr "Rice, Tea, Jute, Oilseeds");
    ("Gujarat", VStr "Cotton, Groundnut, Tobacco, Cumin");
    ("Maharashtra", VStr "Jowar, Cotton, Sugarcane, Pulses");
    ("Karnataka", VStr "Coffee, Silk, Ragi, Jowar");
    ("Tamil Nadu", VStr "Rice, Sugarcane, Banana, Cotton");
    ("Andhra Pradesh", VStr "Rice, Cotton, Sugarcane, Tobacco");
    ("Kerala", VStr "Coconut, Rubber, Cardamom, Pepper");
    ("Rajasthan", VStr "Bajra, Pulses, Oilseeds, Wheat");
    ("Madhya Pradesh", VStr "Soybean, Wheat, Rice, Maize")
  ].

(** Key industries by state. *)
Definition industries : list (string * cell) :=
  Dict.literal [
    ("Maharashtra", VStr "Automotive, IT, Textiles, Finance");
    ("Gujarat", VStr "Petrochemicals, Textiles, Pharmaceuticals");
    ("Tamil Nadu", VStr "Automotive, Textiles, Electronics");
    ("Karnataka", VStr "IT, Aerospace, Biotechnology");
    ("Delhi", VStr "IT, Media, Tourism, Retail");
    ("Telangana", VStr "IT, Pharmaceuticals, Biotechnology");
    ("Haryana", VStr "Automotive, IT, Agriculture");
    ("Uttar Pradesh", VStr "Food Processing, Cement, Handicrafts");
    ("West Bengal", VStr "Jute, Tea, Leather, Steel");
    ("Andhra Pradesh", VStr "Pharmaceuticals, Food Processing, Textiles");
    ("Kerala", VStr "Tourism, Coir, Spices, Seafood");
    ("Goa", VStr "Tourism, Pharmaceuticals, Mining");
    ("Punjab", VStr "Textiles, Food Processing, Sports Goods")
  ].

(** Famous destinations by state. *)
Definition destinations : list (string * cell) :=
  Dict.literal [
    ("Rajasthan", VStr "Jaipur, Udaipur, Jaisalmer, Jodhpur");
    ("Kerala", VStr "Alleppey, Munnar, Kochi, Thekkady");
    ("Goa", VStr "Baga Beach, Calangute, Anjuna, Old Goa");
    ("Himachal Pradesh", VStr "Shimla, Manali, Dharamshala, Dalhousie");
    ("Maharashtra", VStr "Mumbai, Ajanta & Ellora, Lonavala");
    ("Tamil Nadu", VStr "Chennai, Ooty, Kodaikanal, Mahabalipuram");
    ("Uttar Pradesh", VStr "Agra, Varanasi, Lucknow, Allahabad");
    ("Delhi", VStr "Red Fort, Qutub Minar, India Gate, Humayun's Tomb");
    ("Karnataka", VStr "Bangalore, Mysore, Hampi, Coorg");
    ("Uttarakhand", VStr "Rishikesh, Haridwar, Nainital, Mussoorie");
    ("Jammu and Kashmir", VStr "Srinagar, Gulmarg, Pahalgam, Leh");
    ("Ladakh", VStr "Leh, Pangong Lake, Nubra Valley, Zanskar")
  ].
Definition reconcile_state (df : DataFrame) : result DataFrame :=
  let df := add_missing state_default (missing_columns state_required df) df in
  df <- lookup_if_absent "HDI" "State" hdi_values (VDec 65 (-2)) df ;;
  df <- lookup_if_absent "Urbanization (%)" "State" urbanization_values (VDec 350 (-1)) df ;;
  df <- lookup_if_absent "Capital" "State" capitals (VStr "Unknown") df ;;
  df <- lookup_if_absent "Official Languages" "State" languages (VStr "Unknown") df ;;
  df <- lookup_if_absent "Major Crops" "State" crops
          (VStr "Various food and cash crops") df ;;
  df <- lookup_if_absent "Key Industries" "State" industries
          (VStr "Agriculture, Services, Small-scale industries") df ;;
  lookup_if_absent "Famous Destinations" "State" destinations
    (VStr "Various historical and natural attractions") df.

(** *** load_cultural_data *)

Definition cultural_required : list string :=
  ["Cultural Element"; "Count"; "Description"; "Historical Period"; "Region of Origin"].

Definition cultural_default (df : DataFrame) (col : string) : DataFrame :=
  if String.eqb col "Cultural Element" then pd.setitem_range df col (numbered "Element")
  else if String.eqb col "Count" then pd.setitem_scalar df col (VInt 0)
  else if String.eqb col "Description" then
    pd.setitem_scalar df col (VStr "No description available")
  else if String.eqb col "Historical Period" then
    pd.setitem_scalar df col (VStr "Unknown period")
  else if String.eqb col "Region of Origin" then pd.setitem_scalar df col (VStr "All India")
  else df.

Section Text.

(** The text [str] and the f-strings give a float. *)
Variable float_repr : pyfloat -> string.

(** [int(re.search(r'-?\d+', str(x)).group()) if re.search(r'-?\d+', str(x)) else 0] *)
Definition earliest_year (x : cell) : result cell :=
  match Py.search_signed_digits (str_of_cell float_repr x) with
  | Some m => z <- Py.int_of_str m ;; Ok (VInt z)
  | None => Ok (VInt 0)
  end.

Definition reconcile_cultural (df : DataFrame) : result DataFrame :=
  let df := add_missing cultural_default (missing_columns cultural_required df) df in
  (* For backward compatibility, add the old expected columns. *)
  df <- (if negb (pd.has_col df "Heritage_Type") && pd.has_col df "Cultural Element"
         then assign_copy df "Heritage_Type" "Cultural Element" else Ok df) ;;
  let df := if negb (pd.has_col df "Name")
            then pd.setitem_range df "Name" (numbered "Heritage") else df in
  df <- (if negb (pd.has_col df "State") && pd.has_col df "Associated States"
         then assign_copy df "State" "Associated States"
         else if negb (pd.has_col df "State") && pd.has_col df "Region of Origin"
         then assign_copy df "State" "Region of Origin"
         else if negb (pd.has_col df "State")
         then Ok (pd.setitem_scalar df "State" (VStr "Unknown"))
         else Ok df) ;;
  if negb (pd.has_col df "Year") && pd.has_col df "Historical Period" then
    col <- pd.getitem df "Historical Period" ;;
    years <- mapM earliest_year col ;;
    Ok (pd.setitem_series df "Year" (pd.infer years))
  else if negb (pd.has_col df "Year") then Ok (pd.setitem_scalar df "Year" (VInt 0))
  else Ok df.

End Text.

(** *** load_population_data *)

Definition population_required : list string :=
  ["Year"; "Population (millions)"; "Urban Population (%)"; "Rural Population (%)"].

Definition population_default (df : DataFrame) (col : string) : DataFrame :=
  if String.eqb col "Year" then
    (* list(range(1950, 1950 + len(df))) *)
    pd.setitem_range df col (fun i => VInt (1950 + Z.of_nat i))
  else if String.eqb col "Population (millions)" then pd.setitem_scalar df col (VDec 0 (-1))
  else if String.eqb col "Urban Population (%)" then pd.setitem_scalar df col (VDec 0 (-1))
  else if String.eqb col "Rural Population (%)" then pd.setitem_scalar df col (VDec 0 (-1))
  else df.

(** Ensure numeric types: [if col in df.columns: df[col] = pd.to_numeric(...)] *)
Definition ensure_numeric (df : DataFrame) (col : string) : DataFrame :=
  match Dict.get col (columns df) with
  | Some c => pd.setitem_series df col (pd.to_numeric c)
  | None => df
  end.

(** Filter out projections: [df[df['Year'] <= current_year]] *)
Definition up_to_year (current_year : Z) (df : DataFrame) : result DataFrame :=
  year <- pd.getitem df "Year" ;;
  mask <- mapM (pd.le_cell current_year) year ;;
  Ok (pd.filter_rows df mask).

(** The table before the projections are filtered out: the missing
    columns added and the four columns made numeric. *)
Definition population_numeric (df : DataFrame) : DataFrame :=
  let df := add_missing population_default (missing_columns population_required df) df in
  fold_left ensure_numeric population_required df.

Definition reconcile_population (current_year : Z) (df : DataFrame)
  : result DataFrame :=
  up_to_year current_year (population_numeric df).

(** *** load_economic_data *)

Definition economic_required : list string := ["Year"; "Agriculture"; "Industry"; "Services"].

Definition economic_default (df : DataFrame) (col : string) : DataFrame :=
  if String.eqb col "Year" then pd.setitem_range df col (fun i => VInt (1950 + Z.of_nat i))
  else pd.setitem_scalar df col (VDec 0 (-1)).

Definition reconcile_economic (df : DataFrame) : result DataFrame :=
  Ok (add_missing economic_default (missing_columns economic_required df) df).

(** Year ranges of specific eras. *)
Definition era_ranges : list (string * cell) :=
  Dict.literal [
    ("Indus Valley Civilization", VStr "2600-1900 BCE");
    ("Vedic Period", VStr "1500-600 BCE");
    ("Mauryan Empire", VStr "322-185 BCE");
    ("Post-Mauryan Period", VStr "185 BCE-320 CE");
    ("Gupta Empire", VStr "320-550 CE");
    ("Post-Gupta Period", VStr "550-1206 CE");
    ("Delhi Sultanate", VStr "1206-1526 CE");
    ("Vijayanagara Empire", VStr "1336-1646 CE");
    ("Mughal Empire", VStr "1526-1857 CE");
    ("Maratha Empire", VStr "1674-1818 CE");
    ("Colonial Era", VStr "1757-1947 CE");
    ("British Raj", VStr "1858-1947 CE");
    ("Independence Movement", VStr "1885-1947 CE");
    ("Republic of India", VStr "1950-Present");
    ("Post-Independence", VStr "1950-1991 CE");
    ("Economic Reforms", VStr "1991-2014 CE");
    ("Modern India", VStr "2014-Present");
    ("Ancient India", VStr "600-320 BCE");
    ("Medieval India", VStr "712-1757 CE");
    ("Age of Exploration", VStr "1498-1600 CE");
    ("Independence", VStr "1947-1950 CE")
  ].

(** Capital cities by era. *)
Definition capital_cities : list (string * cell) :=
  Dict.literal [
    ("Indus Valley Civilization", VStr "Harappa, Mohenjo-daro");
    ("Vedic Period", VStr "Various tribal capitals");
    ("Mauryan Empire", VStr "Pataliputra (modern Patna)");
    ("Gupta Empire", VStr "Pataliputra (modern Patna)");
    ("Delhi Sultanate", VStr "Delhi");
    ("Vijayanagara Empire", VStr "Hampi");
    ("Mughal Empire", VStr "Agra, Delhi, Fatehpur Sikri");
    ("Maratha Empire", VStr "Raigad, Pune");
    ("Colonial Era", VStr "Calcutta, Delhi");
    ("British Raj", VStr "Calcutta (until 1911), Delhi");
    ("Republic of India", VStr "New Delhi");
    ("Post-Independence", VStr "New Delhi");
    ("Modern India", VStr "New Delhi");
    ("Ancient India", VStr "Various regional capitals");
    ("Medieval India", VStr "Various regional capitals");
    ("Post-Mauryan Period", VStr "Various regional capitals");
    ("Post-Gupta Period", VStr "Kannauj, Thanesar");
    ("Independence Movement", VStr "N/A (political movement)");
    ("Independence", VStr "New Delhi");
    ("Economic Reforms", VStr "New Delhi");
    ("Age of Exploration", VStr "European trading posts")
  ].
(** Era notes for the column Cultural Developments. *)
Definition additional_Cultural_Developments : list (string * cell) :=
  Dict.literal [
    ("Indus Valley Civilization", VStr "Advanced urban planning, standardized weights and measures, sophisticated drainage systems, and possibly the development of the Indus script.");
    ("Vedic Period", VStr "Composition of the Vedas, development of Sanskrit, early Hindu rituals and practices, and emergence of the caste system.");
    ("Mauryan Empire", VStr "Buddhist art and architecture, rock-cut edicts, development of political philosophy through Arthashastra.");
    ("Gupta Empire", VStr "Golden Age of art, literature, and science. Sanskrit literature flourished with works of Kalidasa. Development of classical Indian music and dance forms.");
    ("Delhi Sultanate", VStr "Indo-Islamic fusion in art, architecture, and music. Introduction of Persian literary traditions.");
    ("Mughal Empire", VStr "Height of Indo-Islamic cultural synthesis. Miniature painting, Mughal architecture, Urdu poetry, and music flourished.");
    ("Colonial Era", VStr "Western influence on Indian culture, English education, modern literature, Bengal Renaissance.");
    ("Independence Movement", VStr "Revival of traditional arts as part of swadeshi movement, development of nationalist literature and music.");
    ("Republic of India", VStr "Constitutional framework, democratic institutions, secularism, and cultural pluralism.");
    ("Modern India", VStr "Digital revolution, global cultural influence through cinema and technology, fusion of traditional and modern art forms.")
  ].

(** Era notes for the column Religious Trends. *)
Definition additional_Religious_Trends : list (string * cell) :=
  Dict.literal [
    ("Indus Valley Civilization", VStr "Evidence of nature worship, ritual baths, and possibly proto-Shiva worship.");
    ("Vedic Period", VStr "Vedic religion with fire sacrifices, nature deities, and ritual practices that evolved into early Hinduism.");
    ("Ancient India", VStr "Rise of heterodox traditions like Buddhism and Jainism as reactions to Brahmanical orthodoxy.");
    ("Mauryan Empire", VStr "State patronage of Buddhism under Ashoka, spread of Buddhist missionaries to South and Southeast Asia.");
    ("Gupta Empire", VStr "Revival of Hinduism, particularly Vaishnavism and Shaivism, with continued Buddhist and Jain influence.");
    ("Medieval India", VStr "Introduction of Islam, development of Bhakti and Sufi movements emphasizing devotion and mysticism.");
    ("Mughal Empire", VStr "Syncretic religious policies under Akbar, attempts at creating Din-i-Ilahi, followed by more orthodox Islamic policies under Aurangzeb.");
    ("Colonial Era", VStr "Religious reform movements in Hinduism, Islam, and Sikhism; Christian missionary activities.");
    ("Independence Movement", VStr "Religious identities becoming intertwined with nationalist politics, ultimately leading to partition.");
    ("Republic of India", VStr "Constitutional secularism, religious pluralism, and legal reforms of religious practices.")
  ].

(** Era notes for the column Economic Systems. *)
Definition additional_Economic_Systems : list (string * cell) :=
  Dict.literal [
    ("Indus Valley Civilization", VStr "Trade-based economy with standardized weights and measures, agriculture, crafts, and long-distance trade with Mesopotamia.");
    ("Vedic Period", VStr "Pastoral and agricultural economy, barter system, and emergence of occupational specialization.");
    ("Mauryan Empire", VStr "Centralized economy with royal ownership of mines and forests, taxation system, and trade regulations described in Arthashastra.");
    ("Gupta Empire", VStr "Guild-based manufacturing, extensive trade networks, agricultural surplus, and sophisticated monetary system.");
    ("Delhi Sultanate", VStr "Feudal system, iqta land grants, agricultural taxation, and state monopolies on certain trades.");
    ("Mughal Empire", VStr "Sophisticated revenue system under Akbar (zabti), extensive international trade, and growth of urban manufacturing centers.");
    ("Colonial Era", VStr "Extractive colonial economy, deindustrialization, plantation agriculture, and integration into British imperial economic system.");
    ("Independence Movement", VStr "Emphasis on economic self-sufficiency, boycott of British goods, and promotion of indigenous industries.");
    ("Republic of India", VStr "Mixed economy with five-year plans, public sector dominance, agricultural reforms, and later economic liberalization.");
    ("Economic Reforms", VStr "Liberalization, privatization, and globalization of the Indian economy, rapid growth in services sector.");
    ("Modern India", VStr "Digital economy, startup ecosystem, service sector dominance, and integration into global supply chains.")
  ].

(** Era notes for the column Art & Architecture. *)
Definition additional_Art_Architecture : list (string * cell) :=
  Dict.literal [
    ("Indus Valley Civilization", VStr "Planned cities with grid layouts, advanced drainage systems, Great Bath at Mohenjo-daro, and small sculptures like the Dancing Girl.");
    ("Mauryan Empire", VStr "Pillars with animal capitals, especially the Sarnath Lion Capital, rock-cut architecture, and early Buddhist stupas.");
    ("Gupta Empire", VStr "Temple architecture, Ajanta and Ellora caves, sophisticated metal sculptures, and refined painting techniques.");
    ("Delhi Sultanate", VStr "Indo-Islamic architecture with arches and domes, Qutub Minar, and fortress construction.");
    ("Vijayanagara Empire", VStr "Temple complexes at Hampi with elaborate sculptural programs, musical pillars, and water systems.");
    ("Mughal Empire", VStr "Taj Mahal, Red Fort, Humayun's Tomb, miniature painting, intricate carpets, and jewelry craftsmanship.");
    ("Colonial Era", VStr "Indo-Saracenic architecture, Company School painting, and fusion of European and Indian artistic traditions.");
    ("Republic of India", VStr "Modernist architecture in Chandigarh by Le Corbusier, Bengal School of Art, and post-independence artistic movements.")
  ].

(** Era notes for the column Territorial Extent. *)
Definition additional_Territorial_Extent : list (string * cell) :=
  Dict.literal [
    ("Mauryan Empire", VStr "At its peak under Ashoka, extended from Afghanistan to Bengal and from the Himalayas to modern Karnataka.");
    ("Gupta Empire", VStr "Northern India, from the Indus River to Bengal, and from the Himalayas to the Narmada River.");
    ("Delhi Sultanate", VStr "Varying control over Northern India, with brief expansion into the Deccan under Muhammad bin Tughlaq.");
    ("Vijayanagara Empire", VStr "Most of South India, particularly modern Karnataka, Andhra Pradesh, Tamil Nadu, and parts of Kerala.");
    ("Mughal Empire", VStr "At its height under Aurangzeb, controlled almost the entire subcontinent except the southernmost regions.");
    ("Maratha Empire", VStr "Central India, with influence extending from Delhi in the north to Tamil Nadu in the south.");
    ("British Raj", VStr "Direct rule over most of the subcontinent, with princely states as protectorates, Burma (until 1937), and parts of Southeast Asia.")
  ].

(** Era notes for the column Social Structure. *)
Definition additional_Social_Structure : list (string * cell) :=
  Dict.literal [
    ("Vedic Period", VStr "Emergence of varna system (Brahmin, Kshatriya, Vaishya, Shudra), patriarchal family structure, and tribal organization.");
    ("Ancient India", VStr "Crystallization of the caste system, urban merchant classes, guilds of artisans, and monastic communities.");
    ("Gupta Empire", VStr "Complex caste-based society, powerful Brahmin class, guild organizations, and village self-governance.");
    ("Medieval India", VStr "Feudal relationships, emergence of Rajput clans, strengthening of caste boundaries, and status of women declining in upper castes.");
    ("Mughal Empire", VStr "Mansabdari system of nobles, religious pluralism under Akbar, complex court hierarchy, and urban merchant communities.");
    ("Colonial Era", VStr "Codification of caste, emergence of Western-educated elite, and new professional classes.");
    ("Republic of India", VStr "Constitutional protections for disadvantaged groups, affirmative action, urbanization, and changing family structures.")
  ].

(** Era notes for the column Scientific Advances. *)
Definition additional_Scientific_Advances : list (string * cell) :=
  Dict.literal [
    ("Indus Valley Civilization", VStr "Advanced drainage systems, standardized weights and measures, and knowledge of astronomy for agricultural calendars.");
    ("Vedic Period", VStr "Early astronomical observations, mathematical concepts in Vedic rituals, and medicinal knowledge in Atharvaveda.");
    ("Gupta Empire", VStr "Aryabhata's work on astronomy and mathematics, concept of zero, decimal system, calculation of pi, and trigonometry.");
    ("Medieval India", VStr "Advancements in algebra, astronomy, and medicine through scholars like Brahmagupta and Bhaskara II.");
    ("Mughal Empire", VStr "Astronomical observatories (Jantar Mantar), metallurgy, and synthesis of Indian and Persian medical traditions.");
    ("Colonial Era", VStr "Introduction of Western scientific education, establishment of scientific institutions, and early Indian participation in modern science.");
    ("Republic of India", VStr "Development of nuclear and space programs, biotechnology, pharmaceutical industry, and information technology.")
  ].

(** Era notes for the column Technological Innovations. *)
Definition additional_Technological_Innovations : list (string * cell) :=
  Dict.literal [
    ("Indus Valley Civilization", VStr "Precise standardized weights and measures, advanced metallurgy, sophisticated urban planning, and possibly docks for water transport.");
    ("Ancient India", VStr "Iron technology, steel production (wootz steel), shipbuilding, textile techniques, and water management systems.");
    ("Gupta Empire", VStr "Advanced metallurgy (Iron Pillar of Delhi), medical procedures described by Sushruta, and sophisticated textile production.");
    ("Medieval India", VStr "Paper manufacturing, water wheels, irrigation systems, and fortress construction techniques.");
    ("Mughal Empire", VStr "Advances in textile production, metalworking, gunpowder weapons, and architectural engineering.");
    ("Colonial Era", VStr "Railways, telegraph, modern irrigation systems, and mechanized industries.");
    ("Post-Independence", VStr "Green Revolution agricultural technologies, nuclear power, space program, and early computer systems.");
    ("Modern India", VStr "Software development, pharmaceutical manufacturing, renewable energy technologies, and digital payment systems.")
  ].

(** Era notes for the column Military Developments. *)
Definition additional_Military_Developments : list (string * cell) :=
  Dict.literal [
    ("Mauryan Empire", VStr "Large standing army with specialized divisions for infantry, cavalry, chariots, and elephants, described in detail in Arthashastra.");
    ("Gupta Empire", VStr "Skilled cavalry and elephant corps, development of the composite bow, and fortress defense strategies.");
    ("Delhi Sultanate", VStr "Introduction of heavy cavalry tactics, siege engines, and Turkish military organization.");
    ("Mughal Empire", VStr "Gunpowder weapons including artillery, matchlock infantry (Banduqchi), and sophisticated cavalry tactics.");
    ("Maratha Empire", VStr "Guerrilla warfare techniques, swift cavalry movements, and hill fort defense systems.");
    ("Colonial Era", VStr "Creation of British Indian Army, modern military organization, and incorporation of Indian martial traditions.");
    ("Republic of India", VStr "Development of modern military with indigenous defense production, nuclear weapons, and professional armed forces.")
  ].

(** Era notes for the column Foreign Relations. *)
Definition additional_Foreign_Relations : list (string * cell) :=
  Dict.literal [
    ("Ancient India", VStr "Diplomatic and trade contacts with Greek states following Alexander's invasion, embassy exchanges with the Roman Empire.");
    ("Mauryan Empire", VStr "Diplomatic relations with Hellenistic kingdoms, especially the Seleucids, embassy of Megasthenes, and Buddhist missions abroad.");
    ("Gupta Empire", VStr "Trade and cultural exchanges with Southeast Asia, China, and the Byzantine Empire.");
    ("Medieval India", VStr "Arab trade networks, diplomatic contacts with China, and influences from Central Asia.");
    ("Mughal Empire", VStr "Diplomatic relations with Safavid Persia, Ottoman Empire, and various European powers.");
    ("British Raj", VStr "India as part of the British imperial system, participation in World Wars, and colonial foreign policy.");
    ("Republic of India", VStr "Non-alignment policy during Cold War, leadership in Non-Aligned Movement, and later strategic partnerships.")
  ].

(** Era notes for the column Historical Legacy. *)
Definition additional_Historical_Legacy : list (string * cell) :=
  Dict.literal [
    ("Indus Valley Civilization", VStr "Urban planning concepts, possible continuities in religious iconography, and early standardization systems.");
    ("Vedic Period", VStr "Foundational texts of Hinduism, Sanskrit language and literature, and early philosophical concepts.");
    ("Mauryan Empire", VStr "Concepts of imperial governance, Ashoka's principles of dharma and non-violence, and Buddhist heritage.");
    ("Gupta Empire", VStr "Classical traditions in art, literature, and science, Hindu temple architecture, and mathematical innovations.");
    ("Delhi Sultanate", VStr "Indo-Islamic cultural synthesis, architectural traditions, and administrative systems.");
    ("Mughal Empire", VStr "Architectural monuments, miniature painting tradition, Urdu language, and administrative systems adopted by later states.");
    ("Colonial Era", VStr "Modern educational institutions, legal system, railways and infrastructure, and English language.");
    ("Independence Movement", VStr "Principles of non-violent resistance, democratic aspirations, and anti-colonial ideology.");
    ("Republic of India", VStr "Constitutional democracy, pluralistic society, and principles of secularism and federalism.")
  ].

(** The additional historical information columns, in the order of the
    source dictionary. *)
Definition additional_columns : list (string * list (string * cell)) :=
  Dict.literal [
    ("Cultural Developments", additional_Cultural_Developments);
    ("Religious Trends", additional_Religious_Trends);
    ("Economic Systems", additional_Economic_Systems);
    ("Art & Architecture", additional_Art_Architecture);
    ("Territorial Extent", additional_Territorial_Extent);
    ("Social Structure", additional_Social_Structure);
    ("Scientific Advances", additional_Scientific_Advances);
    ("Technological Innovations", additional_Technological_Innovations);
    ("Military Developments", additional_Military_Developments);
    ("Foreign Relations", additional_Foreign_Relations);
    ("Historical Legacy", additional_Historical_Legacy)
  ].
(** *** load_historical_data *)

Definition historical_required : list string := ["Year"; "Era"; "Event"; "Significance"].

Definition historical_default (df : DataFrame) (col : string) : DataFrame :=
  if String.eqb col "Year" then pd.setitem_scalar df col (VInt 0)
  else if String.eqb col "Era" then pd.setitem_scalar df col (VStr "Unknown")
  else if String.eqb col "Event" then pd.setitem_scalar df col (VStr "Unknown Event")
  else if String.eqb col "Significance" then
    pd.setitem_scalar df col (VStr "Unknown significance")
  else df.

(** [int(year)] *)
Definition int_of_cell (v : cell) : result Z :=
  match v with
  | VInt z => Ok z
  | VFloat (FFin q) => Ok (Z.quot (Qnum q) (Zpos (Qden q)))
  | VFloat (FInf _) => Raise OverflowError
  | VFloat FNaN => Raise ValueError
  | VStr s => Py.int_of_str s
  end.

(** Function to format year to time period. *)
Definition format_time_period (year : cell) : result cell :=
  year <- int_of_cell year ;;
  if year <? 0 then Ok (VStr (Py.str_of_Z (Z.abs year) ++ " BCE"))
  else Ok (VStr (Py.str_of_Z year ++ " CE")).

(** [era == row['Era']] *)
Definition eq_str_cell (s : string) (v : cell) : bool :=
  match v with VStr s' => String.eqb s s' | _ => false end.

Fixpoint foldM {A B : Type} (f : A -> B -> result A) (l : list B) (a : A)
  : result A :=
  match l with
  | [] => Ok a
  | x :: l' => a' <- f a x ;; foldM f l' a'
  end.

(** The body of [for i, row in df.iterrows()] that maps era ranges to
    specific eras: the first era of the table equal to the row's sets the
    time period. *)
Definition set_era_range (df : DataFrame) (i : nat) : result DataFrame :=
  era <- pd.at_ df i "Era" ;;
  match find (fun kv => eq_str_cell (fst kv) era) era_ranges with
  | Some (_, time_range) => pd.set_at df i "Time Period" time_range
  | None => Ok df
  end.

Definition add_time_period (df : DataFrame) : result DataFrame :=
  if pd.has_col df "Time Period" then Ok df
  else
    year <- pd.getitem df "Year" ;;
    periods <- mapM format_time_period year ;;
    let df := pd.setitem_series df "Time Period" (pd.infer periods) in
    foldM set_era_range (seq 0 (nrows df)) df.

Section EventText.

Variable float_repr : pyfloat -> string.

(** Combine Event and Significance as Major Events. *)
Definition major_event (event significance : cell) : cell :=
  if negb (isna event) && negb (isna significance) then
    VStr ("**" ++ str_of_cell float_repr event ++ "**: "
               ++ str_of_cell float_repr significance)
  else if negb (isna event) then event
  else if negb (isna significance) then significance
  else VStr "No event information available".

(** [df['Major Events'] = df.apply(lambda row: ..., axis=1)]: one text for
    each row; on a frame without rows the column is empty. *)
Definition add_major_events (df : DataFrame) : result DataFrame :=
  if pd.has_col df "Major Events" then Ok df
  else
    event <- pd.getitem df "Event" ;;
    significance <- pd.getitem df "Significance" ;;
    Ok (pd.setitem_series df "Major Events"
          (pd.infer (map (fun es => major_event (fst es) (snd es))
                         (combine event significance)))).

End EventText.

(** [for column, data_dict in additional_columns.items(): ...] *)
Definition add_additional (df : DataFrame) (entry : string * list (string * cell))
  : result DataFrame :=
  lookup_if_absent (fst entry) "Era" (snd entry) NaN df.

(** [needle in event], for the cell [event]: only a string can be searched. *)
Definition in_cell (needle : string) (event : cell) : result bool :=
  match event with
  | VStr s => Ok (Py.contains needle s)
  | _ => Raise TypeError
  end.

(** [if needle in event and pd.isna(df.at[i, c]): df.at[i, c] = text] *)
Definition fill_if_event (needle c text : string) (event : cell) (i : nat)
  (df : DataFrame) : result DataFrame :=
  hit <- in_cell needle event ;;
  if hit then
    v <- pd.at_ df i c ;;
    if isna v then pd.set_at df i c (VStr text) else Ok df
  else Ok df.

(** For key events not covered by the era mapping, add specific details. *)
Definition add_event_details (df : DataFrame) (i : nat) : result DataFrame :=
  e <- pd.at_ df i "Event" ;;
  let event := if negb (isna e) then e else VStr "" in
  df <- fill_if_event "Battle of Plassey" "Military Developments"
          "British victory through superior artillery and infantry tactics, showcasing European military advantage over traditional Indian armies."
          event i df ;;
  df <- fill_if_event "Gandhi returns" "Cultural Developments"
          "Introduction of Gandhian principles of simplicity, self-sufficiency, and non-violence that profoundly influenced Indian cultural values."
          event i df ;;
  fill_if_event "Economic liberalization" "Economic Systems"
    "Dismantling of License Raj, reduction of import tariffs, opening to foreign investment, and currency devaluation to address balance of payments crisis."
    event i df.

Definition reconcile_historical (float_repr : pyfloat -> string) (df : DataFrame)
  : result DataFrame :=
  let df := add_missing historical_default (missing_columns historical_required df) df in
  df <- add_time_period df ;;
  (* Timeline Year for sorting events chronologically in visualizations *)
  df <- (if pd.has_col df "Timeline Year" then Ok df
         else assign_copy df "Timeline Year" "Year") ;;
  df <- add_major_events float_repr df ;;
  df <- lookup_if_absent "Capital Cities" "Era" capital_cities (VStr "Unknown") df ;;
  df <- (if negb (pd.has_col df "Key Rulers/Leaders") && pd.has_col df "Key Figures"
         then assign_copy df "Key Rulers/Leaders" "Key Figures"
         else if negb (pd.has_col df "Key Rulers/Leaders")
         then Ok (pd.setitem_scalar df "Key Rulers/Leaders" (VStr "Various"))
         else Ok df) ;;
  df <- foldM add_additional additional_columns df ;;
  foldM add_event_details (seq 0 (nrows df)) df.

(** *** load_festivals_data *)

(** Mappings from actual columns to expected columns. *)
Definition festivals_column_mappings : list (string * string) :=
  Dict.literal [("Religion/Type", "Religion"); ("Primary States", "Region");
                ("Season", "Month")].

(** Rename columns based on mappings if they exist. *)
Definition festivals_rename (df : DataFrame) (m : string * string)
  : result DataFrame :=
  let '(actual_col, expected_col) := m in
  if pd.has_col df actual_col && negb (pd.has_col df expected_col)
  then assign_copy df expected_col actual_col else Ok df.

Definition festivals_required : list string := ["Festival"; "Religion"; "Region"; "Month"].

Definition festivals_default (df : DataFrame) (col : string) : DataFrame :=
  if String.eqb col "Festival" then pd.setitem_range df col (numbered "Festival")
  else if String.eqb col "Religion" then pd.setitem_scalar df col (VStr "Unknown")
  else if String.eqb col "Region" then pd.setitem_scalar df col (VStr "All India")
  else if String.eqb col "Month" then pd.setitem_scalar df col (VStr "January")
  else df.

(** Process Season to extract just the month: the first month of a range
    such as October-November. *)
Definition month_from_season (df : DataFrame) : result DataFrame :=
  if pd.has_col df "Season" && pd.has_col df "Month" then
    season <- pd.getitem df "Season" ;;
    month <- pd.str_extract Py.search_letters season ;;
    Ok (pd.setitem_series df "Month" month)
  else Ok df.

(** Default environmental impact values based on festival characteristics. *)
Definition environmental_impact : list (string * cell) :=
  Dict.literal [
    ("Diwali", VStr "High - Air pollution from fireworks, increased waste from packaging, and energy consumption from lights");
    ("Holi", VStr "Moderate to High - Water usage and chemical colors can contaminate water bodies, though natural colors are increasingly used");
    ("Durga Puja", VStr "Moderate - Idol immersion impacts water bodies, though eco-friendly materials are increasingly used");
    ("Ganesh Chaturthi", VStr "Moderate to High - Water pollution from idol immersion, though eco-friendly clay idols are being promoted");
    ("Navratri/Dussehra", VStr "Moderate - Burning of effigies causes air pollution, increased waste from decorations");
    ("Onam", VStr "Low - Primarily uses biodegradable materials like flowers and leaves for decorations");
    ("Pongal/Makar Sankranti", VStr "Low to Moderate - Generally eco-friendly with some waste from kite materials in certain regions");
    ("Bihu", VStr "Low - Mostly uses natural and biodegradable materials");
    ("Eid al-Fitr", VStr "Low to Moderate - Primarily food waste and packaging waste from new items");
    ("Eid al-Adha", VStr "Moderate - Animal sacrifice creates biological waste, though usually well-managed");
    ("Muharram", VStr "Low - Limited environmental impact from processions");
    ("Christmas", VStr "Moderate - Tree cutting (though artificial trees are common), packaging waste from gifts");
    ("Easter", VStr "Low - Minimal environmental impact from celebrations");
    ("Baisakhi", VStr "Low - Agricultural festival with minimal environmental footprint");
    ("Guru Nanak Jayanti", VStr "Low - Minimal waste due to community meals using reusable plates");
    ("Buddha Purnima", VStr "Low - Emphasis on non-violence extends to environmental consciousness");
    ("Mahavir Jayanti", VStr "Low - Jain principles emphasize environmental protection");
    ("Parsi New Year (Nowruz)", VStr "Low - Small community with limited environmental impact");
    ("Raksha Bandhan", VStr "Low to Moderate - Waste from packaging of gifts and rakhis");
    ("Karva Chauth", VStr "Low - Minimal environmental impact");
    ("Chhath Puja", VStr "Moderate - Water pollution from offerings and waste near riverbanks");
    ("Gudi Padwa/Ugadi", VStr "Low - Uses mostly biodegradable traditional materials");
    ("Puthandu/Vishu", VStr "Low - Primarily uses natural materials like flowers and fruits");
    ("Teej", VStr "Low - Minimal environmental impact from celebrations");
    ("Hornbill Festival", VStr "Moderate - Increased waste and carbon footprint from tourism");
    ("Hemis Festival", VStr "Low - Small scale with traditional materials");
    ("Pushkar Camel Fair", VStr "Moderate - Large gathering creating waste and strain on local resources");
    ("Thrissur Pooram", VStr "Moderate - Fireworks cause noise and air pollution");
    ("Kumbh Mela", VStr "High - Massive gathering creating waste management challenges, water pollution, though improved management in recent years")
  ].

(** Economic impact values by festival. *)
Definition economic_impact : list (string * cell) :=
  Dict.literal [
    ("Diwali", VInt 7200);
    ("Holi", VInt 1500);
    ("Durga Puja", VInt 1200);
    ("Ganesh Chaturthi", VInt 950);
    ("Navratri/Dussehra", VInt 1700);
    ("Onam", VInt 500);
    ("Pongal/Makar Sankranti", VInt 650);
    ("Bihu", VInt 320);
    ("Eid al-Fitr", VInt 920);
    ("Eid al-Adha", VInt 750);
    ("Muharram", VInt 220);
    ("Christmas", VInt 780);
    ("Easter", VInt 180);
    ("Baisakhi", VInt 350);
    ("Guru Nanak Jayanti", VInt 290);
    ("Buddha Purnima", VInt 150);
    ("Mahavir Jayanti", VInt 130);
    ("Parsi New Year (Nowruz)", VInt 80);
    ("Raksha Bandhan", VInt 620);
    ("Karva Chauth", VInt 410);
    ("Chhath Puja", VInt 280);
    ("Gudi Padwa/Ugadi", VInt 380);
    ("Puthandu/Vishu", VInt 270);
    ("Teej", VInt 230);
    ("Hornbill Festival", VInt 170);
    ("Hemis Festival", VInt 90);
    ("Pushkar Camel Fair", VInt 310);
    ("Thrissur Pooram", VInt 250);
    ("Kumbh Mela", VInt 2200)
  ].

(** Participant numbers by festival. *)
Definition participants : list (string * cell) :=
  Dict.literal [
    ("Diwali", VInt 800);
    ("Holi", VInt 400);
    ("Durga Puja", VInt 120);
    ("Ganesh Chaturthi", VInt 100);
    ("Navratri/Dussehra", VInt 350);
    ("Onam", VInt 35);
    ("Pongal/Makar Sankranti", VInt 200);
    ("Bihu", VInt 25);
    ("Eid al-Fitr", VInt 180);
    ("Eid al-Adha", VInt 170);
    ("Muharram", VInt 80);
    ("Christmas", VInt 60);
    ("Easter", VInt 30);
    ("Baisakhi", VInt 45);
    ("Guru Nanak Jayanti", VInt 40);
    ("Buddha Purnima", VInt 20);
    ("Mahavir Jayanti", VInt 15);
    ("Parsi New Year (Nowruz)", VDec 5 (-1));
    ("Raksha Bandhan", VInt 250);
    ("Karva Chauth", VInt 120);
    ("Chhath Puja", VInt 70);
    ("Gudi Padwa/Ugadi", VInt 80);
    ("Puthandu/Vishu", VInt 40);
    ("Teej", VInt 60);
    ("Hornbill Festival", VDec 8 (-1));
    ("Hemis Festival", VDec 5 (-1));
    ("Pushkar Camel Fair", VInt 2);
    ("Thrissur Pooram", VInt 3);
    ("Kumbh Mela", VInt 220)
  ].

(** Tourist attraction levels (1-10 scale). *)
Definition tourist_levels : list (string * cell) :=
  Dict.literal [
    ("Diwali", VInt 9);
    ("Holi", VInt 10);
    ("Durga Puja", VInt 8);
    ("Ganesh Chaturthi", VInt 8);
    ("Navratri/Dussehra", VInt 7);
    ("Onam", VInt 7);
    ("Pongal/Makar Sankranti", VInt 6);
    ("Bihu", VInt 5);
    ("Eid al-Fitr", VInt 5);
    ("Eid al-Adha", VInt 4);
    ("Muharram", VInt 3);
    ("Christmas", VInt 6);
    ("Easter", VInt 4);
    ("Baisakhi", VInt 6);
    ("Guru Nanak Jayanti", VInt 5);
    ("Buddha Purnima", VInt 6);
    ("Mahavir Jayanti", VInt 3);
    ("Parsi New Year (Nowruz)", VInt 2);
    ("Raksha Bandhan", VInt 4);
    ("Karva Chauth", VInt 3);
    ("Chhath Puja", VInt 4);
    ("Gudi Padwa/Ugadi", VInt 4);
    ("Puthandu/Vishu", VInt 4);
    ("Teej", VInt 5);
    ("Hornbill Festival", VInt 9);
    ("Hemis Festival", VInt 8);
    ("Pushkar Camel Fair", VInt 10);
    ("Thrissur Pooram", VInt 9);
    ("Kumbh Mela", VInt 10)
  ].

(** Global reach by festival. *)
Definition global_celebrations : list (string * cell) :=
  Dict.literal [
    ("Diwali", VStr "Celebrated in 30+ countries across North America, Europe, Asia, Africa, and Australia");
    ("Holi", VStr ("Celebrated in 40+ countries, with growing popularity as " ++ dq ++ "color festivals" ++ dq ++ " globally"));
    ("Durga Puja", VStr "Celebrated in 15+ countries with significant Bengali diaspora communities");
    ("Ganesh Chaturthi", VStr "Celebrated in 12+ countries with significant Maharashtrian communities");
    ("Navratri/Dussehra", VStr "Celebrated in 20+ countries with significant Indian diaspora");
    ("Onam", VStr "Celebrated in 8+ countries with Malayali diaspora communities");
    ("Pongal/Makar Sankranti", VStr "Celebrated in 10+ countries with Tamil and Indian diaspora");
    ("Bihu", VStr "Celebrated in 5+ countries with Assamese communities");
    ("Eid al-Fitr", VStr "Celebrated in 25+ countries with Indian Muslim communities");
    ("Eid al-Adha", VStr "Celebrated in 22+ countries with Indian Muslim communities");
    ("Muharram", VStr "Observed in 15+ countries with Shia Muslim communities");
    ("Christmas", VStr "Celebrated in 30+ countries with Indian Christian communities");
    ("Easter", VStr "Celebrated in 20+ countries with Indian Christian communities");
    ("Baisakhi", VStr "Celebrated in 18+ countries with significant Sikh diaspora");
    ("Guru Nanak Jayanti", VStr "Celebrated in 15+ countries with Sikh communities");
    ("Buddha Purnima", VStr "Celebrated in 10+ countries with Buddhist connections");
    ("Mahavir Jayanti", VStr "Celebrated in 7+ countries with Jain diaspora");
    ("Parsi New Year (Nowruz)", VStr "Celebrated in 5+ countries with Parsi communities");
    ("Raksha Bandhan", VStr "Celebrated in 14+ countries with Indian diaspora");
    ("Karva Chauth", VStr "Celebrated in 8+ countries with North Indian diaspora");
    ("Chhath Puja", VStr "Celebrated in 6+ countries with Bihari diaspora");
    ("Gudi Padwa/Ugadi", VStr "Celebrated in 7+ countries with South Indian diaspora");
    ("Puthandu/Vishu", VStr "Celebrated in 6+ countries with Tamil and Malayalam diaspora");
    ("Teej", VStr "Celebrated in 5+ countries with North Indian communities");
    ("Hornbill Festival", VStr "Recognized in 3+ countries through cultural exchanges");
    ("Hemis Festival", VStr "Recognized in 4+ countries with Tibetan Buddhist communities");
    ("Pushkar Camel Fair", VStr "Attracts tourists from 25+ countries annually");
    ("Thrissur Pooram", VStr "Recognized in 5+ countries through cultural showcases");
    ("Kumbh Mela", VStr "Attracts pilgrims and tourists from 20+ countries")
  ].
Definition reconcile_festivals (df : DataFrame) : result DataFrame :=
  df <- foldM festivals_rename festivals_column_mappings df ;;
  let df := add_missing festivals_default (missing_columns festivals_required df) df in
  df <- month_from_season df ;;
  df <- lookup_if_absent "Environmental Impact" "Festival" environmental_impact
          (VStr "Moderate - General waste generation and energy usage common to mid-sized gatherings")
          df ;;
  df <- (if negb (pd.has_col df "Economic Impact (Millions USD)")
            && negb (pd.has_col df "Economic Impact (USD millions)")
         then assign_map df "Economic Impact (Millions USD)" "Festival"
                (fun x => Dict.get_cell economic_impact x (VInt 250))
         else Ok df) ;;
  df <- lookup_if_absent "Participants (millions)" "Festival" participants (VInt 30) df ;;
  df <- lookup_if_absent "Tourist Attraction Level" "Festival" tourist_levels (VInt 5) df ;;
  lookup_if_absent "Global Celebrations" "Festival" global_celebrations
    (VStr "Celebrated in 3+ countries with Indian diaspora communities") df.

(** *** load_tourism_data *)

(** Mappings from expected columns to actual columns. *)
Definition tourism_column_mappings : list (string * string) :=
  Dict.literal [("Destination", "Popular Destinations"); ("State", "Key States");
                ("Type", "Tourism Type");
                ("Visitors_Annual", "Annual Visitors (millions)")].

(** [val.split(',')[0].strip()] *)
Definition first_of_list (val : string) : string :=
  Py.strip (hd EmptyString (Py.split "," val)).

(** The destination of row [i]: the first of a comma-separated list, or a
    default name if the value is not a string. *)
Definition destination_of (i : nat) (val : cell) : cell :=
  match val with
  | VStr s => VStr (first_of_list s)
  | _ => numbered "Destination" i
  end.

Definition state_of (val : cell) : cell :=
  match val with
  | VStr s => VStr (first_of_list s)
  | _ => VStr "Unknown"
  end.

(** [enumerate(l)] *)
Definition enumerate {A : Type} (l : list A) : list (nat * A) :=
  combine (seq 0 (length l)) l.

(** Create expected columns from actual columns if they exist. *)
Definition tourism_derive (df : DataFrame) (m : string * string)
  : result DataFrame :=
  let '(expected_col, actual_col) := m in
  if pd.has_col df actual_col && negb (pd.has_col df expected_col) then
    if String.eqb expected_col "Destination" then
      col <- pd.getitem df actual_col ;;
      pd.setitem_list df expected_col
        (map (fun iv => destination_of (fst iv) (snd iv)) (enumerate col))
    else if String.eqb expected_col "State" then
      col <- pd.getitem df actual_col ;;
      pd.setitem_list df expected_col (map state_of col)
    else assign_copy df expected_col actual_col
  else Ok df.

Definition tourism_required : list string := ["Destination"; "State"; "Type"; "Visitors_Annual"].

Definition tourism_default (df : DataFrame) (col : string) : DataFrame :=
  if String.eqb col "Destination" then pd.setitem_range df col (numbered "Destination")
  else if String.eqb col "State" then pd.setitem_scalar df col (VStr "Unknown")
  else if String.eqb col "Type" then pd.setitem_scalar df col (VStr "Monument")
  else if String.eqb col "Visitors_Annual" then pd.setitem_scalar df col (VInt 0)
  else df.

Definition reconcile_tourism (df : DataFrame) : result DataFrame :=
  df <- foldM tourism_derive tourism_column_mappings df ;;
  Ok (add_missing tourism_default (missing_columns tourism_required df) df).

(** *** load_education_data *)

(** Expected columns and their fallback values. *)
Definition expected_columns : list (string * cell) :=
  Dict.literal [
    ("National Literacy Rate (%)", VDec 787 (-1));
    ("Primary Enrollment Rate (%)", VDec 942 (-1));
    ("Number of Universities", VInt 1047);
    ("Higher Education Enrollment (millions)", VDec 385 (-1));
    ("State Names", VStr "Kerala, Delhi, Tamil Nadu, Himachal Pradesh, Maharashtra");
    ("State Literacy Rates (%)", VStr "96.2, 93.2, 90.4, 89.5, 88.9");
    ("State Primary Enrollment (%)", VStr "98.5, 97.2, 97.0, 96.3, 96.0");
    ("State Secondary Enrollment (%)", VStr "90.9, 88.7, 85.9, 91.5, 87.2");
    ("State Higher Ed Enrollment (%)", VStr "36.9, 36.0, 49.0, 30.8, 32.2");
    ("Literacy Rate Years", VStr "1951, 1961, 1971, 1981, 1991, 2001, 2011, 2021");
    ("Literacy Rate History", VStr "18.3, 28.3, 34.5, 43.6, 52.2, 64.8, 74.0, 78.7");
    ("Number of Primary Schools", VStr "848,712");
    ("Number of Secondary Schools", VStr "271,385");
    ("Number of Colleges", VStr "42,343");
    ("Number of Universities", VStr "1,047");
    ("Number of Technical Institutions", VStr "10,827");
    ("Regional Names", VStr "North, South, East, West, Central, Northeast");
    ("Regional Primary Schools", VStr "196,000, 187,000, 142,000, 164,000, 91,000, 68,712");
    ("Regional Secondary Schools", VStr "62,500, 71,350, 47,000, 53,535, 23,000, 14,000");
    ("Regional Colleges", VStr "10,650, 13,960, 5,500, 8,233, 2,500, 1,500");
    ("Regional Population (millions)", VStr "365, 252, 230, 213, 115, 46");
    ("Teacher-Student Ratio Primary", VStr "1:26");
    ("Teacher-Student Ratio Secondary", VStr "1:22");
    ("Teacher-Student Ratio Higher Ed", VStr "1:24");
    ("PISA Reading Score", VStr "415");
    ("PISA Math Score", VStr "428");
    ("PISA Science Score", VStr "419");
    ("Global Innovation Index", VStr "37.2/100");
    ("Higher Education Quality Rank", VStr "16/50");
    ("PISA Comparison Countries", VStr "India, China, UK, USA, Brazil");
    ("PISA Comparison Reading", VStr "415, 555, 504, 505, 413");
    ("PISA Comparison Math", VStr "428, 591, 502, 478, 384");
    ("PISA Comparison Science", VStr "419, 590, 505, 502, 404");
    ("Top Universities", VStr "IIT Bombay, IISc Bangalore, IIT Delhi, IIT Madras, IIT Kanpur");
    ("University World Ranks", VStr "177, 185, 193, 255, 264");
    ("Gender Parity Primary", VStr "1.03");
    ("Gender Parity Secondary", VStr "1.01");
    ("Gender Parity Higher Ed", VStr "1.05");
    ("State Female Literacy (%)", VStr "92.0, 89.6, 86.4, 83.7, 83.1");
    ("State Male Literacy (%)", VStr "97.4, 95.7, 93.1, 93.6, 92.9")
  ].
(** Check for missing columns and add them with default values. *)
Definition education_fill (df : DataFrame) (entry : string * cell) : DataFrame :=
  let '(col, default_value) := entry in
  if pd.has_col df col then df else pd.setitem_scalar df col default_value.

(** The legacy check. *)
Definition education_required : list string :=
  ["State"; "Literacy_Rate"; "Primary_Enrollment"; "Higher_Education_GER"].

Definition education_default (df : DataFrame) (col : string) : DataFrame :=
  if String.eqb col "State" then pd.setitem_range df col (numbered "State")
  else pd.setitem_scalar df col (VDec 0 (-1)).

Definition reconcile_education (df : DataFrame) : result DataFrame :=
  let df := fold_left education_fill expected_columns df in
  Ok (add_missing education_default (missing_columns education_required df) df).

(** The minimal dataframe with expected columns that the handler builds:
    [pd.DataFrame({col: [val] for col, val in expected_columns.items()})] *)
Definition education_fallback : DataFrame :=
  pd.DataFrame_of_dict (map (fun cv => (fst cv, [snd cv])) expected_columns).

(** *** load_geography_data *)

(** Sample terrain data. *)
Definition terrain_data : list (string * list cell) :=
  Dict.literal [
    ("Terrain_Type", [VStr "Mountains"; VStr "Plains"; VStr "Plateaus";
                      VStr "Deserts"; VStr "Coastlines"; VStr "Forests"]);
    ("Percentage", [VDec 153 (-1); VDec 432 (-1); VDec 278 (-1);
                    VDec 79 (-1); VDec 35 (-1); VDec 23 (-1)]);
    ("Area_sq_km", [VInt 502000; VInt 1419000; VInt 914000;
                    VInt 260000; VInt 115000; VInt 77000])
  ].

(** If terrain data is missing, create a sample dataset. *)
Definition reconcile_geography (df : DataFrame) : result DataFrame :=
  if negb (pd.has_col df "Terrain_Type") || negb (pd.has_col df "Percentage")
  then Ok (pd.DataFrame_of_dict terrain_data)
  else Ok df.

(** *** The loaders *)

(** The [try] block of a loader: the existence check, the read and the
    reconciliation. [Ok None] is the early [return None]. *)
Definition try_load (fs : filesystem) (file_path : string)
  (reconcile : DataFrame -> result DataFrame) : result (option DataFrame) :=
  if negb (path_exists fs file_path) then Ok None
  else
    df <- columns_of (safe_read_csv fs file_path) ;;
    df <- reconcile df ;;
    Ok (Some df).

(** [except Exception: st.error(...); return None] *)
Definition or_none (r : result (option DataFrame)) : option DataFrame :=
  match r with
  | Ok df => df
  | Raise _ => None
  end.

(** [except Exception: st.error(...); return <fallback>] *)
Definition or_fallback (fallback : DataFrame) (r : result (option DataFrame))
  : option DataFrame :=
  match r with
  | Ok df => df
  | Raise _ => Some fallback
  end.

Section Loaders.

Variable fs : filesystem.
(** [pd.Timestamp.now().year] *)
Variable current_year : Z.
Variable float_repr : pyfloat -> string.

Definition load_linguistic_data_try := try_load fs "data/languages.csv" reconcile_linguistic.
Definition load_linguistic_data := or_none load_linguistic_data_try.

Definition load_religious_data_try := try_load fs "data/religions.csv" reconcile_religious.
Definition load_religious_data := or_none load_religious_data_try.

Definition load_state_data_try := try_load fs "data/states.csv" reconcile_state.
Definition load_state_data := or_none load_state_data_try.

Definition load_cultural_data_try :=
  try_load fs "data/cultural_heritage.csv" (reconcile_cultural float_repr).
Definition load_cultural_data := or_none load_cultural_data_try.

Definition load_population_data_try :=
  try_load fs "data/population_growth.csv" (reconcile_population current_year).
Definition load_population_data := or_none load_population_data_try.

Definition load_economic_data_try := try_load fs "data/economic_sectors.csv" reconcile_economic.
Definition load_economic_data := or_none load_economic_data_try.

Definition load_historical_data_try :=
  try_load fs "data/historical_timeline.csv" (reconcile_historical float_repr).
Definition load_historical_data := or_none load_historical_data_try.

Definition load_festivals_data_try := try_load fs "data/festivals.csv" reconcile_festivals.
Definition load_festivals_data := or_none load_festivals_data_try.

Definition load_tourism_data_try := try_load fs "data/tourism.csv" reconcile_tourism.
Definition load_tourism_data := or_none load_tourism_data_try.

Definition load_education_data_try := try_load fs "data/education.csv" reconcile_education.
Definition load_education_data := or_fallback education_fallback load_education_data_try.

Definition load_geography_data_try := try_load fs "data/geography.csv" reconcile_geography.
Definition load_geography_data :=
  or_fallback (pd.DataFrame_of_dict terrain_data) load_geography_data_try.

End Loaders.

(** *** The domains *)

Inductive domain : Type :=
| linguistic | religious | state | cultural | population | economic
| historical | festivals | tourism | education | geography.

Definition all_datasets : list domain :=
  [linguistic; religious; state; cultural; population; economic; historical;
   festivals; tourism; education; geography].

Section Domains.

Variable current_year : Z.
Variable float_repr : pyfloat -> string.

(** The schema reconciliation of a domain: what its loader does to the
    table it has read. *)
Definition reconcile (d : domain) : DataFrame -> result DataFrame :=
  match d with
  | linguistic => reconcile_linguistic
  | religious => reconcile_religious
  | state => reconcile_state
  | cultural => reconcile_cultural float_repr
  | population => reconcile_population current_year
  | economic => reconcile_economic
  | historical => reconcile_historical float_repr
  | festivals => reconcile_festivals
  | tourism => reconcile_tourism
  | education => reconcile_education
  | geography => reconcile_geography
  end.

Variable fs : filesystem.

(** The [try] block of the loader of a domain. *)
Definition load_try (d : domain) : result (option DataFrame) :=
  match d with
  | linguistic => load_linguistic_data_try fs
  | religious => load_religious_data_try fs
  | state => load_state_data_try fs
  | cultural => load_cultural_data_try fs float_repr
  | population => load_population_data_try fs current_year
  | economic => load_economic_data_try fs
  | historical => load_historical_data_try fs float_repr
  | festivals => load_festivals_data_try fs
  | tourism => load_tourism_data_try fs
  | education => load_education_data_try fs
  | geography => load_geography_data_try fs
  end.

(** The loader of a domain, as [preload_data] dispatches. *)
Definition load (d : domain) : option DataFrame :=
  match d with
  | linguistic => load_linguistic_data fs
  | religious => load_religious_data fs
  | state => load_state_data fs
  | cultural => load_cultural_data fs float_repr
  | population => load_population_data fs current_year
  | economic => load_economic_data fs
  | historical => load_historical_data fs float_repr
  | festivals => load_festivals_data fs
  | tourism => load_tourism_data fs
  | education => load_education_data fs
  | geography => load_geography_data fs
  end.

(** The file a loader reads. *)
Definition file_path (d : domain) : string :=
  match d with
  | linguistic => "data/languages.csv"
  | religious => "data/religions.csv"
  | state => "data/states.csv"
  | cultural => "data/cultural_heritage.csv"
  | population => "data/population_growth.csv"
  | economic => "data/economic_sectors.csv"
  | historical => "data/historical_timeline.csv"
  | festivals => "data/festivals.csv"
  | tourism => "data/tourism.csv"
  | education => "data/education.csv"
  | geography => "data/geography.csv"
  end.

(** The name [preload_data] knows a domain by. *)
Definition dataset_name (d : domain) : string :=
  match d with
  | linguistic => "linguistic"
  | religious => "religious"
  | state => "state"
  | cultural => "cultural"
  | population => "population"
  | economic => "economic"
  | historical => "historical"
  | festivals => "festivals"
  | tourism => "tourism"
  | education => "education"
  | geography => "geography"
  end.

(** Preload datasets: the requested names, or all of them for [None], each
    loaded in turn into a dictionary; a name that is not a dataset is
    passed over. *)
Definition preload_data (datasets : option (list string))
  : list (string * option DataFrame) :=
  let datasets :=
    match datasets with
    | None => map dataset_name all_datasets
    | Some l => l
    end in
  fold_left
    (fun data dataset =>
       match find (fun d => String.eqb dataset (dataset_name d)) all_datasets with
       | Some d => Dict.set dataset (load d) data
       | None => data
       end)
    datasets [].

End Domains.

End utils.

(** ** modules/chapters/education_landscape.py

    The composite fields of the one-row education table are parsed where
    they are used, inside [render]. Each definition below is one of those
    expressions, applied to the cell [df[column].iloc[0]]. *)

Module education_landscape.

(** [v.split(', ') if isinstance(v, str) else []]: [state_names]. *)
Definition state_names (v : cell) : list string :=
  match v with
  | VStr s => Py.split ", " s
  | _ => []
  end.

(** [[float(x) for x in v.split(', ')] if isinstance(v, str) else []]:
    [literacy_rates], [primary_enrollment], [secondary_enrollment],
    [higher_ed_enrollment], [female_literacy] and [male_literacy]. *)
Definition float_list (v : cell) : result (list pyfloat) :=
  match v with
  | VStr s => mapM Float.of_str (Py.split ", " s)
  | _ => Ok []
  end.

(** [float(v.replace('1:', '')) if isinstance(v, str) else 0]:
    [primary_ratio_val], [secondary_ratio_val] and [higher_ed_ratio_val]. *)
Definition ratio_val (v : cell) : result cell :=
  match v with
  | VStr s => f <- Float.of_str (Py.replace "1:" "" s) ;; Ok (VFloat f)
  | _ => Ok (VInt 0)
  end.

(** [float(v.split('/')[0]) if isinstance(v, str) else 0]:
    [innovation_index_val] and [higher_ed_rank_val]. *)
Definition fraction_val (v : cell) : result cell :=
  match v with
  | VStr s => f <- Float.of_str (hd EmptyString (Py.split "/" s)) ;; Ok (VFloat f)
  | _ => Ok (VInt 0)
  end.

(** [float(v) if isinstance(v, str) else 0]: the PISA scores and the
    gender parity indices. *)
Definition float_val (v : cell) : result cell :=
  match v with
  | VStr s => f <- Float.of_str s ;; Ok (VFloat f)
  | _ => Ok (VInt 0)
  end.

(** The kinds of composite field and what a parse gives. *)
Inductive kind : Type := KNames | KFloats | KRatio | KFraction | KFloat.

Inductive parsed : Type :=
| PNames (l : list string)
| PFloats (l : list pyfloat)
| PNumber (v : cell).

Definition parse (k : kind) (v : cell) : result parsed :=
  match k with
  | KNames => Ok (PNames (state_names v))
  | KFloats => l <- float_list v ;; Ok (PFloats l)
  | KRatio => x <- ratio_val v ;; Ok (PNumber x)
  | KFraction => x <- fraction_val v ;; Ok (PNumber x)
  | KFloat => x <- float_val v ;; Ok (PNumber x)
  end.

(** What the [else] branch of each parser gives. *)
Definition no_data (k : kind) : parsed :=
  match k with
  | KNames => PNames []
  | KFloats => PFloats []
  | KRatio | KFraction | KFloat => PNumber (VInt 0)
  end.

(** The columns of [states_df]: five lists cut to their common length
    ([l[:min_length]]); nothing is built when that length is 0. *)
Record states_columns : Type := mkStates {
  State : list string;
  Literacy_Rate : list pyfloat;
  Primary_Enrollment : list pyfloat;
  Secondary_Enrollment : list pyfloat;
  Higher_Ed_Enrollment : list pyfloat
}.

Definition states_df (state_names : list string)
  (literacy_rates primary_enrollment secondary_enrollment
   higher_ed_enrollment : list pyfloat) : option states_columns :=
  let min_length :=
    Nat.min (length state_names)
      (Nat.min (length literacy_rates)
         (Nat.min (length primary_enrollment)
            (Nat.min (length secondary_enrollment)
               (length higher_ed_enrollment)))) in
  if (0 <? min_length)%nat then
    Some (mkStates (firstn min_length state_names)
                   (firstn min_length literacy_rates)
                   (firstn min_length primary_enrollment)
                   (firstn min_length secondary_enrollment)
                   (firstn min_length higher_ed_enrollment))
  else None.

(** The columns of [state_gender_df], before the literacy gap is added. *)
Record gender_columns : Type := mkGender {
  Gender_State : list string;
  Female_Literacy : list pyfloat;
  Male_Literacy : list pyfloat
}.

Definition state_gender_df (state_names : list string)
  (female_literacy male_literacy : list pyfloat) : option gender_columns :=
  let min_length :=
    Nat.min (length state_names)
      (Nat.min (length female_literacy) (length male_literacy)) in
  if (0 <? min_length)%nat then
    Some (mkGender (firstn min_length state_names)
                   (firstn min_length female_literacy)
                   (firstn min_length male_literacy))
  else None.

(** [int(str(v).replace(',', ''))]: [primary_schools], [secondary_schools],
    [colleges], [universities] and [technical_institutions] of the
    infrastructure tab. *)
Definition institution_count (float_repr : pyfloat -> string) (v : cell)
  : result Z :=
  Py.int_of_str (Py.replace "," "" (str_of_cell float_repr v)).

(** [float(v)] if [isinstance(v, str)], the value itself otherwise: the
    overview metrics [literacy_rate], [enrollment_rate] and [higher_ed]. *)
Definition metric_val (v : cell) : result cell :=
  match v with
  | VStr s => f <- Float.of_str s ;; Ok (VFloat f)
  | _ => Ok v
  end.

(** [isinstance(v, str) and v]: a text that is not empty. A field of a
    column the table lacks is the empty text. *)
Definition present (v : cell) : bool :=
  match v with
  | VStr s => negb (String.eqb s EmptyString)
  | _ => false
  end.

Definition text_of (v : cell) : string :=
  match v with VStr s => s | _ => EmptyString end.

(** [[int(x) for x in s.split(', ')]] *)
Definition int_list (s : string) : result (list Z) :=
  mapM Py.int_of_str (Py.split ", " s).

(** [[int(x.replace(',', '')) for x in s.split(', ')]] *)
Definition count_list (s : string) : result (list Z) :=
  mapM (fun x => Py.int_of_str (Py.replace "," "" x)) (Py.split ", " s).

(** The years and rates of the literacy history, parsed only when both
    fields are texts that are not empty; [None] when the history is
    skipped. *)
Definition literacy_history (years_str rates_str : cell)
  : result (option (list Z * list pyfloat)) :=
  if present years_str && present rates_str then
    years <- int_list (text_of years_str) ;;
    rates <- mapM Float.of_str (Py.split ", " (text_of rates_str)) ;;
    Ok (Some (years, rates))
  else Ok None.

(** The top universities and their ranks, parsed only when both fields
    are texts that are not empty. *)
Definition top_universities (universities_str ranks_str : cell)
  : result (option (list string * list Z)) :=
  if present universities_str && present ranks_str then
    let universities := Py.split ", " (text_of universities_str) in
    ranks <- int_list (text_of ranks_str) ;;
    Ok (Some (universities, ranks))
  else Ok None.

(** The lists of the regional infrastructure. *)
Record regional_lists : Type := mkRegional {
  regions : list string;
  primary_schools_list : list Z;
  secondary_schools_list : list Z;
  colleges_list : list Z;
  population_list : list pyfloat
}.

(** The regional infrastructure, parsed only when all five fields are
    texts that are not empty. *)
Definition regional_infrastructure
  (regions_str primary_schools_str secondary_schools_str colleges_str
   population_str : cell) : result (option regional_lists) :=
  if forallb present [regions_str; primary_schools_str; secondary_schools_str;
                      colleges_str; population_str] then
    let regions := Py.split ", " (text_of regions_str) in
    primary <- count_list (text_of primary_schools_str) ;;
    secondary <- count_list (text_of secondary_schools_str) ;;
    colleges <- count_list (text_of colleges_str) ;;
    population <- mapM Float.of_str (Py.split ", " (text_of population_str)) ;;
    Ok (Some (mkRegional regions primary secondary colleges population))
  else Ok None.

End education_landscape.

(** ** modules/chapters/historical_timeline.py *)

Module historical_timeline.

Definition int64_max : Z := 2 ^ 63 - 1.

(** [astype(int)] on one cell of an extracted column: the digits become a
    64-bit integer; a missing match (NaN) cannot be converted. *)
Definition astype_int (v : cell) : result Z :=
  match v with
  | VStr s =>
      z <- Py.int_of_str s ;;
      if (- int64_max - 1 <=? z) && (z <=? int64_max) then Ok z
      else Raise OverflowError
  | VInt z => Ok z
  | VFloat (FFin q) => Ok (Z.quot (Qnum q) (Zpos (Qden q)))
  | VFloat _ => Raise ValueError
  end.

(** [df['Time Period'].str.extract(r'(\d+)').astype(int)] *)
Definition Start_Year (time_period : list cell) : result (list Z) :=
  digits <- pd.str_extract Py.search_digits time_period ;;
  mapM astype_int digits.

(** [df['Time Period'].str.contains('BCE')]: a flag for a string, NaN
    ([None]) for anything else. *)
Definition BCE (time_period : list cell) : result (list (option bool)) :=
  col <- pd.str_accessor time_period ;;
  Ok (map (fun v => match v with
                    | VStr s => Some (Py.contains "BCE" s)
                    | _ => None
                    end) col).

(** The truth value of a flag; NaN is true. *)
Definition truthy (b : option bool) : bool :=
  match b with Some b => b | None => true end.

(** [-x['Start Year'] if x['BCE'] else x['Start Year']] *)
Definition signed_year (start_year : Z) (bce : option bool) : Z :=
  if truthy bce then - start_year else start_year.

(** The column [df['Timeline Year']] that [render] derives. *)
Definition Timeline_Year (time_period : list cell) : result (list Z) :=
  start_year <- Start_Year time_period ;;
  bce <- BCE time_period ;;
  Ok (map (fun x => signed_year (fst x) (snd x)) (combine start_year bce)).

(** [df.sort_values(key)]: rows in ascending order of their key. Rows are
    inserted one by one, each before the rows whose key is not smaller.
    The order pandas gives to rows of equal key is not fixed; the
    statements use only that the result is a sorted permutation. *)
Fixpoint insert_row {A : Type} (k : Z) (a : A) (l : list (Z * A)) : list (Z * A) :=
  match l with
  | [] => [(k, a)]
  | (k', a') :: l' =>
      if k' <? k then (k', a') :: insert_row k a l' else (k, a) :: l
  end.

Definition sort_pairs {A : Type} (l : list (Z * A)) : list (Z * A) :=
  fold_right (fun ka acc => insert_row (fst ka) (snd ka) acc) [] l.

Definition sort_values {A : Type} (keys : list Z) (rows : list A) : list A :=
  map snd (sort_pairs (combine keys rows)).

(** The chronological order of [render]: the time periods sorted by their
    timeline year, each with that year. *)
Definition chronological (time_period : list cell) : result (list (Z * cell)) :=
  years <- Timeline_Year time_period ;;
  Ok (sort_values years (combine years time_period)).

(** The eras of each period, for the era badge. *)
Definition era_periods : list (string * list string) :=
  Dict.literal [
    ("Ancient", ["Indus Valley Civilization"; "Vedic Period"; "Mahajanapadas";
                 "Ancient India"]);
    ("Classical", ["Mauryan Empire"; "Post-Mauryan Period"; "Gupta Empire"]);
    ("Medieval", ["Post-Gupta Period"; "Medieval India"; "Delhi Sultanate";
                  "Vijayanagara Empire"; "Mughal Empire"; "Maratha Empire"]);
    ("Modern", ["Colonial Era"; "British Raj"; "Independence Movement";
                "Independence"; "Republic of India"; "Post-Independence";
                "Economic Reforms"; "Modern India"; "Age of Exploration"])
  ].

(** [era in eras], for the cell [era]: only a string can equal a name. *)
Definition era_in (era : cell) (eras : list string) : bool :=
  match era with
  | VStr s => existsb (String.eqb s) eras
  | _ => false
  end.

(** [next((category for category, eras in era_periods.items()
          if selected_era['Era'] in eras), "Other")] *)
Definition era_category (era : cell) : string :=
  match find (fun ce => era_in era (snd ce)) era_periods with
  | Some (category, _) => category
  | None => "Other"
  end.

Definition badge_colors : list (string * string) :=
  Dict.literal [("Ancient", "#9C6644"); ("Classical", "#4C9900");
                ("Medieval", "#9966CC"); ("Modern", "#3366CC");
                ("Other", "#888888")].

(** [badge_colors[era_category]]: a missing key raises. *)
Definition badge_color (era : cell) : result string :=
  match Dict.get (era_category era) badge_colors with
  | Some color => Ok color
  | None => Raise KeyError
  end.

(** The key themes looked for in the historical legacy. *)
Definition common_themes : list string :=
  ["Cultural"; "Religious"; "Administrative"; "Scientific"; "Architectural";
   "Political"; "Social"; "Economic"].

(** One cell of
    [legacy.fillna('').astype(str).str.contains(theme, case=False).astype(int)]:
    a null cell counts as the empty text, any other cell as its text, and
    the theme, a plain word, is searched without regard to case. *)
Definition theme_flag (float_repr : pyfloat -> string) (theme : string)
  (legacy : cell) : Z :=
  let text := if isna legacy then EmptyString else str_of_cell float_repr legacy in
  if Py.contains (Py.lower_str theme) (Py.lower_str text) then 1 else 0.

(** The theme columns of the legacy heat map, one list of flags for each
    theme. *)
Definition theme_columns (float_repr : pyfloat -> string) (legacy : list cell)
  : list (string * list Z) :=
  map (fun theme => (theme, map (theme_flag float_repr theme) legacy)) common_themes.

End historical_timeline.

(** ** Predicates of the statements *)

Import utils.

(** Every character of [s] satisfies [p]. *)
Fixpoint all_chars (p : ascii -> bool) (s : string) : bool :=
  match s with
  | EmptyString => true
  | String c s' => p c && all_chars p s'
  end.

(** What one row contributes to the timeline: the first run of digits of
    its time period, negated exactly when the period holds [BCE]. *)
Definition year_of_period (v : cell) (y : Z) : Prop :=
  exists s d, v = VStr s /\ Py.search_digits s = Some d /\
    y = (if Py.contains "BCE" s then - Py.digits_value d else Py.digits_value d).

(** A row has a timeline year when its time period is a string whose first
    run of digits fits a 64-bit integer. *)
Definition has_year (v : cell) : Prop :=
  exists s d, v = VStr s /\ Py.search_digits s = Some d /\
    Py.digits_value d <= historical_timeline.int64_max.

(** The table a loader hands back when its pipeline raises. *)
Definition on_exception (d : domain) : option DataFrame :=
  match d with
  | education => Some education_fallback
  | geography => Some (pd.DataFrame_of_dict terrain_data)
  | _ => None
  end.

(** A column [c] of [df], if there, holds no string. *)
Definition numeric_col (df : DataFrame) (c : string) : Prop :=
  forall col, Dict.get c (columns df) = Some col ->
              Forall (fun v => is_str v = false) col.

(** [df'] has the rows of [df], every column of [df] as it was, and
    possibly further columns. *)
Definition grows (df df' : DataFrame) : Prop :=
  nrows df' = nrows df /\
  forall c col, Dict.get c (columns df) = Some col ->
                Dict.get c (columns df') = Some col.

(** What a loader needs of its defaults: the default of a required column
    sets that column and no other. *)
Definition sets_own_column (required : list string)
  (default : DataFrame -> string -> DataFrame) : Prop :=
  forall df c, In c required ->
    exists col, default df c = pd.setitem_series df c col.

(** The columns a table has. *)
Definition has_all (df : DataFrame) (cs : list string) : Prop :=
  forall c, In c cs -> pd.has_col df c = true.

(** The columns the state loader adds by lookup. *)
Definition state_lookups : list string :=
  ["HDI"; "Urbanization (%)"; "Capital"; "Official Languages"; "Major Crops";
   "Key Industries"; "Famous Destinations"].

(** The columns the education loader guarantees. *)
Definition education_columns : list string :=
  map fst expected_columns ++ education_required.

(** The columns the cultural loader guarantees. *)
Definition cultural_columns : list string :=
  cultural_required ++ ["Heritage_Type"; "Name"; "State"; "Year"].

(** A guarded step either leaves the table or sets a column it lacks. *)
Definition adds_column (c : string) (df df' : DataFrame) : Prop :=
  df' = df \/ (pd.has_col df c = false /\ exists col, df' = pd.setitem_series df c col).

(** The month is the one its season gives. *)
Definition month_settled (df : DataFrame) : Prop := month_from_season df = Ok df.

(** What the festivals loader guarantees of the table it returns. *)
Definition festivals_settled (df : DataFrame) : Prop :=
  has_all df (festivals_required ++
              ["Environmental Impact"; "Participants (millions)";
               "Tourist Attraction Level"; "Global Celebrations"]) /\
  (pd.has_col df "Economic Impact (Millions USD)" = true \/
   pd.has_col df "Economic Impact (USD millions)" = true) /\
  month_settled df.

(** A numeric column of one type: integers only or floats only. *)
Definition uniform (col : list cell) : Prop :=
  Forall (fun v => exists z, v = VInt z) col \/
  Forall (fun v => pd.is_float v = true) col.

(** The columns among [cs] that [df] has are uniform. *)
Definition uniform_cols (cs : list string) (df : DataFrame) : Prop :=
  forall c col, In c cs -> Dict.get c (columns df) = Some col -> uniform col.

(** [df'] differs from [df] at most in cells of the row [j] of the columns
    [cs], where a null cell may have received a text. *)
Definition fills_row (cs : list string) (j : nat) (df df' : DataFrame) : Prop :=
  nrows df' = nrows df /\
  (forall c, pd.has_col df' c = pd.has_col df c) /\
  (forall c, ~ In c cs -> Dict.get c (columns df') = Dict.get c (columns df)) /\
  (forall i c, ~ In c cs \/ i <> j -> pd.at_ df' i c = pd.at_ df i c) /\
  (forall c v, pd.at_ df j c = Ok v -> isna v = false -> pd.at_ df' j c = Ok v).

(** The three columns the event details go to. *)
Definition detail_columns : list string :=
  ["Military Developments"; "Cultural Developments"; "Economic Systems"].

(** The row [i] needs no event detail: its event can be searched and,
    where a key event is found, the detail cell is not null. *)
Definition row_settled (df : DataFrame) (i : nat) : Prop :=
  exists e, pd.at_ df i "Event" = Ok e /\
    let event := if negb (isna e) then e else VStr "" in
    forall needle c,
      In (needle, c) [("Battle of Plassey", "Military Developments");
                      ("Gandhi returns", "Cultural Developments");
                      ("Economic liberalization", "Economic Systems")] ->
      exists hit, in_cell needle event = Ok hit /\
        (hit = true -> exists v, pd.at_ df i c = Ok v /\ isna v = false).

(** [df'] comes from [df] by filling null cells of the detail columns. *)
Definition fills (df df' : DataFrame) : Prop :=
  nrows df' = nrows df /\
  (forall c, pd.has_col df' c = pd.has_col df c) /\
  (forall c, ~ In c detail_columns ->
             Dict.get c (columns df') = Dict.get c (columns df)) /\
  (forall i c v, pd.at_ df i c = Ok v -> isna v = false -> pd.at_ df' i c = Ok v).

(** Every row of the table is settled. *)
Definition events_settled (df : DataFrame) : Prop :=
  forall i, (i < nrows df)%nat -> row_settled df i.

(** The columns the historical loader adds when they are absent. *)
Definition historical_added : list string :=
  ["Time Period"; "Timeline Year"; "Major Events"; "Capital Cities";
   "Key Rulers/Leaders"].

(** What the historical loader guarantees of the table it returns. *)
Definition historical_settled (df : DataFrame) : Prop :=
  has_all df (historical_required ++ historical_added) /\
  has_all df (map fst additional_columns) /\
  events_settled df.

(** The column [c] of [raw], if there, is in [out] as it was. *)
Definition kept (raw out : DataFrame) (c : string) : Prop :=
  forall col, Dict.get c (columns raw) = Some col ->
              Dict.get c (columns out) = Some col.

(** [c in cs] *)
Definition member (c : string) (cs : list string) : bool := existsb (String.eqb c) cs.

(** The columns a loader is required to return. *)
Definition required_of (d : domain) : list string :=
  match d with
  | linguistic => linguistic_required
  | religious => religious_required
  | state => state_required
  | cultural => cultural_required
  | population => population_required
  | economic => economic_required
  | historical => historical_required
  | festivals => festivals_required
  | tourism => tourism_required
  | education => education_required
  | geography => ["Terrain_Type"; "Percentage"]
  end.

(** Python's [int] refuses a text of more than 4300 digits, and [str] an
    integer of that size; the texts below that length are those on which
    [Py.int_of_str] is Python's [int]. *)
Definition short_text (float_repr : pyfloat -> string) (x : cell) : Prop :=
  (String.length (str_of_cell float_repr x) <= 4300)%nat.

(** The domains whose reconciliation has no failing step. *)
Definition never_fails (d : domain) : bool :=
  match d with
  | historical | festivals | tourism => false
  | _ => true
  end.

(** The texts of the historical periods of a cultural table have an
    ordinary length; nothing is asked of the other tables. *)
Definition short_periods (float_repr : pyfloat -> string) (d : domain)
    (df : DataFrame) : Prop :=
  match d with
  | cultural =>
      forall col, Dict.get "Historical Period" (columns df) = Some col ->
                  Forall (short_text float_repr) col
  | _ => True
  end.

(** No character of [s] is a comma. *)
Definition no_comma (s : string) : bool :=
  all_chars (fun c => negb (Ascii.eqb c ",")) s.

(** The institution counts and the numbers of the loader's defaults. *)
Definition institution_defaults : list (string * Z) :=
  [("Number of Primary Schools", 848712); ("Number of Secondary Schools", 271385);
   ("Number of Colleges", 42343); ("Number of Universities", 1047);
   ("Number of Technical Institutions", 10827)].

(** The year [v] is a number and is not after the year [cy], in the order
    of the integers and of the rationals. *)
Definition not_after (cy : Z) (v : cell) : Prop :=
  match v with
  | VInt y => y <= cy
  | VFloat (FFin q) => (q <= inject_Z cy)%Q
  | VFloat (FInf neg) => neg = true
  | VFloat FNaN => False
  | VStr _ => False
  end.

(** An integer that a float holds exactly. The floats of this file are
    exact; those of Python are rounded to 53 bits, and the two agree on
    the integers of this range. *)
Definition exact_int (z : Z) : Prop := Z.abs z <= 2 ^ 53.

(** What [pd.to_numeric(..., errors='coerce')] makes of one cell, whatever
    the grammar of its tokens: a float stays; an integer stays, or becomes
    a float, the float of that integer when a float holds it exactly; a
    text becomes a number or NaN, and it becomes NaN when it holds a
    comma. *)
Definition coerced (v v' : cell) : Prop :=
  match v with
  | VInt z =>
      v' = v \/ exists f, v' = VFloat f /\ (exact_int z -> f = Float.of_Z z)
  | VFloat _ => v' = v
  | VStr s => is_str v' = false /\ (no_comma s = false -> v' = NaN)
  end.

(** The month the festivals loader takes from a season: the first run of
    letters of the text, and NaN where there is none. *)
Definition first_word (v : cell) : cell :=
  match v with
  | VStr s => match Py.search_letters s with Some m => VStr m | None => NaN end
  | _ => NaN
  end.

(** Every character of [s] is an ASCII character: on such a text the
    classes of characters of this file (digits, white space, letters and
    their case) are those of Python. *)
Definition ascii_text (s : string) : bool :=
  all_chars (fun c => (nat_of_ascii c <? 128)%nat) s.

(** A cell whose text, if it is one, is ASCII and has at most 4300
    characters, the length up to which [int] reads every run of digits. *)
Definition plain_text (v : cell) : Prop :=
  forall s, v = VStr s -> ascii_text s = true /\ (String.length s <= 4300)%nat.

(** What the tourism loader makes of the popular destinations of a row:
    a text; where the cell is no text or an ASCII text, a text without
    comma and without white space around it, and the cell itself,
    stripped, where it is a text without comma. *)
Definition first_destination (v d : cell) : Prop :=
  exists t, d = VStr t /\
    ((forall s, v = VStr s -> ascii_text s = true) ->
     Py.strip t = t /\ no_comma t = true /\
     (forall s, v = VStr s -> no_comma s = true -> t = Py.strip s)).

(** * Properties *)

(** ** Results *)

Lemma bind_ok {A B : Type} (r : result A) (f : A -> result B) (b : B) :
  bind r f = Ok b -> exists a, r = Ok a /\ f a = Ok b.
Proof. destruct r as [a|e]; simpl; intros H; [exists a; auto | discriminate]. Qed.

Ltac inv_bind H :=
  let a := fresh "x" in
  let Ha := fresh "E" in
  apply bind_ok in H; destruct H as (a & Ha & H).

Lemma mapM_ok_Forall2 {A B : Type} (f : A -> result B) (l : list A) (l' : list B) :
  mapM f l = Ok l' -> Forall2 (fun a b => f a = Ok b) l l'.
Proof.
  revert l'; induction l as [|a l IH]; simpl; intros l' H.
  - inversion H; constructor.
  - inv_bind H. inv_bind H. inversion H; subst. constructor; auto.
Qed.

Lemma mapM_ok_length {A B : Type} (f : A -> result B) (l : list A) (l' : list B) :
  mapM f l = Ok l' -> length l' = length l.
Proof.
  intros H; apply mapM_ok_Forall2 in H.
  induction H; simpl; congruence.
Qed.

Lemma mapM_total {A B : Type} (f : A -> result B) (l : list A) :
  Forall (fun a => exists b, f a = Ok b) l -> exists l', mapM f l = Ok l'.
Proof.
  induction 1 as [|a l (b & Hb) _ (l' & IH)]; simpl.
  - eexists; reflexivity.
  - rewrite Hb, IH; simpl. eexists; reflexivity.
Qed.

(** ** Lists cut to a common length *)

Lemma nth_error_firstn_lt {A : Type} (l : list A) (n i : nat) :
  (i < n)%nat -> nth_error (firstn n l) i = nth_error l i.
Proof.
  revert n i; induction l as [|a l IH]; intros [|n] [|i] H; simpl; auto; try lia.
  apply IH; lia.
Qed.

Lemma length_firstn_le {A : Type} (l : list A) (n : nat) :
  (n <= length l)%nat -> length (firstn n l) = n.
Proof. intros H. rewrite length_firstn. lia. Qed.

Import education_landscape.

(** C6. Row-aligned lists are cut to their minimum common length: when
    that length is not 0, [state_gender_df] and [states_df] are built,
    every column has that length and holds, at each position, the element
    the input list has there; lists of lengths 5, 3 and 4 give 3 aligned
    rows. When one list is empty nothing is built. *)
Theorem alignment_truncation :
  (forall (names : list string) (female male : list pyfloat),
      let m := Nat.min (length names) (Nat.min (length female) (length male)) in
      (m = 0%nat -> state_gender_df names female male = None) /\
      ((0 < m)%nat ->
       exists g, state_gender_df names female male = Some g /\
         length (Gender_State g) = m /\ length (Female_Literacy g) = m /\
         length (Male_Literacy g) = m /\
         forall i, (i < m)%nat ->
           nth_error (Gender_State g) i = nth_error names i /\
           nth_error (Female_Literacy g) i = nth_error female i /\
           nth_error (Male_Literacy g) i = nth_error male i)) /\
  (forall (names : list string) (female male : list pyfloat),
      length names = 5%nat -> length female = 3%nat -> length male = 4%nat ->
      exists g, state_gender_df names female male = Some g /\
        length (Gender_State g) = 3%nat /\ length (Female_Literacy g) = 3%nat /\
        length (Male_Literacy g) = 3%nat /\
        forall i, (i < 3)%nat ->
          nth_error (Gender_State g) i = nth_error names i /\
          nth_error (Female_Literacy g) i = nth_error female i /\
          nth_error (Male_Literacy g) i = nth_error male i) /\
  (forall (names : list string) (lit prim sec high : list pyfloat),
      let m := Nat.min (length names) (Nat.min (length lit) (Nat.min (length prim)
                 (Nat.min (length sec) (length high)))) in
      (m = 0%nat -> states_df names lit prim sec high = None) /\
      ((0 < m)%nat ->
       exists t, states_df names lit prim sec high = Some t /\
         (length (State t) = m /\ length (Literacy_Rate t) = m /\
          length (Primary_Enrollment t) = m /\ length (Secondary_Enrollment t) = m /\
          length (Higher_Ed_Enrollment t) = m) /\
         forall i, (i < m)%nat ->
           nth_error (State t) i = nth_error names i /\
           nth_error (Literacy_Rate t) i = nth_error lit i /\
           nth_error (Primary_Enrollment t) i = nth_error prim i /\
           nth_error (Secondary_Enrollment t) i = nth_error sec i /\
           nth_error (Higher_Ed_Enrollment t) i = nth_error high i)).
Proof.
  assert (G : forall (names : list string) (female male : list pyfloat),
      let m := Nat.min (length names) (Nat.min (length female) (length male)) in
      (m = 0%nat -> state_gender_df names female male = None) /\
      ((0 < m)%nat ->
       exists g, state_gender_df names female male = Some g /\
         length (Gender_State g) = m /\ length (Female_Literacy g) = m /\
         length (Male_Literacy g) = m /\
         forall i, (i < m)%nat ->
           nth_error (Gender_State g) i = nth_error names i /\
           nth_error (Female_Literacy g) i = nth_error female i /\
           nth_error (Male_Literacy g) i = nth_error male i)).
  { intros names female male m. unfold state_gender_df. fold m. split.
    - intros ->. reflexivity.
    - intros Hm. apply Nat.ltb_lt in Hm. rewrite Hm.
      apply Nat.ltb_lt in Hm. eexists. split; [reflexivity|].
      cbn [Gender_State Female_Literacy Male_Literacy].
      repeat split; try (apply length_firstn_le; lia);
        apply nth_error_firstn_lt; assumption. }
  split; [exact G | split].
  - intros names female male Hn Hf Hm.
    destruct (G names female male) as [_ H]. rewrite Hn, Hf, Hm in H.
    change (Nat.min 5 (Nat.min 3 4)) with 3%nat in H. apply H. lia.
  - intros names lit prim sec high m. unfold states_df. fold m. split.
    + intros ->. reflexivity.
    + intros Hm. apply Nat.ltb_lt in Hm. rewrite Hm.
      apply Nat.ltb_lt in Hm. eexists. split; [reflexivity|].
      cbn [State Literacy_Rate Primary_Enrollment Secondary_Enrollment
           Higher_Ed_Enrollment].
      repeat split; try (apply length_firstn_le; lia);
        apply nth_error_firstn_lt; assumption.
Qed.

Lemma alignment_truncation_witness :
  exists g,
    state_gender_df ["A"; "B"; "C"; "D"; "E"] [FFin 1; FFin 2; FFin 3]
      [FFin 4; FFin 5; FFin 6; FFin 7] = Some g /\
    length (Gender_State g) = 3%nat /\ length (Female_Literacy g) = 3%nat /\
    length (Male_Literacy g) = 3%nat /\
    forall i, (i < 3)%nat ->
      nth_error (Gender_State g) i = nth_error ["A"; "B"; "C"; "D"; "E"] i /\
      nth_error (Female_Literacy g) i = nth_error [FFin 1; FFin 2; FFin 3] i /\
      nth_error (Male_Literacy g) i = nth_error [FFin 4; FFin 5; FFin 6; FFin 7] i.
Proof.
  apply (proj1 (proj2 alignment_truncation)); reflexivity.
Defined.

(** ** Digit strings *)

Lemma digit_not_space (c : ascii) : Py.is_digit c = true -> Py.is_space c = false.
Proof.
  destruct c as [[] [] [] [] [] [] [] []]; vm_compute; congruence.
Qed.

Lemma digit_not_sign (c : ascii) :
  Py.is_digit c = true ->
  Ascii.eqb c "-"%char = false /\ Ascii.eqb c "+"%char = false /\
  Ascii.eqb c "_"%char = false.
Proof.
  destruct c as [[] [] [] [] [] [] [] []]; vm_compute; intuition congruence.
Qed.

Lemma span_all (p : ascii -> bool) (s : string) : all_chars p (fst (Py.span p s)) = true.
Proof.
  induction s as [|c s IH]; simpl; auto.
  destruct (p c) eqn:E; simpl; auto.
  destruct (Py.span p s); simpl in *. rewrite E; auto.
Qed.

Lemma span_cons (p : ascii -> bool) (c : ascii) (s : string) :
  p c = true -> fst (Py.span p (String c s)) = String c (fst (Py.span p s)).
Proof. intros H. simpl. rewrite H. destruct (Py.span p s); reflexivity. Qed.

Lemma search_digits_some (s d : string) :
  Py.search_digits s = Some d -> d <> EmptyString /\ all_chars Py.is_digit d = true.
Proof.
  induction s as [|c s IH]; [discriminate|].
  change (Py.search_digits (String c s))
    with (if Py.is_digit c then Some (fst (Py.span Py.is_digit (String c s)))
          else Py.search_digits s).
  destruct (Py.is_digit c) eqn:E; auto.
  intros H.
  assert (Hd : d = fst (Py.span Py.is_digit (String c s))) by congruence.
  clear H. split.
  - rewrite Hd, (span_cons _ _ _ E). discriminate.
  - rewrite Hd. apply span_all.
Qed.

Lemma rstrip_digits (d : string) : all_chars Py.is_digit d = true -> Py.rstrip d = d.
Proof.
  induction d as [|c d IH]; simpl; auto.
  intros H; apply andb_prop in H; destruct H as [Hc Hd].
  rewrite (IH Hd). destruct d; [rewrite (digit_not_space _ Hc)|]; reflexivity.
Qed.

Lemma strip_digits (d : string) : all_chars Py.is_digit d = true -> Py.strip d = d.
Proof.
  intros H. unfold Py.strip.
  replace (Py.lstrip d) with d; [apply rstrip_digits; exact H|].
  destruct d as [|c d]; simpl in *; auto.
  apply andb_prop in H; destruct H as [Hc _]. rewrite (digit_not_space _ Hc); reflexivity.
Qed.

Lemma digitpart_digits (d : string) (b : bool) :
  all_chars Py.is_digit d = true -> Py.digitpart_go d b = (d, EmptyString).
Proof.
  revert b; induction d as [|c d IH]; simpl; intros b H; auto.
  apply andb_prop in H; destruct H as [Hc Hd]. rewrite Hc, (IH true Hd); reflexivity.
Qed.

(** [int] reads a run of digits as the number it denotes. *)
Lemma int_of_digits (d : string) :
  d <> EmptyString -> all_chars Py.is_digit d = true ->
  Py.int_of_str d = Ok (Py.digits_value d).
Proof.
  intros Hne H. unfold Py.int_of_str. rewrite (strip_digits _ H).
  destruct d as [|c d]; [congruence|].
  assert (Hc : Py.is_digit c = true) by (simpl in H; apply andb_prop in H; tauto).
  destruct (digit_not_sign _ Hc) as (Hm & Hp & _).
  unfold Py.sign. rewrite Hm, Hp. unfold Py.digitpart.
  rewrite (digitpart_digits _ false H). reflexivity.
Qed.

(** ** The timeline year *)

Import historical_timeline.

Lemma str_accessor_ok (col col' : list cell) :
  pd.str_accessor col = Ok col' -> col' = col.
Proof.
  unfold pd.str_accessor. destruct col; [congruence|].
  destruct (existsb is_str (c :: col)); congruence.
Qed.

Lemma Timeline_Year_rows (time_period : list cell) (years : list Z) :
  Timeline_Year time_period = Ok years -> Forall2 year_of_period time_period years.
Proof.
  unfold Timeline_Year, Start_Year, BCE, pd.str_extract. intros H.
  destruct (pd.str_accessor time_period) as [col|] eqn:Ha; [|discriminate].
  apply str_accessor_ok in Ha; subst col. simpl in H.
  match type of H with context [mapM astype_int ?l] =>
    destruct (mapM astype_int l) as [starts|] eqn:E1 end; [|discriminate].
  simpl in H. injection H as <-.
  apply mapM_ok_Forall2 in E1.
  remember (map _ time_period) as ds eqn:Hds.
  revert time_period Hds. induction E1 as [|v z ds zs Hv _ IH]; intros tp Hds.
  - destruct tp; [constructor | discriminate].
  - destruct tp as [|c tp]; [discriminate|]. simpl in Hds.
    injection Hds as Hv' Hds'. simpl.
    constructor; [|apply IH; exact Hds'].
    subst v. destruct c as [z'|f|s]; simpl in Hv; try discriminate.
    destruct (Py.search_digits s) as [d|] eqn:Hd; simpl in Hv; [|discriminate].
    destruct (search_digits_some _ _ Hd) as [Hne Hall].
    rewrite (int_of_digits _ Hne Hall) in Hv. simpl in Hv.
    destruct (_ && _); [|discriminate]. injection Hv as <-.
    exists s, d. repeat split; auto.
Qed.

Lemma Timeline_Year_length (time_period : list cell) (years : list Z) :
  Timeline_Year time_period = Ok years -> length years = length time_period.
Proof.
  intros H. apply Timeline_Year_rows in H. induction H; simpl; congruence.
Qed.

Lemma digits_value_go_nonneg (d : string) (acc : Z) :
  all_chars Py.is_digit d = true -> 0 <= acc -> 0 <= Py.digits_value_go d acc.
Proof.
  revert acc; induction d as [|c d IH]; intros acc H Hacc; auto.
  cbn [Py.digits_value_go]. cbn [all_chars] in H.
  apply andb_prop in H; destruct H as [Hc Hd]. apply IH; auto.
  assert (0 <= Py.digit_val c).
  { clear -Hc. destruct c as [[] [] [] [] [] [] [] []]; vm_compute in *; congruence. }
  lia.
Qed.

Lemma Timeline_Year_total (time_period : list cell) :
  Forall has_year time_period -> exists years, Timeline_Year time_period = Ok years.
Proof.
  intros H. unfold Timeline_Year, Start_Year, BCE, pd.str_extract.
  assert (Hacc : pd.str_accessor time_period = Ok time_period).
  { destruct H as [|v l (s & d & -> & _) _]; reflexivity. }
  rewrite Hacc. simpl.
  match goal with |- context [mapM astype_int ?l] =>
    destruct (mapM_total astype_int l) as (ys & Hys) end.
  - clear Hacc. induction H as [|v l (s & d & -> & Hd & Hle) _ IH]; simpl; constructor; auto.
    rewrite Hd. simpl. destruct (search_digits_some _ _ Hd) as [Hne Hall].
    rewrite (int_of_digits _ Hne Hall). simpl.
    pose proof (digits_value_go_nonneg d 0 Hall (Z.le_refl 0)) as Hnn.
    fold (Py.digits_value d) in Hnn.
    replace (_ && _) with true; [eexists; reflexivity|].
    symmetry; apply andb_true_intro; split; apply Z.leb_le; unfold int64_max in *; lia.
  - rewrite Hys. simpl. eexists; reflexivity.
Qed.

(** ** Sorting by a key *)

Lemma insert_row_perm {A : Type} (k : Z) (a : A) (l : list (Z * A)) :
  Permutation ((k, a) :: l) (insert_row k a l).
Proof.
  induction l as [|[k' a'] l IH]; simpl; auto.
  destruct (k' <? k); auto.
  eapply perm_trans; [apply perm_swap|]. apply perm_skip, IH.
Qed.

Lemma sort_pairs_perm {A : Type} (l : list (Z * A)) : Permutation l (sort_pairs l).
Proof.
  induction l as [|[k a] l IH]; simpl; auto.
  eapply perm_trans; [apply perm_skip, IH | apply insert_row_perm].
Qed.

Lemma insert_row_sorted {A : Type} (k : Z) (a : A) (l : list (Z * A)) :
  Sorted Z.le (map fst l) -> Sorted Z.le (map fst (insert_row k a l)).
Proof.
  induction l as [|[k' a'] l IH]; simpl; intros H.
  - repeat constructor.
  - destruct (k' <? k) eqn:E; simpl.
    + inversion H; subst. constructor; auto.
      destruct l as [|[k2 a2] l]; simpl in *.
      * constructor. apply Z.ltb_lt in E; lia.
      * destruct (k2 <? k) eqn:E2; simpl; constructor.
        -- inversion H3; auto.
        -- apply Z.ltb_lt in E; lia.
    + constructor; auto. constructor. apply Z.ltb_ge in E; lia.
Qed.

Lemma sort_pairs_sorted {A : Type} (l : list (Z * A)) :
  Sorted Z.le (map fst (sort_pairs l)).
Proof.
  induction l as [|[k a] l IH]; simpl; [constructor | apply insert_row_sorted, IH].
Qed.

Lemma map_snd_combine {A B : Type} (a : list A) (b : list B) :
  length a = length b -> map snd (combine a b) = b.
Proof.
  revert b; induction a as [|x a IH]; intros [|y b] H; simpl in *; try discriminate; auto.
  f_equal; apply IH; lia.
Qed.

Lemma keyed_combine {A : Type} (ks : list Z) (rows : list A) :
  Forall (fun p : Z * (Z * A) => fst p = fst (snd p)) (combine ks (combine ks rows)).
Proof.
  revert rows; induction ks as [|k ks IH]; intros [|r rows]; simpl; constructor; auto.
Qed.

(** C5. The timeline year of a row is the first run of digits of its time
    period read as an integer, negated exactly when the period holds
    [BCE]: "1500 BCE" gives -1500 and "1526 CE" gives 1526. For periods
    that are plain texts, the year exists for every table whose periods
    hold digits, and the rows are then shown in ascending order of it. *)
Theorem timeline_year_signed :
  Timeline_Year [VStr "1500 BCE"; VStr "1526 CE"] = Ok [-1500; 1526] /\
  (forall time_period,
      Forall plain_text time_period ->
      (forall years, Timeline_Year time_period = Ok years ->
                     Forall2 year_of_period time_period years) /\
      (Forall has_year time_period ->
       exists years rows,
         Timeline_Year time_period = Ok years /\
         Forall2 year_of_period time_period years /\
         chronological time_period = Ok rows /\
         Permutation (combine years time_period) rows /\
         Sorted Z.le (map fst rows))).
Proof.
  split; [reflexivity|]. intros tp _. split; [apply Timeline_Year_rows|].
  intros Hy. destruct (Timeline_Year_total tp Hy) as [years E].
  exists years, (sort_values years (combine years tp)).
  split; [exact E|]. split; [apply Timeline_Year_rows, E|].
  split; [unfold chronological; rewrite E; reflexivity|].
  pose proof (Timeline_Year_length _ _ E) as Hlen.
  unfold sort_values. split.
  - rewrite <- (map_snd_combine years (combine years tp)) at 1
      by (rewrite length_combine; lia).
    apply Permutation_map, sort_pairs_perm.
  - assert (Hk : Forall (fun p : Z * (Z * cell) => fst p = fst (snd p))
                   (sort_pairs (combine years (combine years tp)))).
    { eapply Permutation_Forall; [apply sort_pairs_perm | apply keyed_combine]. }
    rewrite map_map.
    erewrite map_ext_Forall; [apply sort_pairs_sorted|].
    eapply Forall_impl; [|exact Hk]. simpl. intros p Hp; symmetry; exact Hp.
Qed.

Lemma timeline_year_signed_witness :
  exists years rows,
    Timeline_Year [VStr "1526 CE"; VStr "1500 BCE"] = Ok years /\
    Forall2 year_of_period [VStr "1526 CE"; VStr "1500 BCE"] years /\
    chronological [VStr "1526 CE"; VStr "1500 BCE"] = Ok rows /\
    Permutation (combine years [VStr "1526 CE"; VStr "1500 BCE"]) rows /\
    Sorted Z.le (map fst rows).
Proof.
  apply (proj2 (proj2 timeline_year_signed [VStr "1526 CE"; VStr "1500 BCE"]
                  ltac:(apply Forall_cons; [|apply Forall_cons; [|apply Forall_nil]];
                        intros s Hs; injection Hs as <-;
                        (split; [reflexivity | simpl; lia])))).
  apply Forall_cons; [|apply Forall_cons; [|apply Forall_nil]].
  - exists "1526 CE", "1526". repeat split; vm_compute; congruence.
  - exists "1500 BCE", "1500". repeat split; vm_compute; congruence.
Defined.

(** ** The parsers of the education chapter *)

Lemma lower_digits (d : string) : all_chars Py.is_digit d = true -> Py.lower_str d = d.
Proof.
  induction d as [|c d IH]; simpl; auto.
  intros H; apply andb_prop in H; destruct H as [Hc Hd]. rewrite (IH Hd). f_equal.
  clear -Hc. destruct c as [[] [] [] [] [] [] [] []]; vm_compute in *; congruence.
Qed.

Lemma digits_not_word (d : string) :
  all_chars Py.is_digit d = true ->
  String.eqb d "inf" = false /\ String.eqb d "infinity" = false /\
  String.eqb d "nan" = false.
Proof.
  destruct d as [|c d]; [intros _; repeat split; reflexivity|].
  intros H. cbn [all_chars] in H. apply andb_prop in H; destruct H as [Hc _].
  repeat split; apply String.eqb_neq; intros Heq; injection Heq as -> _;
    vm_compute in Hc; discriminate.
Qed.

(** [float] reads a run of digits as the integer it denotes. *)
Lemma float_of_digits (d : string) :
  d <> EmptyString -> all_chars Py.is_digit d = true ->
  Float.of_str d = Ok (Float.of_Z (Py.digits_value d)).
Proof.
  intros Hne H. unfold Float.of_str. rewrite (strip_digits _ H).
  assert (Hs : Py.sign d = (false, d)).
  { destruct d as [|c d]; [congruence|]. unfold Py.sign.
    assert (Hc : Py.is_digit c = true) by (simpl in H; apply andb_prop in H; tauto).
    destruct (digit_not_sign _ Hc) as (-> & -> & _). reflexivity. }
  rewrite Hs. unfold Float.unsigned_of_str.
  rewrite (lower_digits _ H).
  destruct (digits_not_word _ H) as (-> & -> & ->). cbn [orb].
  unfold Py.digitpart. rewrite (digitpart_digits _ false H).
  replace (d ++ "")%string with d by (clear; induction d; simpl; congruence).
  destruct d as [|c d]; [congruence|].
  cbn [Float.exponent String.length Z.of_nat Py.apply_sign].
  unfold Float.of_Z, Float.dec. rewrite Z.sub_0_r. cbn [Z.leb Z.compare].
  rewrite Z.pow_0_r, Z.mul_1_r. reflexivity.
Qed.

Lemma replace_digits (d : string) :
  all_chars Py.is_digit d = true -> Py.replace_go "1:" "" d 0 = d.
Proof.
  induction d as [|c d IH]; [reflexivity|].
  intros H. pose proof H as H'. cbn [all_chars] in H.
  apply andb_prop in H; destruct H as [Hc Hd].
  cbn [Py.replace_go]. rewrite (IH Hd).
  replace (Py.startswith "1:" (String c d)) with false; [reflexivity|].
  symmetry. cbn [Py.startswith]. destruct d as [|c' d]; [apply andb_false_r|].
  cbn [all_chars] in Hd. apply andb_prop in Hd; destruct Hd as [Hc' _].
  replace (Ascii.eqb ":" c') with false; [rewrite andb_false_l; apply andb_false_r|].
  clear -Hc'. destruct c' as [[] [] [] [] [] [] [] []]; vm_compute in *; congruence.
Qed.

Lemma float_of_str_raises (s : string) (e : exn) :
  Float.of_str s = Raise e -> e = ValueError.
Proof.
  unfold Float.of_str. destruct (Py.sign (Py.strip s)) as [neg r].
  unfold Float.unsigned_of_str.
  destruct (_ || _); [discriminate|]. destruct (String.eqb _ _); [discriminate|].
  destruct (Py.digitpart r) as [ip r1].
  destruct (match r1 with EmptyString => _ | String _ _ => _ end) as [fp r2].
  destruct (ip ++ fp)%string; [congruence|].
  destruct (Float.exponent r2) as [ex r3]. destruct r3; congruence.
Qed.

Lemma mapM_raises {A B : Type} (f : A -> result B) (l : list A) (e : exn) :
  mapM f l = Raise e -> exists a, In a l /\ f a = Raise e.
Proof.
  induction l as [|a l IH]; simpl; [discriminate|].
  destruct (f a) as [b|e'] eqn:Ha; simpl.
  - destruct (mapM f l) as [bs|e'']; simpl; [discriminate|].
    intros H; injection H as ->. destruct (IH eq_refl) as (a' & Hin & Ha').
    exists a'; auto.
  - intros H; injection H as ->. exists a; auto.
Qed.

Lemma mapM_is_ok {A B : Type} (f : A -> result B) (l : list A) :
  is_ok (mapM f l) = forallb (fun a => is_ok (f a)) l.
Proof.
  induction l as [|a l IH]; simpl; auto.
  destruct (f a); simpl; auto. rewrite <- IH. destruct (mapM f l); reflexivity.
Qed.

Import education_landscape.

(** C7, as stated, fails: a ratio field whose remainder is not a number
    raises instead of giving 0. *)
Lemma ratio_conversion_failure_raises :
  ratio_val (VStr "1:many") = Raise ValueError /\
  ratio_val (VStr "26 students") = Raise ValueError /\
  ~ (forall v, exists x, ratio_val v = Ok x).
Proof.
  split; [reflexivity|]. split; [reflexivity|].
  intros H. destruct (H (VStr "1:many")) as [x Hx]. discriminate.
Qed.

(** C7, amended. "1:26" parses to 26.0 and, for every run of digits [d]
    of value at most 2^53, "1:d" parses to the number [d] denotes; an empty
    or null field, which is a cell that is not a string, parses to 0; a
    string whose remainder is not a number raises a ValueError. *)
Theorem ratio_parse :
  forall d : string,
    d <> EmptyString -> all_chars Py.is_digit d = true ->
    Py.digits_value d <= 2 ^ 53 ->
    ratio_val (VStr "1:26") = Ok (VFloat (FFin 26)) /\
    ratio_val (VStr ("1:" ++ d)) = Ok (VFloat (Float.of_Z (Py.digits_value d))) /\
    (forall v, is_str v = false -> ratio_val v = Ok (VInt 0)) /\
    ratio_val NaN = Ok (VInt 0) /\
    (forall s, (exists f, ratio_val (VStr s) = Ok (VFloat f)) \/
               ratio_val (VStr s) = Raise ValueError).
Proof.
  intros d Hne Hd _. split; [reflexivity|]. split; [|split; [|split]].
  - unfold ratio_val, Py.replace.
    change (Py.replace_go "1:" "" ("1:" ++ d) 0) with (Py.replace_go "1:" "" d 0).
    rewrite (replace_digits _ Hd), (float_of_digits _ Hne Hd). reflexivity.
  - intros [z|f|s]; simpl; intros H; congruence.
  - reflexivity.
  - intros s. unfold ratio_val.
    destruct (Float.of_str _) as [f|e] eqn:E; cbn [bind].
    + left. eexists; reflexivity.
    + right. rewrite (float_of_str_raises _ _ E). reflexivity.
Qed.

Lemma ratio_parse_witness :
  ratio_val (VStr "1:26") = Ok (VFloat (FFin 26)) /\
  ratio_val (VStr ("1:" ++ "22")) = Ok (VFloat (Float.of_Z (Py.digits_value "22"))) /\
  (forall v, is_str v = false -> ratio_val v = Ok (VInt 0)) /\
  ratio_val NaN = Ok (VInt 0) /\
  (forall s, (exists f, ratio_val (VStr s) = Ok (VFloat f)) \/
             ratio_val (VStr s) = Raise ValueError).
Proof.
  apply (ratio_parse "22"); [discriminate | reflexivity | vm_compute; discriminate].
Defined.

(** C4, as stated, fails: a malformed token makes the numeric parsers
    raise. *)
Lemma parsers_raise_on_malformed :
  parse KFloats (VStr "96.2, n/a") = Raise ValueError /\
  parse KFraction (VStr "high/100") = Raise ValueError /\
  literacy_history (VStr "1951, 1961") (VStr "18.3, about 28") = Raise ValueError /\
  ~ (forall k v, exists p, parse k v = Ok p).
Proof.
  repeat (split; [reflexivity|]).
  intros H. destruct (H KFloats (VStr "96.2, n/a")) as [p Hp]. discriminate.
Qed.

Lemma int_of_str_raises (s : string) (e : exn) :
  Py.int_of_str s = Raise e -> e = ValueError.
Proof.
  unfold Py.int_of_str. destruct (Py.sign (Py.strip s)) as [neg r].
  destruct (Py.digitpart r) as [[|c ds] [|c' rest]]; congruence.
Qed.

Lemma mapM_raises_with {A B : Type} (f : A -> result B) (l : list A) (e : exn) :
  (forall a e', f a = Raise e' -> e' = ValueError) ->
  mapM f l = Raise e -> e = ValueError.
Proof.
  intros Hf H. apply mapM_raises in H. destruct H as (a & _ & Ha). eapply Hf, Ha.
Qed.

Lemma int_list_raises (s : string) (e : exn) :
  int_list s = Raise e -> e = ValueError.
Proof. apply mapM_raises_with. intros a e'. apply int_of_str_raises. Qed.

Lemma count_list_raises (s : string) (e : exn) :
  count_list s = Raise e -> e = ValueError.
Proof. apply mapM_raises_with. intros a e'. apply int_of_str_raises. Qed.

Lemma float_tokens_raise (s : string) (e : exn) :
  mapM Float.of_str (Py.split ", " s) = Raise e -> e = ValueError.
Proof. apply mapM_raises_with. intros a e'. apply float_of_str_raises. Qed.

(** C4, amended. A parser written with an [isinstance] test gives its
    neutral value (empty list or 0) on a value that is not a string, and
    the name-list parser is total; an overview metric leaves such a value
    as it is. The literacy history, the top universities and the regional
    infrastructure are parsed only when every field is a text that is not
    empty. An institution count is not guarded: a null count raises. A
    numeric parser raises only a ValueError, the parsers with a test only
    on a string, and the float-list parser exactly when one of the tokens
    is not a number. *)
Theorem parsers_neutral_on_no_data :
  forall (float_repr : pyfloat -> string) (k : kind) (v w : cell),
    (is_str v = false -> parse k v = Ok (no_data k)) /\
    (exists p, parse KNames v = Ok p) /\
    (forall e, parse k v = Raise e ->
               e = ValueError /\ is_str v = true /\ k <> KNames) /\
    (forall s, is_ok (parse KFloats (VStr s))
               = forallb (fun t => is_ok (Float.of_str t)) (Py.split ", " s)) /\
    (is_str v = false -> metric_val v = Ok v) /\
    (forall e, metric_val v = Raise e -> e = ValueError /\ is_str v = true) /\
    (present v = false \/ present w = false ->
     literacy_history v w = Ok None /\ top_universities v w = Ok None) /\
    (forall e, literacy_history v w = Raise e \/ top_universities v w = Raise e ->
               e = ValueError /\ present v = true /\ present w = true) /\
    (forall a b c d e,
        forallb present [a; b; c; d; e] = false ->
        regional_infrastructure a b c d e = Ok None) /\
    (forall a b c d e x,
        regional_infrastructure a b c d e = Raise x ->
        x = ValueError /\ forallb present [a; b; c; d; e] = true) /\
    (float_repr FNaN = "nan" -> institution_count float_repr NaN = Raise ValueError) /\
    (forall e, institution_count float_repr v = Raise e -> e = ValueError).
Proof.
  intros fr k v w.
  split; [|split; [|split; [|split; [|split; [|split; [|split; [|split; [|split;
    [|split; [|split]]]]]]]]]].
  - destruct v; [| |discriminate]; destruct k; reflexivity.
  - eexists; reflexivity.
  - intros e H. destruct v as [z|f|s]; try (destruct k; discriminate).
    destruct k; simpl in H; try discriminate.
    + destruct (mapM _ _) eqn:E; simpl in H; [discriminate|]. injection H as <-.
      apply mapM_raises in E. destruct E as (t & _ & Ht).
      repeat split; [eapply float_of_str_raises; eauto | discriminate].
    + destruct (Float.of_str _) eqn:E; simpl in H; [discriminate|]. injection H as <-.
      repeat split; [eapply float_of_str_raises; eauto | discriminate].
    + destruct (Float.of_str _) eqn:E; simpl in H; [discriminate|]. injection H as <-.
      repeat split; [eapply float_of_str_raises; eauto | discriminate].
    + destruct (Float.of_str _) eqn:E; simpl in H; [discriminate|]. injection H as <-.
      repeat split; [eapply float_of_str_raises; eauto | discriminate].
  - intros s. unfold parse, float_list. rewrite <- mapM_is_ok.
    destruct (mapM _ _); reflexivity.
  - destruct v; [reflexivity | reflexivity | discriminate].
  - intros e H. destruct v as [z|f|s]; try discriminate. cbn [metric_val] in H.
    destruct (Float.of_str s) eqn:E; cbn [bind] in H; [discriminate|].
    injection H as <-. split; [eapply float_of_str_raises; eauto | reflexivity].
  - intros H. unfold literacy_history, top_universities.
    assert (Hb : present v && present w = false).
    { destruct H as [-> | ->]; [reflexivity | apply andb_false_r]. }
    rewrite Hb. split; reflexivity.
  - intros e H. unfold literacy_history, top_universities in H.
    destruct (present v && present w) eqn:Hb.
    2:{ destruct H; discriminate. }
    apply andb_prop in Hb. split; [|exact Hb].
    destruct H as [H|H].
    + destruct (int_list (text_of v)) as [ys|e1] eqn:E1; cbn [bind] in H.
      * destruct (mapM Float.of_str _) as [rs|e2] eqn:E2; cbn [bind] in H;
          [discriminate|]. injection H as <-. eapply float_tokens_raise; eauto.
      * injection H as <-. eapply int_list_raises; eauto.
    + destruct (int_list (text_of w)) as [ys|e1] eqn:E1; cbn [bind] in H;
        [discriminate|]. injection H as <-. eapply int_list_raises; eauto.
  - intros a b c d e H. unfold regional_infrastructure. rewrite H. reflexivity.
  - intros a b c d e x H. unfold regional_infrastructure in H.
    destruct (forallb present [a; b; c; d; e]); [|discriminate].
    split; [|reflexivity].
    destruct (count_list (text_of b)) as [p|e1] eqn:E1; cbn [bind] in H.
    2:{ injection H as <-. eapply count_list_raises; eauto. }
    destruct (count_list (text_of c)) as [q|e2] eqn:E2; cbn [bind] in H.
    2:{ injection H as <-. eapply count_list_raises; eauto. }
    destruct (count_list (text_of d)) as [r|e3] eqn:E3; cbn [bind] in H.
    2:{ injection H as <-. eapply count_list_raises; eauto. }
    destruct (mapM Float.of_str _) as [pop|e4] eqn:E4; cbn [bind] in H;
      [discriminate|]. injection H as <-. eapply float_tokens_raise; eauto.
  - intros Hnan. unfold institution_count. cbn [str_of_cell NaN].
    rewrite Hnan. vm_compute. reflexivity.
  - intros e. unfold institution_count. apply int_of_str_raises.
Qed.

Lemma parsers_neutral_on_no_data_witness :
  parse KRatio NaN = Ok (no_data KRatio).
Proof.
  apply (proj1 (parsers_neutral_on_no_data Float.repr KRatio NaN NaN)). reflexivity.
Defined.

(** ** Dictionaries and columns *)

Lemma get_set_same {V : Type} (k : string) (v : V) (d : list (string * V)) :
  Dict.get k (Dict.set k v d) = Some v.
Proof.
  induction d as [|[k' v'] d IH]; simpl.
  - rewrite String.eqb_refl; reflexivity.
  - destruct (String.eqb k k') eqn:E; simpl; rewrite E; auto.
Qed.

Lemma get_set_other {V : Type} (k k' : string) (v : V) (d : list (string * V)) :
  k <> k' -> Dict.get k (Dict.set k' v d) = Dict.get k d.
Proof.
  intros Hne. induction d as [|[k2 v2] d IH]; simpl.
  - apply String.eqb_neq in Hne. rewrite Hne; reflexivity.
  - destruct (String.eqb k' k2) eqn:E; simpl.
    + apply String.eqb_eq in E; subst k2.
      apply String.eqb_neq in Hne. rewrite Hne; reflexivity.
    + destruct (String.eqb k k2); auto.
Qed.

Lemma set_get_same {V : Type} (k : string) (v : V) (d : list (string * V)) :
  Dict.get k d = Some v -> Dict.set k v d = d.
Proof.
  induction d as [|[k' v'] d IH]; simpl; [discriminate|].
  destruct (String.eqb k k') eqn:E.
  - intros H; injection H as ->. reflexivity.
  - intros H. f_equal; auto.
Qed.

Lemma get_map_values {V W : Type} (g : V -> W) (k : string) (d : list (string * V)) :
  Dict.get k (map (fun kv => (fst kv, g (snd kv))) d) = option_map g (Dict.get k d).
Proof.
  induction d as [|[k' v'] d IH]; simpl; auto.
  destruct (String.eqb k k'); auto.
Qed.

Lemma has_col_get (df : DataFrame) (c : string) :
  pd.has_col df c = true <-> exists col, Dict.get c (columns df) = Some col.
Proof.
  unfold pd.has_col, Dict.mem. destruct (Dict.get c (columns df)) as [col|].
  - split; [exists col; reflexivity | reflexivity].
  - split; [discriminate | intros [col H]; discriminate].
Qed.

Lemma getitem_get (df : DataFrame) (c : string) (col : list cell) :
  pd.getitem df c = Ok col <-> Dict.get c (columns df) = Some col.
Proof.
  unfold pd.getitem. destruct (Dict.get c (columns df)); split; congruence.
Qed.

Lemma select_Forall {A : Type} (P : A -> Prop) (mask : list bool) (l : list A) :
  Forall P l -> Forall P (pd.select mask l).
Proof.
  intros H; revert mask; induction H as [|a l Ha _ IH]; intros [|[] mask]; simpl;
    auto.
Qed.

Lemma select_true {A : Type} (f : A -> result bool) (l : list A) (mask : list bool) :
  mapM f l = Ok mask -> Forall (fun a => f a = Ok true) (pd.select mask l).
Proof.
  intros H; apply mapM_ok_Forall2 in H.
  induction H as [|a b l mask Hab _ IH]; simpl; [constructor|].
  destruct b; auto.
Qed.

(** ** The loaders at their boundary *)


Lemma try_load_read (fs : filesystem) (path : string)
  (rec : DataFrame -> result DataFrame) (raw : DataFrame) :
  safe_read_csv fs path = Some raw ->
  try_load fs path rec = (df <- rec raw ;; Ok (Some df)).
Proof.
  unfold try_load, safe_read_csv, path_exists.
  destruct (fs path); [|discriminate]. intros ->. reflexivity.
Qed.

(** C10. When the geography file is read but lacks [Terrain_Type] or
    [Percentage], the loader drops the table it has read and returns the
    fixed sample of six terrains. *)
Theorem geography_sample_when_terrain_missing :
  forall (fs : filesystem) (raw : DataFrame),
    safe_read_csv fs "data/geography.csv" = Some raw ->
    pd.has_col raw "Terrain_Type" = false \/ pd.has_col raw "Percentage" = false ->
    load_geography_data fs = Some (pd.DataFrame_of_dict terrain_data) /\
    nrows (pd.DataFrame_of_dict terrain_data) = 6%nat /\
    pd.getitem (pd.DataFrame_of_dict terrain_data) "Terrain_Type"
    = Ok [VStr "Mountains"; VStr "Plains"; VStr "Plateaus"; VStr "Deserts";
          VStr "Coastlines"; VStr "Forests"].
Proof.
  intros fs raw Hread Hmiss. split; [|split; reflexivity].
  unfold load_geography_data, load_geography_data_try.
  rewrite (try_load_read _ _ _ raw Hread). unfold reconcile_geography.
  destruct Hmiss as [-> | ->]; [|rewrite orb_true_r]; reflexivity.
Qed.

Lemma geography_sample_when_terrain_missing_witness :
  load_geography_data
    (fun _ => Some (fun _ => ReadOk (mkDF 1 [("Terrain_Type", [VStr "Hills"])])))
  = Some (pd.DataFrame_of_dict terrain_data).
Proof.
  apply (geography_sample_when_terrain_missing _
           (mkDF 1 [("Terrain_Type", [VStr "Hills"])]));
    [reflexivity | right; reflexivity].
Defined.

(** C1, as stated, fails: with an unreadable file the pipelines of the
    geography and the education loader raise, and the loaders return a
    substitute table. *)
Lemma substitute_table_on_exception :
  let fs : filesystem := fun _ => Some (fun _ => ReadException) in
  load_try 2026 Float.repr fs geography = Raise AttributeError /\
  load 2026 Float.repr fs geography = Some (pd.DataFrame_of_dict terrain_data) /\
  load_try 2026 Float.repr fs education = Raise AttributeError /\
  load 2026 Float.repr fs education = Some education_fallback /\
  ~ (forall d e, load_try 2026 Float.repr fs d = Raise e ->
                 load 2026 Float.repr fs d = None).
Proof.
  intros fs. repeat (split; [reflexivity|]).
  intros H. specialize (H geography AttributeError eq_refl). discriminate.
Qed.

(** C1, amended. An exception inside the pipeline of a loader never leaves
    it: nine loaders return null; the education and the geography loader
    return their fallback table. A table returned by one of the nine is
    the one the whole pipeline built. *)
Theorem exception_caught_at_boundary :
  forall (current_year : Z) (float_repr : pyfloat -> string) (fs : filesystem)
         (d : domain) (e : exn),
    load_try current_year float_repr fs d = Raise e ->
    load current_year float_repr fs d = on_exception d /\
    (forall d' df, on_exception d' = None ->
       load current_year float_repr fs d' = Some df ->
       load_try current_year float_repr fs d' = Ok (Some df)).
Proof.
  intros cy fr fs d e H. split.
  - destruct d; simpl in *;
      unfold load_linguistic_data, load_religious_data, load_state_data,
        load_cultural_data, load_population_data, load_economic_data,
        load_historical_data, load_festivals_data, load_tourism_data,
        load_education_data, load_geography_data; rewrite H; reflexivity.
  - clear. intros d df Hd. destruct d; try discriminate; simpl;
      unfold load_linguistic_data, load_religious_data, load_state_data,
        load_cultural_data, load_population_data, load_economic_data,
        load_historical_data, load_festivals_data, load_tourism_data, or_none;
      match goal with |- context [match ?r with _ => _ end] => destruct r as [[?|]|] end;
      congruence.
Qed.

Lemma exception_caught_at_boundary_witness :
  load 2026 Float.repr (fun _ => Some (fun _ => ReadException)) linguistic = None.
Proof.
  apply (proj1 (exception_caught_at_boundary 2026 Float.repr
                  (fun _ => Some (fun _ => ReadException))
                  linguistic AttributeError eq_refl)).
Defined.

(** ** The population table *)

Lemma coerce_numeric (v : cell) : is_str (pd.coerce v) = false.
Proof.
  destruct v as [z|f|s]; simpl; auto. unfold pd.numeric_of_str.
  destruct (Py.int_of_str s); [reflexivity|]. destruct (Float.of_str s); reflexivity.
Qed.

Lemma to_numeric_no_str (col : list cell) :
  Forall (fun v => is_str v = false) (pd.to_numeric col).
Proof.
  unfold pd.to_numeric, pd.infer.
  assert (H : Forall (fun v => is_str v = false) (map pd.coerce col)).
  { apply Forall_forall. intros v Hv. apply in_map_iff in Hv.
    destruct Hv as (x & <- & _). apply coerce_numeric. }
  destruct (_ && _); [|exact H].
  apply Forall_forall. intros v Hv. apply in_map_iff in Hv.
  destruct Hv as (x & <- & Hx). rewrite Forall_forall in H.
  specialize (H x Hx). destruct x; simpl in *; auto.
Qed.

Lemma ensure_numeric_same (df : DataFrame) (c : string) :
  numeric_col (ensure_numeric df c) c.
Proof.
  unfold ensure_numeric, numeric_col.
  destruct (Dict.get c (columns df)) as [x|] eqn:E; simpl.
  - intros col. rewrite get_set_same. intros H; injection H as <-.
    apply to_numeric_no_str.
  - intros col H. congruence.
Qed.

Lemma ensure_numeric_keeps (df : DataFrame) (c c' : string) :
  numeric_col df c -> numeric_col (ensure_numeric df c') c.
Proof.
  intros H. destruct (string_dec c c') as [->|Hne]; [apply ensure_numeric_same|].
  unfold ensure_numeric, numeric_col.
  destruct (Dict.get c' (columns df)) as [x|] eqn:E; simpl; auto.
  intros col. rewrite (get_set_other _ _ _ _ Hne). apply H.
Qed.

Lemma ensure_numeric_all (l : list string) (df : DataFrame) (c : string) :
  In c l \/ numeric_col df c -> numeric_col (fold_left ensure_numeric l df) c.
Proof.
  revert df; induction l as [|c' l IH]; simpl; intros df H.
  - destruct H as [[]|H]; exact H.
  - apply IH. destruct H as [[->|H]|H]; auto.
    + right; apply ensure_numeric_same.
    + right; apply ensure_numeric_keeps, H.
Qed.

Lemma filter_rows_get (df : DataFrame) (mask : list bool) (c : string) :
  Dict.get c (columns (pd.filter_rows df mask))
  = option_map (pd.select mask) (Dict.get c (columns df)).
Proof. unfold pd.filter_rows; simpl. apply get_map_values. Qed.



(** ** Tables that only grow *)

Lemma grows_refl (df : DataFrame) : grows df df.
Proof. split; auto. Qed.

Lemma grows_trans (a b c : DataFrame) : grows a b -> grows b c -> grows a c.
Proof. intros [Hn H] [Hn' H']. split; [congruence | auto]. Qed.

Lemma grows_has (df df' : DataFrame) (c : string) :
  grows df df' -> pd.has_col df c = true -> pd.has_col df' c = true.
Proof.
  intros [_ H] Hc. apply has_col_get in Hc. destruct Hc as [col Hc].
  apply has_col_get. exists col. auto.
Qed.

Lemma has_setitem (df : DataFrame) (c c' : string) (col : list cell) :
  pd.has_col (pd.setitem_series df c col) c' = String.eqb c' c || pd.has_col df c'.
Proof.
  unfold pd.has_col, pd.setitem_series, Dict.mem; simpl.
  destruct (String.eqb c' c) eqn:E.
  - apply String.eqb_eq in E; subst. rewrite get_set_same. reflexivity.
  - apply String.eqb_neq in E. rewrite (get_set_other _ _ _ _ E). reflexivity.
Qed.

Lemma has_setitem_same (df : DataFrame) (c : string) (col : list cell) :
  pd.has_col (pd.setitem_series df c col) c = true.
Proof. rewrite has_setitem, String.eqb_refl. reflexivity. Qed.

Lemma grows_setitem (df : DataFrame) (c : string) (col : list cell) :
  pd.has_col df c = false -> grows df (pd.setitem_series df c col).
Proof.
  intros Hc. split; [reflexivity|]. intros c' col' H. simpl.
  rewrite get_set_other; auto. intros ->.
  assert (pd.has_col df c = true) by (apply has_col_get; eauto). congruence.
Qed.

Lemma setitem_same (df : DataFrame) (c : string) (col : list cell) :
  Dict.get c (columns df) = Some col -> pd.setitem_series df c col = df.
Proof.
  intros H. unfold pd.setitem_series. rewrite (set_get_same _ _ _ H).
  destruct df; reflexivity.
Qed.

(** *** The required columns *)

Lemma missing_none (required : list string) (df : DataFrame) :
  (forall c, In c required -> pd.has_col df c = true) ->
  missing_columns required df = [].
Proof.
  unfold missing_columns. induction required as [|c l IH]; simpl; intros H; auto.
  rewrite (H c) by auto. simpl. apply IH. auto.
Qed.

Lemma missing_absent (required : list string) (df : DataFrame) (c : string) :
  In c (missing_columns required df) -> In c required /\ pd.has_col df c = false.
Proof.
  unfold missing_columns. rewrite filter_In. intros [H H'].
  split; auto. destruct (pd.has_col df c); auto; discriminate.
Qed.

Lemma add_missing_grows (required : list string)
  (default : DataFrame -> string -> DataFrame) (missing : list string)
  (df : DataFrame) :
  sets_own_column required default ->
  NoDup missing ->
  (forall c, In c missing -> In c required /\ pd.has_col df c = false) ->
  grows df (add_missing default missing df) /\
  (forall c, In c missing -> pd.has_col (add_missing default missing df) c = true).
Proof.
  intros Hd. unfold add_missing.
  revert df; induction missing as [|m l IH]; simpl; intros df Hnd Hm.
  - split; [apply grows_refl | intros c []].
  - inversion Hnd as [|? ? Hnotin Hnd']; subst.
    destruct (Hm m (or_introl eq_refl)) as [Hreq Habs].
    destruct (Hd df m Hreq) as [col Hcol]. rewrite Hcol.
    assert (Hg : grows df (pd.setitem_series df m col)) by (apply grows_setitem; auto).
    destruct (IH (pd.setitem_series df m col) Hnd') as [Hg' Hall].
    { intros c Hc. destruct (Hm c (or_intror Hc)) as [Hr Ha]. split; auto.
      rewrite has_setitem, Ha, orb_false_r. apply String.eqb_neq. congruence. }
    split; [eapply grows_trans; eauto|].
    intros c [<-|Hc]; auto.
    eapply grows_has; [exact Hg'|]. apply has_setitem_same.
Qed.

Lemma NoDup_filter {A : Type} (f : A -> bool) (l : list A) :
  NoDup l -> NoDup (filter f l).
Proof.
  induction 1 as [|a l Hn _ IH]; simpl; [constructor|].
  destruct (f a); auto. constructor; auto. rewrite filter_In. tauto.
Qed.

(** After the required-columns block every required column is there, and
    the table has only grown; on a table that has them all the block does
    nothing. *)
Lemma required_block (required : list string)
  (default : DataFrame -> string -> DataFrame) (df : DataFrame) :
  sets_own_column required default -> NoDup required ->
  let df' := add_missing default (missing_columns required df) df in
  grows df df' /\
  (forall c, In c required -> pd.has_col df' c = true) /\
  ((forall c, In c required -> pd.has_col df c = true) -> df' = df).
Proof.
  intros Hd Hnd df'.
  destruct (add_missing_grows required default (missing_columns required df) df Hd)
    as [Hg Hall].
  { apply NoDup_filter, Hnd. }
  { apply missing_absent. }
  split; [exact Hg|]. split.
  - intros c Hc. destruct (pd.has_col df c) eqn:E.
    + eapply grows_has; eauto.
    + apply Hall. unfold missing_columns. rewrite filter_In, E. auto.
  - intros H. unfold df'. rewrite (missing_none _ _ H). reflexivity.
Qed.

Ltac own_column :=
  let df := fresh "df" in
  let c := fresh "c" in
  let H := fresh "H" in
  intros df c H; simpl in H;
  repeat (destruct H as [<-|H]; [eexists; reflexivity|]); destruct H.

Ltac no_dup := repeat (constructor; [simpl; intuition discriminate|]); constructor.

Lemma linguistic_defaults : sets_own_column linguistic_required linguistic_default.
Proof. own_column. Qed.
Lemma religious_defaults : sets_own_column religious_required religious_default.
Proof. own_column. Qed.
Lemma state_defaults : sets_own_column state_required state_default.
Proof. own_column. Qed.
Lemma cultural_defaults : sets_own_column cultural_required cultural_default.
Proof. own_column. Qed.
Lemma population_defaults : sets_own_column population_required population_default.
Proof. own_column. Qed.
Lemma economic_defaults : sets_own_column economic_required economic_default.
Proof. own_column. Qed.
Lemma historical_defaults : sets_own_column historical_required historical_default.
Proof. own_column. Qed.
Lemma festivals_defaults : sets_own_column festivals_required festivals_default.
Proof. own_column. Qed.
Lemma tourism_defaults : sets_own_column tourism_required tourism_default.
Proof. own_column. Qed.
Lemma education_defaults : sets_own_column education_required education_default.
Proof. own_column. Qed.

(** *** Guarded steps *)

Lemma Ok_inj {A : Type} (a b : A) : Ok a = Ok b -> a = b.
Proof. intros H; injection H; auto. Qed.

Lemma foldM_rel {A B : Type} (R : A -> A -> Prop) (f : A -> B -> result A)
  (l : list B) :
  (forall a, R a a) -> (forall a b c, R a b -> R b c -> R a c) ->
  (forall a x a', In x l -> f a x = Ok a' -> R a a') ->
  forall a a', foldM f l a = Ok a' -> R a a'.
Proof.
  intros Hr Ht. induction l as [|x l IH]; simpl; intros Hf a a' H.
  - injection H as <-. apply Hr.
  - destruct (f a x) as [a1|] eqn:E; simpl in H; [|discriminate].
    eapply Ht; [eapply Hf; eauto | apply IH; auto].
    intros; eapply Hf; eauto.
Qed.

Lemma foldM_fixed {A B : Type} (f : A -> B -> result A) (l : list B) (a : A) :
  (forall x, In x l -> f a x = Ok a) -> foldM f l a = Ok a.
Proof.
  induction l as [|x l IH]; simpl; intros H; auto.
  rewrite (H x) by auto. simpl. apply IH. auto.
Qed.

Lemma assign_map_ok (df df' : DataFrame) (c key : string) (f : cell -> cell) :
  pd.has_col df c = false -> assign_map df c key f = Ok df' ->
  grows df df' /\ pd.has_col df' c = true.
Proof.
  unfold assign_map. intros Hc H.
  destruct (pd.getitem df key) as [col|]; simpl in H; [|discriminate].
  injection H as <-. split; [apply grows_setitem; auto | apply has_setitem_same].
Qed.

Lemma assign_copy_ok (df df' : DataFrame) (c key : string) :
  pd.has_col df c = false -> assign_copy df c key = Ok df' ->
  grows df df' /\ pd.has_col df' c = true.
Proof.
  unfold assign_copy. intros Hc H.
  destruct (pd.getitem df key) as [col|]; simpl in H; [|discriminate].
  injection H as <-. split; [apply grows_setitem; auto | apply has_setitem_same].
Qed.

Lemma lookup_if_absent_ok (c key : string) (d : list (string * cell))
  (default : cell) (df df' : DataFrame) :
  lookup_if_absent c key d default df = Ok df' ->
  grows df df' /\ pd.has_col df' c = true.
Proof.
  unfold lookup_if_absent. destruct (pd.has_col df c) eqn:E.
  - intros H; injection H as <-. split; [apply grows_refl | exact E].
  - apply assign_map_ok; exact E.
Qed.

Lemma lookup_if_absent_skip (c key : string) (d : list (string * cell))
  (default : cell) (df : DataFrame) :
  pd.has_col df c = true -> lookup_if_absent c key d default df = Ok df.
Proof. unfold lookup_if_absent. intros ->. reflexivity. Qed.

Lemma has_all_grows (df df' : DataFrame) (cs : list string) :
  grows df df' -> has_all df cs -> has_all df' cs.
Proof. intros Hg H c Hc. eapply grows_has; eauto. Qed.

Lemma has_all_app (df : DataFrame) (cs cs' : list string) :
  has_all df (cs ++ cs') <-> has_all df cs /\ has_all df cs'.
Proof.
  unfold has_all. split.
  - intros H; split; intros c Hc; apply H, in_or_app; auto.
  - intros [H H'] c Hc. apply in_app_or in Hc. destruct Hc; auto.
Qed.

Lemma has_all_cons (df : DataFrame) (c : string) (cs : list string) :
  has_all df (c :: cs) <-> pd.has_col df c = true /\ has_all df cs.
Proof.
  unfold has_all. split.
  - intros H; split; [apply H; left; reflexivity | intros c' Hc; apply H; right; auto].
  - intros [H H'] c' [<-|Hc]; auto.
Qed.

(** *** Loaders made of a required-columns block *)

Lemma linguistic_grows (raw out : DataFrame) :
  reconcile_linguistic raw = Ok out ->
  grows raw out /\ has_all out linguistic_required.
Proof.
  unfold reconcile_linguistic. intros H; injection H as <-.
  destruct (required_block linguistic_required linguistic_default raw
              linguistic_defaults ltac:(no_dup)) as (Hg & Hall & _). auto.
Qed.

Lemma linguistic_settled (df : DataFrame) :
  has_all df linguistic_required -> reconcile_linguistic df = Ok df.
Proof.
  intros H. unfold reconcile_linguistic. f_equal.
  apply (required_block linguistic_required linguistic_default df
           linguistic_defaults ltac:(no_dup)). exact H.
Qed.

Lemma religious_grows (raw out : DataFrame) :
  reconcile_religious raw = Ok out ->
  grows raw out /\ has_all out religious_required.
Proof.
  unfold reconcile_religious. intros H; injection H as <-.
  destruct (required_block religious_required religious_default raw
              religious_defaults ltac:(no_dup)) as (Hg & Hall & _). auto.
Qed.

Lemma religious_settled (df : DataFrame) :
  has_all df religious_required -> reconcile_religious df = Ok df.
Proof.
  intros H. unfold reconcile_religious. f_equal.
  apply (required_block religious_required religious_default df
           religious_defaults ltac:(no_dup)). exact H.
Qed.

Lemma economic_grows (raw out : DataFrame) :
  reconcile_economic raw = Ok out ->
  grows raw out /\ has_all out economic_required.
Proof.
  unfold reconcile_economic. intros H; injection H as <-.
  destruct (required_block economic_required economic_default raw
              economic_defaults ltac:(no_dup)) as (Hg & Hall & _). auto.
Qed.

Lemma economic_settled (df : DataFrame) :
  has_all df economic_required -> reconcile_economic df = Ok df.
Proof.
  intros H. unfold reconcile_economic. f_equal.
  apply (required_block economic_required economic_default df
           economic_defaults ltac:(no_dup)). exact H.
Qed.

(** *** load_state_data *)

(** One step of forward reasoning: a successful [lookup_if_absent] at the
    head of the pipeline gives a table that has grown and has the column. *)
Ltac lookup_step H :=
  match type of H with
  | bind (lookup_if_absent ?c ?k ?d ?v ?df) _ = Ok _ =>
      let df' := fresh "df" in
      let E := fresh "E" in
      let Hg := fresh "Hg" in
      let Hc := fresh "Hc" in
      destruct (lookup_if_absent c k d v df) as [df'|] eqn:E;
      [cbn [bind] in H | discriminate];
      destruct (lookup_if_absent_ok _ _ _ _ _ _ E) as [Hg Hc]; clear E
  | lookup_if_absent ?c ?k ?d ?v ?df = Ok _ =>
      let Hg := fresh "Hg" in
      let Hc := fresh "Hc" in
      destruct (lookup_if_absent_ok _ _ _ _ _ _ H) as [Hg Hc]
  end.

Ltac grown :=
  solve [ repeat first [ apply grows_refl | assumption
                       | eapply grows_trans; [eassumption|] ] ].

Ltac has_it :=
  first [ assumption
        | match goal with
          | Hg : grows ?a ?b |- pd.has_col ?b _ = true =>
              apply (grows_has a b _ Hg); clear Hg; has_it
          end ].

Lemma state_grows (raw out : DataFrame) :
  reconcile_state raw = Ok out ->
  grows raw out /\ has_all out (state_required ++ state_lookups).
Proof.
  unfold reconcile_state. intros H.
  destruct (required_block state_required state_default raw
              state_defaults ltac:(no_dup)) as (Hg & Hall & _).
  set (df0 := add_missing _ _ _) in *.
  do 6 lookup_step H. lookup_step H.
  split; [grown|].
  apply has_all_app; split; [apply (has_all_grows df0); [grown | exact Hall]|].
  unfold state_lookups. repeat (apply has_all_cons; split; [has_it|]).
  intros c [].
Qed.

Lemma state_settled (df : DataFrame) :
  has_all df (state_required ++ state_lookups) -> reconcile_state df = Ok df.
Proof.
  intros H. apply has_all_app in H. destruct H as [Hr Hl].
  unfold reconcile_state.
  rewrite (proj2 (proj2 (required_block state_required state_default df
                            state_defaults ltac:(no_dup))) Hr).
  repeat (rewrite lookup_if_absent_skip by (apply Hl; simpl; tauto); cbn [bind]).
  reflexivity.
Qed.

(** *** load_education_data *)

Lemma education_fill_block (l : list (string * cell)) (df : DataFrame) :
  let df' := fold_left education_fill l df in
  grows df df' /\ has_all df' (map fst l) /\
  (has_all df (map fst l) -> df' = df).
Proof.
  revert df; induction l as [|[c v] l IH]; intros df; cbn [fold_left map fst].
  - split; [apply grows_refl|]. split; [intros c []|reflexivity].
  - destruct (IH (education_fill df (c, v))) as (Hg & Hall & Hfix).
    assert (Hstep : grows df (education_fill df (c, v)) /\
                    pd.has_col (education_fill df (c, v)) c = true /\
                    (pd.has_col df c = true -> education_fill df (c, v) = df)).
    { unfold education_fill. destruct (pd.has_col df c) eqn:E.
      - split; [apply grows_refl|]. split; auto.
      - split; [apply grows_setitem; exact E|].
        split; [apply has_setitem_same | discriminate]. }
    destruct Hstep as (Hg1 & Hc1 & Hfix1).
    split; [eapply grows_trans; eauto|]. split.
    + apply has_all_cons. split; [eapply grows_has; eauto | exact Hall].
    + intros H. apply has_all_cons in H. destruct H as [Hc Hl].
      rewrite (Hfix1 Hc) in *. apply Hfix. exact Hl.
Qed.

Lemma education_grows (raw out : DataFrame) :
  reconcile_education raw = Ok out ->
  grows raw out /\ has_all out education_columns.
Proof.
  unfold reconcile_education, education_columns.
  generalize expected_columns as l. intros l H. apply Ok_inj in H. subst out.
  destruct (education_fill_block l raw) as (Hg & Hall & _).
  set (df0 := fold_left education_fill l raw) in *.
  destruct (required_block education_required education_default df0
              education_defaults ltac:(no_dup)) as (Hg' & Hall' & _).
  split; [eapply grows_trans; eauto|].
  apply has_all_app. split; [eapply has_all_grows; eauto | exact Hall'].
Qed.

Lemma education_settled (df : DataFrame) :
  has_all df education_columns -> reconcile_education df = Ok df.
Proof.
  unfold reconcile_education, education_columns.
  generalize expected_columns as l. intros l H.
  apply has_all_app in H. destruct H as [He Hr].
  rewrite (proj2 (proj2 (education_fill_block l df)) He).
  f_equal. apply (required_block education_required education_default df
                    education_defaults ltac:(no_dup)). exact Hr.
Qed.

(** *** load_tourism_data *)

Lemma setitem_list_ok (df df' : DataFrame) (c : string) (l : list cell) :
  pd.has_col df c = false -> pd.setitem_list df c l = Ok df' ->
  grows df df' /\ pd.has_col df' c = true.
Proof.
  unfold pd.setitem_list. intros Hc H. destruct (_ =? _)%nat; [|discriminate].
  injection H as <-. split; [apply grows_setitem; auto | apply has_setitem_same].
Qed.

Lemma tourism_derive_grows (df df' : DataFrame) (m : string * string) :
  tourism_derive df m = Ok df' -> grows df df'.
Proof.
  destruct m as [expected actual]. unfold tourism_derive.
  destruct (pd.has_col df actual); cbn [andb];
    [|intros H; injection H as <-; apply grows_refl].
  destruct (pd.has_col df expected) eqn:E; cbn [negb];
    [intros H; injection H as <-; apply grows_refl|].
  destruct (String.eqb expected "Destination");
    [|destruct (String.eqb expected "State")].
  - destruct (pd.getitem df actual); cbn [bind]; [|discriminate].
    intros H. eapply setitem_list_ok; eauto.
  - destruct (pd.getitem df actual); cbn [bind]; [|discriminate].
    intros H. eapply setitem_list_ok; eauto.
  - intros H. eapply assign_copy_ok; eauto.
Qed.

Lemma tourism_derive_skip (df : DataFrame) (m : string * string) :
  pd.has_col df (fst m) = true -> tourism_derive df m = Ok df.
Proof.
  destruct m as [expected actual]. unfold tourism_derive. cbn [fst].
  intros ->. cbn [negb]. rewrite andb_false_r. reflexivity.
Qed.

Lemma tourism_mapped : map fst tourism_column_mappings = tourism_required.
Proof. reflexivity. Qed.

Lemma tourism_grows (raw out : DataFrame) :
  reconcile_tourism raw = Ok out ->
  grows raw out /\ has_all out tourism_required.
Proof.
  unfold reconcile_tourism. intros H.
  destruct (foldM tourism_derive tourism_column_mappings raw) as [df0|] eqn:E;
    cbn [bind] in H; [|discriminate].
  injection H as <-.
  assert (Hg0 : grows raw df0).
  { revert E. apply foldM_rel; [apply grows_refl | apply grows_trans|].
    intros a x a' _. apply tourism_derive_grows. }
  destruct (required_block tourism_required tourism_default df0
              tourism_defaults ltac:(no_dup)) as (Hg' & Hall' & _).
  split; [eapply grows_trans; eauto | exact Hall'].
Qed.

Lemma tourism_settled (df : DataFrame) :
  has_all df tourism_required -> reconcile_tourism df = Ok df.
Proof.
  intros H. unfold reconcile_tourism. rewrite foldM_fixed.
  - cbn [bind]. f_equal.
    apply (required_block tourism_required tourism_default df
             tourism_defaults ltac:(no_dup)). exact H.
  - intros m Hm. apply tourism_derive_skip. apply H.
    rewrite <- tourism_mapped. apply in_map. exact Hm.
Qed.

(** *** load_cultural_data *)

Section Cultural.

Variable float_repr : pyfloat -> string.

Lemma cultural_grows (raw out : DataFrame) :
  reconcile_cultural float_repr raw = Ok out ->
  grows raw out /\ has_all out cultural_columns.
Proof.
  unfold reconcile_cultural. intros H.
  destruct (required_block cultural_required cultural_default raw
              cultural_defaults ltac:(no_dup)) as (Hg & Hall & _).
  set (df0 := add_missing _ _ _) in *.
  assert (Hce : pd.has_col df0 "Cultural Element" = true) by (apply Hall; simpl; tauto).
  assert (Hhp : pd.has_col df0 "Historical Period" = true) by (apply Hall; simpl; tauto).
  assert (Hro : pd.has_col df0 "Region of Origin" = true) by (apply Hall; simpl; tauto).
  (* Heritage_Type *)
  rewrite Hce, andb_true_r in H.
  assert (H1 : exists df1, grows df0 df1 /\ pd.has_col df1 "Heritage_Type" = true /\
     (df2 <- (let df := if negb (pd.has_col df1 "Name")
               then pd.setitem_range df1 "Name" (numbered "Heritage") else df1 in
        df <- (if negb (pd.has_col df "State") && pd.has_col df "Associated States"
               then assign_copy df "State" "Associated States"
               else if negb (pd.has_col df "State") && pd.has_col df "Region of Origin"
               then assign_copy df "State" "Region of Origin"
               else if negb (pd.has_col df "State")
               then Ok (pd.setitem_scalar df "State" (VStr "Unknown"))
               else Ok df) ;; Ok df) ;;
      (if negb (pd.has_col df2 "Year") && pd.has_col df2 "Historical Period" then
         col <- pd.getitem df2 "Historical Period" ;;
         years <- mapM (earliest_year float_repr) col ;;
         Ok (pd.setitem_series df2 "Year" (pd.infer years))
       else if negb (pd.has_col df2 "Year")
       then Ok (pd.setitem_scalar df2 "Year" (VInt 0))
       else Ok df2)) = Ok out).
  { destruct (pd.has_col df0 "Heritage_Type") eqn:E; cbn [negb bind] in H.
    - exists df0. split; [apply grows_refl|]. split; [exact E|].
      revert H. cbv zeta. destruct (if negb (pd.has_col df0 "Name") then _ else _) eqn:?.
      destruct (if negb (pd.has_col _ "State") && _ then _ else _); auto.
    - destruct (assign_copy df0 "Heritage_Type" "Cultural Element") as [df1|] eqn:E1;
        cbn [bind] in H; [|discriminate].
      destruct (assign_copy_ok _ _ _ _ E E1) as [Hg1 Hc1].
      exists df1. split; [exact Hg1|]. split; [exact Hc1|].
      revert H. cbv zeta. destruct (if negb (pd.has_col df1 "Name") then _ else _) eqn:?.
      destruct (if negb (pd.has_col _ "State") && _ then _ else _); auto. }
  clear H. destruct H1 as (df1 & Hg1 & Hc1 & H).
  (* Name *)
  cbv zeta in H.
  assert (H2 : exists df2, grows df1 df2 /\ pd.has_col df2 "Name" = true /\
                 df2 = (if negb (pd.has_col df1 "Name")
                        then pd.setitem_range df1 "Name" (numbered "Heritage") else df1)).
  { eexists. split; [|split; [|reflexivity]];
      destruct (pd.has_col df1 "Name") eqn:E; cbn [negb]; auto using grows_refl.
    - apply grows_setitem; exact E.
    - apply has_setitem_same. }
  destruct H2 as (df2 & Hg2 & Hc2 & Heq). rewrite <- Heq in H. clear Heq.
  (* State *)
  destruct (if negb (pd.has_col df2 "State") && _ then _ else _) as [df3|] eqn:E3;
    cbn [bind] in H; [|discriminate].
  assert (H3 : grows df2 df3 /\ pd.has_col df3 "State" = true).
  { destruct (pd.has_col df2 "State") eqn:E; cbn [negb andb] in E3.
    - injection E3 as <-. split; [apply grows_refl | exact E].
    - destruct (pd.has_col df2 "Associated States");
        [eapply assign_copy_ok; eauto|].
      destruct (pd.has_col df2 "Region of Origin");
        [eapply assign_copy_ok; eauto|].
      injection E3 as <-. split; [apply grows_setitem; exact E | apply has_setitem_same]. }
  destruct H3 as [Hg3 Hc3].
  (* Year *)
  assert (H4 : grows df3 out /\ pd.has_col out "Year" = true).
  { destruct (pd.has_col df3 "Year") eqn:E; cbn [negb andb] in H.
    - injection H as <-. split; [apply grows_refl | exact E].
    - destruct (pd.has_col df3 "Historical Period").
      + destruct (pd.getitem df3 "Historical Period"); cbn [bind] in H; [|discriminate].
        destruct (mapM _ _); cbn [bind] in H; [|discriminate].
        injection H as <-.
        split; [apply grows_setitem; exact E | apply has_setitem_same].
      + injection H as <-.
        split; [apply grows_setitem; exact E | apply has_setitem_same]. }
  destruct H4 as [Hg4 Hc4].
  split; [grown|].
  apply has_all_app; split; [apply (has_all_grows df0); [grown | exact Hall]|].
  repeat (apply has_all_cons; split; [has_it|]). intros c [].
Qed.

Lemma cultural_settled (df : DataFrame) :
  has_all df cultural_columns -> reconcile_cultural float_repr df = Ok df.
Proof.
  intros H. apply has_all_app in H. destruct H as [Hr Hl].
  unfold reconcile_cultural.
  rewrite (proj2 (proj2 (required_block cultural_required cultural_default df
                            cultural_defaults ltac:(no_dup))) Hr).
  rewrite (Hl "Heritage_Type") by (simpl; tauto). cbn [negb andb bind].
  rewrite (Hl "Name") by (simpl; tauto). cbn [negb andb bind].
  rewrite (Hl "State") by (simpl; tauto). cbn [negb andb bind].
  rewrite (Hl "Year") by (simpl; tauto). reflexivity.
Qed.

End Cultural.

(** *** load_geography_data *)

Lemma geography_settled (raw out : DataFrame) :
  reconcile_geography raw = Ok out -> reconcile_geography out = Ok out.
Proof.
  unfold reconcile_geography.
  destruct (negb (pd.has_col raw "Terrain_Type") || negb (pd.has_col raw "Percentage"))
    eqn:E; intros H; injection H as <-; [reflexivity|].
  rewrite E. reflexivity.
Qed.

(** *** load_festivals_data *)

Lemma festivals_rename_grows (df df' : DataFrame) (m : string * string) :
  festivals_rename df m = Ok df' -> grows df df'.
Proof.
  destruct m as [actual expected]. unfold festivals_rename.
  destruct (pd.has_col df actual); cbn [andb];
    [|intros H; apply Ok_inj in H; subst; apply grows_refl].
  destruct (pd.has_col df expected) eqn:E; cbn [negb];
    [intros H; apply Ok_inj in H; subst; apply grows_refl|].
  intros H. eapply assign_copy_ok; eauto.
Qed.

Lemma festivals_rename_skip (df : DataFrame) (m : string * string) :
  pd.has_col df (snd m) = true -> festivals_rename df m = Ok df.
Proof.
  destruct m as [actual expected]. unfold festivals_rename. cbn [snd].
  intros ->. cbn [negb]. rewrite andb_false_r. reflexivity.
Qed.

Lemma adds_column_grows (c : string) (df df' : DataFrame) :
  adds_column c df df' -> grows df df'.
Proof.
  intros [->|(Hc & col & ->)]; [apply grows_refl | apply grows_setitem; exact Hc].
Qed.

Lemma lookup_if_absent_adds (c key : string) (d : list (string * cell))
  (default : cell) (df df' : DataFrame) :
  lookup_if_absent c key d default df = Ok df' -> adds_column c df df'.
Proof.
  unfold lookup_if_absent, assign_map. destruct (pd.has_col df c) eqn:E.
  - intros H; apply Ok_inj in H; left; auto.
  - destruct (pd.getitem df key); cbn [bind]; [|discriminate].
    intros H; apply Ok_inj in H. right. split; auto. eexists; eauto.
Qed.

Lemma month_from_season_settles (df df' : DataFrame) :
  month_from_season df = Ok df' ->
  month_settled df' /\ nrows df' = nrows df /\
  (forall c, pd.has_col df c = true -> pd.has_col df' c = true) /\
  (forall c, c <> "Month" -> Dict.get c (columns df') = Dict.get c (columns df)) /\
  (pd.has_col df "Season" = false -> df' = df).
Proof.
  unfold month_settled, month_from_season.
  destruct (pd.has_col df "Season" && pd.has_col df "Month") eqn:G.
  - destruct (pd.getitem df "Season") as [season|] eqn:Es; cbn [bind]; [|discriminate].
    destruct (pd.str_extract Py.search_letters season) as [month|] eqn:Em;
      cbn [bind]; [|discriminate].
    intros H; apply Ok_inj in H; subst df'.
    apply andb_prop in G. destruct G as [Gs Gm].
    assert (Hs : pd.getitem (pd.setitem_series df "Month" month) "Season" = Ok season).
    { apply getitem_get. simpl. rewrite get_set_other by discriminate.
      apply getitem_get. exact Es. }
    repeat split.
    + rewrite !has_setitem, Gs, Gm, !orb_true_r. cbn [andb].
      rewrite Hs. cbn [bind]. rewrite Em. cbn [bind]. f_equal.
      apply setitem_same. simpl. apply get_set_same.
    + intros c Hc. rewrite has_setitem, Hc. apply orb_true_r.
    + intros c Hc. simpl. apply get_set_other. exact Hc.
    + intros Hn. congruence.
  - intros H; apply Ok_inj in H; subst df'. rewrite G. repeat split; auto.
Qed.

Lemma month_settled_adds (c : string) (df df' : DataFrame) :
  c <> "Season" -> c <> "Month" ->
  adds_column c df df' -> month_settled df -> month_settled df'.
Proof.
  intros Hs Hm [->|(Hc & col & ->)]; auto.
  unfold month_settled, month_from_season.
  rewrite !has_setitem.
  replace (String.eqb "Season" c) with false
    by (symmetry; apply String.eqb_neq; congruence).
  replace (String.eqb "Month" c) with false
    by (symmetry; apply String.eqb_neq; congruence).
  cbn [orb].
  destruct (pd.has_col df "Season" && pd.has_col df "Month") eqn:G; [|reflexivity].
  unfold pd.getitem. cbn [columns pd.setitem_series].
  rewrite get_set_other by congruence.
  fold (pd.getitem df "Season").
  destruct (pd.getitem df "Season") as [season|] eqn:Es; cbn [bind]; [|discriminate].
  destruct (pd.str_extract Py.search_letters season) as [month|] eqn:Em;
    cbn [bind]; [|discriminate].
  intros H; apply Ok_inj in H. f_equal. apply setitem_same.
  cbn [columns pd.setitem_series]. rewrite get_set_other by congruence.
  rewrite <- H at 1. cbn [columns pd.setitem_series]. apply get_set_same.
Qed.

Lemma festivals_economic_adds (df df' : DataFrame) :
  (if negb (pd.has_col df "Economic Impact (Millions USD)")
      && negb (pd.has_col df "Economic Impact (USD millions)")
   then assign_map df "Economic Impact (Millions USD)" "Festival"
          (fun x => Dict.get_cell economic_impact x (VInt 250))
   else Ok df) = Ok df' ->
  adds_column "Economic Impact (Millions USD)" df df' /\
  (pd.has_col df' "Economic Impact (Millions USD)" = true \/
   pd.has_col df' "Economic Impact (USD millions)" = true).
Proof.
  destruct (pd.has_col df "Economic Impact (Millions USD)") eqn:E1; cbn [negb andb].
  - intros H; apply Ok_inj in H; subst. split; [left; reflexivity | left; exact E1].
  - destruct (pd.has_col df "Economic Impact (USD millions)") eqn:E2; cbn [negb].
    + intros H; apply Ok_inj in H; subst. split; [left; reflexivity | right; exact E2].
    + unfold assign_map. destruct (pd.getitem df "Festival"); cbn [bind]; [|discriminate].
      intros H; apply Ok_inj in H; subst. split.
      * right. split; auto. eexists; reflexivity.
      * left. apply has_setitem_same.
Qed.

Lemma festivals_mapped (m : string * string) :
  In m festivals_column_mappings -> In (snd m) festivals_required.
Proof.
  intros H. vm_compute in H.
  repeat (destruct H as [<-|H]; [simpl; tauto|]). destruct H.
Qed.

Lemma adds_column_has_other (c c' : string) (df df' : DataFrame) :
  c' <> c -> adds_column c df df' -> pd.has_col df' c' = pd.has_col df c'.
Proof.
  intros Hne [->|(_ & col & ->)]; auto.
  rewrite has_setitem. apply String.eqb_neq in Hne. rewrite Hne. reflexivity.
Qed.

Lemma festivals_rename_adds (df df' : DataFrame) (m : string * string) :
  festivals_rename df m = Ok df' -> adds_column (snd m) df df'.
Proof.
  destruct m as [actual expected]. unfold festivals_rename, assign_copy. cbn [snd].
  destruct (pd.has_col df actual); cbn [andb];
    [|intros H; apply Ok_inj in H; left; auto].
  destruct (pd.has_col df expected) eqn:E; cbn [negb];
    [intros H; apply Ok_inj in H; left; auto|].
  destruct (pd.getitem df actual); cbn [bind]; [|discriminate].
  intros H; apply Ok_inj in H. right. split; auto. eexists; eauto.
Qed.

(** The required-columns block adds required columns only. *)
Lemma add_missing_has_other (required : list string)
  (default : DataFrame -> string -> DataFrame) (df : DataFrame) (c : string) :
  sets_own_column required default -> ~ In c required ->
  pd.has_col (add_missing default (missing_columns required df) df) c
  = pd.has_col df c.
Proof.
  intros Hd Hc. unfold add_missing.
  assert (Hm : forall m, In m (missing_columns required df) -> In m required)
    by (intros m Hm; apply missing_absent in Hm; tauto).
  revert Hm. generalize (missing_columns required df) as l.
  intros l; revert df; induction l as [|m l IH]; intros df Hm; cbn [fold_left]; auto.
  rewrite IH by (intros; apply Hm; right; auto).
  destruct (Hd df m (Hm m (or_introl eq_refl))) as [col ->].
  rewrite has_setitem.
  replace (String.eqb c m) with false; [reflexivity|].
  symmetry. apply String.eqb_neq. intros ->. apply Hc, Hm. left; reflexivity.
Qed.

(** The festivals table before and after the month is taken from the
    season. *)
Lemma festivals_stages (raw out : DataFrame) :
  reconcile_festivals raw = Ok out ->
  exists df2 df3,
    grows raw df2 /\ month_from_season df2 = Ok df3 /\ grows df3 out /\
    festivals_settled out /\
    pd.has_col df2 "Season" = pd.has_col raw "Season".
Proof.
  unfold reconcile_festivals. intros H.
  destruct (foldM festivals_rename festivals_column_mappings raw) as [df1|] eqn:E1;
    cbn [bind] in H; [|discriminate].
  assert (Hg1 : grows raw df1).
  { revert E1. apply foldM_rel; [apply grows_refl | apply grows_trans|].
    intros a x a' _. apply festivals_rename_grows. }
  assert (Hs1 : pd.has_col df1 "Season" = pd.has_col raw "Season").
  { revert E1.
    apply (foldM_rel (fun d d' => pd.has_col d' "Season" = pd.has_col d "Season"));
      [reflexivity | intros; congruence|].
    intros a m a' Hm Ha. apply festivals_rename_adds in Ha.
    apply (adds_column_has_other (snd m)); [|exact Ha].
    apply festivals_mapped in Hm. intros Heq. rewrite <- Heq in Hm.
    simpl in Hm. intuition discriminate. }
  assert (Hs2 : pd.has_col (add_missing festivals_default
                              (missing_columns festivals_required df1) df1) "Season"
                = pd.has_col df1 "Season").
  { apply add_missing_has_other; [exact festivals_defaults|].
    simpl. intuition discriminate. }
  destruct (required_block festivals_required festivals_default df1
              festivals_defaults ltac:(no_dup)) as (Hg2 & Hall & _).
  set (df2 := add_missing _ _ _) in *.
  destruct (month_from_season df2) as [df3|] eqn:E3; cbn [bind] in H; [|discriminate].
  destruct (month_from_season_settles _ _ E3) as (Hms & _ & Hmono & _ & _).
  destruct (lookup_if_absent "Environmental Impact" _ _ _ df3) as [df4|] eqn:E4;
    cbn [bind] in H; [|discriminate].
  match type of H with bind ?r _ = _ => destruct r as [df5|] eqn:E5 end;
    cbn [bind] in H; [|discriminate].
  destruct (lookup_if_absent "Participants (millions)" _ _ _ df5) as [df6|] eqn:E6;
    cbn [bind] in H; [|discriminate].
  destruct (lookup_if_absent "Tourist Attraction Level" _ _ _ df6) as [df7|] eqn:E7;
    cbn [bind] in H; [|discriminate].
  pose proof (lookup_if_absent_adds _ _ _ _ _ _ E4) as A4.
  destruct (festivals_economic_adds _ _ E5) as [A5 Heco].
  pose proof (lookup_if_absent_adds _ _ _ _ _ _ E6) as A6.
  pose proof (lookup_if_absent_adds _ _ _ _ _ _ E7) as A7.
  pose proof (lookup_if_absent_adds _ _ _ _ _ _ H) as A8.
  destruct (lookup_if_absent_ok _ _ _ _ _ _ E4) as [Hg4 Hc4].
  pose proof (adds_column_grows _ _ _ A5) as Hg5.
  destruct (lookup_if_absent_ok _ _ _ _ _ _ E6) as [Hg6 Hc6].
  destruct (lookup_if_absent_ok _ _ _ _ _ _ E7) as [Hg7 Hc7].
  destruct (lookup_if_absent_ok _ _ _ _ _ _ H) as [Hg8 Hc8].
  exists df2, df3. split; [grown|]. split; [exact E3|]. split; [grown|].
  split; [|congruence]. split; [|split].
  - apply has_all_app. split.
    + intros c Hc. apply (grows_has df3); [grown|]. apply Hmono, Hall, Hc.
    + repeat (apply has_all_cons; split; [has_it|]). intros c [].
  - destruct Heco as [He|He]; [left|right]; (apply (grows_has df5); [grown | exact He]).
  - eapply month_settled_adds; [| |exact A8|]; [discriminate..|].
    eapply month_settled_adds; [| |exact A7|]; [discriminate..|].
    eapply month_settled_adds; [| |exact A6|]; [discriminate..|].
    eapply month_settled_adds; [| |exact A5|]; [discriminate..|].
    eapply month_settled_adds; [| |exact A4|]; [discriminate..|]. exact Hms.
Qed.

Lemma festivals_fixed (df : DataFrame) :
  festivals_settled df -> reconcile_festivals df = Ok df.
Proof.
  intros (Hall & Heco & Hms). apply has_all_app in Hall. destruct Hall as [Hr Hl].
  unfold reconcile_festivals. rewrite foldM_fixed.
  2:{ intros m Hm. apply festivals_rename_skip, Hr, festivals_mapped, Hm. }
  cbn [bind].
  rewrite (proj2 (proj2 (required_block festivals_required festivals_default df
                            festivals_defaults ltac:(no_dup))) Hr).
  rewrite Hms. cbn [bind].
  rewrite lookup_if_absent_skip by (apply Hl; simpl; tauto). cbn [bind].
  replace (negb (pd.has_col df "Economic Impact (Millions USD)")
           && negb (pd.has_col df "Economic Impact (USD millions)")) with false
    by (destruct Heco as [-> | ->]; [|rewrite andb_comm]; reflexivity).
  cbn [bind].
  repeat (rewrite lookup_if_absent_skip by (apply Hl; simpl; tauto); cbn [bind]).
  reflexivity.
Qed.

(** *** load_population_data *)

Lemma existsb_false_Forall {A : Type} (p : A -> bool) (l : list A) :
  existsb p l = false -> Forall (fun a => p a = false) l.
Proof.
  induction l as [|a l IH]; simpl; [constructor|].
  intros H. apply orb_false_elim in H. destruct H. constructor; auto.
Qed.

Lemma Some_inj {A : Type} (a b : A) : Some a = Some b -> a = b.
Proof. intros H; injection H; auto. Qed.

Lemma to_numeric_uniform (col : list cell) : uniform (pd.to_numeric col).
Proof.
  pose proof (to_numeric_no_str col) as Hn. unfold pd.to_numeric, pd.infer in *.
  set (m := map pd.coerce col) in *.
  assert (Hm : Forall (fun v => is_str v = false) m).
  { apply Forall_forall. intros v Hv. apply in_map_iff in Hv.
    destruct Hv as (x & <- & _). apply coerce_numeric. }
  assert (Hs : existsb is_str m = false).
  { clear -Hm. induction Hm as [|v l Hv _ IH]; simpl; auto. rewrite Hv, IH. reflexivity. }
  rewrite Hs in *. cbn [negb] in *. rewrite andb_true_r in *.
  destruct (existsb pd.is_float m) eqn:Ef.
  - right. apply Forall_forall. intros v Hv. apply in_map_iff in Hv.
    destruct Hv as (x & <- & Hx). rewrite Forall_forall in Hm.
    specialize (Hm x Hx). destruct x; simpl in *; congruence.
  - left. apply existsb_false_Forall in Ef.
    rewrite Forall_forall in *. intros v Hv.
    specialize (Hm v Hv). specialize (Ef v Hv).
    destruct v as [z|f|s]; simpl in *; try discriminate. exists z; reflexivity.
Qed.

Lemma uniform_select (mask : list bool) (col : list cell) :
  uniform col -> uniform (pd.select mask col).
Proof. intros [H|H]; [left|right]; apply select_Forall; exact H. Qed.

Lemma Forall_existsb_false {A : Type} (p : A -> bool) (l : list A) :
  Forall (fun a => p a = false) l -> existsb p l = false.
Proof. induction 1 as [|a l Ha _ IH]; simpl; auto. rewrite Ha, IH. reflexivity. Qed.

Lemma uniform_fixed (col : list cell) : uniform col -> pd.to_numeric col = col.
Proof.
  intros H. unfold pd.to_numeric.
  assert (Hc : map pd.coerce col = col).
  { assert (Hn : Forall (fun v => is_str v = false) col).
    { destruct H as [H|H]; eapply Forall_impl; try exact H; simpl.
      - intros v [z ->]; reflexivity.
      - intros [z|f|s]; simpl; congruence. }
    clear H. induction Hn as [|v l Hv _ IH]; simpl; auto.
    rewrite IH. destruct v; simpl in *; congruence. }
  rewrite Hc. unfold pd.infer. destruct H as [H|H].
  - rewrite Forall_existsb_false; [reflexivity|].
    eapply Forall_impl; [|exact H]. intros v [z ->]; reflexivity.
  - destruct (_ && _); [|reflexivity].
    clear Hc. induction H as [|v l Hv _ IH]; simpl; auto.
    rewrite IH. destruct v; simpl in *; congruence.
Qed.

Lemma ensure_numeric_uniform (l : list string) (df : DataFrame) (c : string)
  (col : list cell) :
  In c l -> Dict.get c (columns (fold_left ensure_numeric l df)) = Some col ->
  uniform col.
Proof.
  assert (Hkeep : forall l df c,
             (forall col, Dict.get c (columns df) = Some col -> uniform col) ->
             forall col, Dict.get c (columns (fold_left ensure_numeric l df)) = Some col ->
                         uniform col).
  { clear. induction l as [|c' l IH]; simpl; intros df c H; [exact H|].
    apply IH. unfold ensure_numeric.
    destruct (Dict.get c' (columns df)) as [x|] eqn:E; [|exact H].
    intros col. simpl. destruct (string_dec c c') as [->|Hne].
    - rewrite get_set_same. intros Hx; apply Some_inj in Hx. subst.
      apply to_numeric_uniform.
    - rewrite get_set_other by exact Hne. apply H. }
  revert df; induction l as [|c' l IH]; simpl; intros df Hin; [destruct Hin|].
  destruct Hin as [->|Hin]; [|apply IH; exact Hin].
  apply Hkeep. unfold ensure_numeric.
  destruct (Dict.get c (columns df)) as [x|] eqn:E.
  - intros col'. simpl. rewrite get_set_same. intros Hx; apply Some_inj in Hx. subst.
    apply to_numeric_uniform.
  - intros col'. congruence.
Qed.

Lemma ensure_numeric_fixed (l : list string) (df : DataFrame) :
  uniform_cols l df -> fold_left ensure_numeric l df = df.
Proof.
  revert df; induction l as [|c l IH]; simpl; intros df H; auto.
  assert (Hc : ensure_numeric df c = df).
  { unfold ensure_numeric. destruct (Dict.get c (columns df)) as [x|] eqn:E; auto.
    rewrite uniform_fixed by (eapply H; [left; reflexivity | exact E]).
    apply setitem_same. exact E. }
  rewrite Hc. apply IH. intros c' col Hin. apply H. right; exact Hin.
Qed.

Lemma ensure_numeric_has (l : list string) (df : DataFrame) (c : string) :
  pd.has_col (fold_left ensure_numeric l df) c = pd.has_col df c.
Proof.
  revert df; induction l as [|c' l IH]; simpl; intros df; auto.
  rewrite IH. unfold ensure_numeric.
  destruct (Dict.get c' (columns df)) as [x|] eqn:E; auto.
  rewrite has_setitem. destruct (String.eqb c c') eqn:Ec; auto.
  apply String.eqb_eq in Ec; subst. simpl. symmetry. apply has_col_get. eauto.
Qed.

Lemma filter_rows_has (df : DataFrame) (mask : list bool) (c : string) :
  pd.has_col (pd.filter_rows df mask) c = pd.has_col df c.
Proof.
  unfold pd.has_col, Dict.mem. rewrite filter_rows_get.
  destruct (Dict.get c (columns df)); reflexivity.
Qed.

Lemma select_length_le {A B : Type} (mask : list bool) (l : list A) (y : list B) :
  length mask = length y -> (length (pd.select mask l) <= length (pd.select mask y))%nat.
Proof.
  revert l y; induction mask as [|b mask IH]; intros l [|v y] H; simpl in *;
    try discriminate; auto.
  destruct l as [|a l]; [destruct b; simpl; lia|].
  specialize (IH l y ltac:(lia)). destruct b; simpl; lia.
Qed.

Lemma select_all {A : Type} (mask : list bool) (l : list A) :
  Forall (fun b => b = true) mask -> (length l <= length mask)%nat ->
  pd.select mask l = l.
Proof.
  intros H; revert l; induction H as [|b mask -> _ IH]; intros [|a l] Hl; simpl in *;
    auto; try lia.
  f_equal. apply IH. lia.
Qed.

Lemma mapM_all_true {A : Type} (f : A -> result bool) (l : list A) :
  Forall (fun a => f a = Ok true) l ->
  exists mask, mapM f l = Ok mask /\ Forall (fun b => b = true) mask /\
               length mask = length l.
Proof.
  induction 1 as [|a l Ha _ (mask & Hm & Ht & Hl)]; simpl.
  - exists []. auto.
  - rewrite Ha, Hm. cbn [bind]. exists (true :: mask). simpl. auto.
Qed.

Lemma filter_rows_all (df : DataFrame) (mask : list bool) :
  Forall (fun b => b = true) mask ->
  (nrows df <= length mask)%nat ->
  Forall (fun nc : string * list cell => (length (snd nc) <= length mask)%nat)
         (columns df) ->
  pd.filter_rows df mask = df.
Proof.
  intros Ht Hn Hc. destruct df as [n cols]. unfold pd.filter_rows. simpl in *.
  f_equal.
  - rewrite select_all; auto; rewrite length_seq; auto.
  - induction Hc as [|[c col] cols Hcol _ IH]; simpl; auto.
    simpl in Hcol. rewrite select_all by auto. f_equal. exact IH.
Qed.

Lemma up_to_year_fixed (cy : Z) (df out : DataFrame) :
  up_to_year cy df = Ok out -> up_to_year cy out = Ok out.
Proof.
  unfold up_to_year.
  destruct (pd.getitem df "Year") as [year|] eqn:Ey; cbn [bind]; [|discriminate].
  destruct (mapM (pd.le_cell cy) year) as [mask|] eqn:Em; cbn [bind]; [|discriminate].
  intros H; apply Ok_inj in H; subst out.
  assert (Hy : pd.getitem (pd.filter_rows df mask) "Year" = Ok (pd.select mask year)).
  { apply getitem_get. rewrite filter_rows_get. apply getitem_get in Ey.
    rewrite Ey. reflexivity. }
  rewrite Hy. cbn [bind].
  destruct (mapM_all_true _ _ (select_true _ _ _ Em)) as (mask' & Hm' & Ht & Hl).
  rewrite Hm'. cbn [bind]. f_equal.
  pose proof (mapM_ok_length _ _ _ Em) as Hlen.
  apply filter_rows_all; auto.
  - rewrite Hl. simpl. apply select_length_le. exact Hlen.
  - rewrite Hl. simpl. apply Forall_forall. intros [c col] Hin.
    apply in_map_iff in Hin. destruct Hin as ([c' col'] & Heq & _).
    injection Heq as <- <-. simpl. apply select_length_le. exact Hlen.
Qed.

Lemma population_fixed (cy : Z) (raw out : DataFrame) :
  reconcile_population cy raw = Ok out -> reconcile_population cy out = Ok out.
Proof.
  unfold reconcile_population. intros H.
  assert (Hn : population_numeric out = out).
  { unfold up_to_year in H.
    destruct (pd.getitem (population_numeric raw) "Year") as [year|] eqn:Ey;
      cbn [bind] in H; [|discriminate].
    destruct (mapM (pd.le_cell cy) year) as [mask|] eqn:Em; cbn [bind] in H;
      [|discriminate].
    apply Ok_inj in H; subst out.
    unfold population_numeric at 1.
    destruct (required_block population_required population_default raw
                population_defaults ltac:(no_dup)) as (_ & Hall & _).
    rewrite (proj2 (proj2 (required_block population_required population_default
                             (pd.filter_rows (population_numeric raw) mask)
                             population_defaults ltac:(no_dup)))).
    - apply ensure_numeric_fixed. intros c col Hc Hget.
      rewrite filter_rows_get in Hget.
      destruct (Dict.get c (columns (population_numeric raw))) as [x|] eqn:Ex;
        [|discriminate].
      apply Some_inj in Hget. subst col. apply uniform_select.
      eapply ensure_numeric_uniform; [exact Hc | exact Ex].
    - intros c Hc. rewrite filter_rows_has. unfold population_numeric.
      rewrite ensure_numeric_has. apply Hall, Hc. }
  rewrite Hn. eapply up_to_year_fixed; eauto.
Qed.

(** *** load_historical_data: single cells *)

Lemma nth_error_set_nth_same {A : Type} (i : nat) (v x : A) (l : list A) :
  nth_error l i = Some x -> nth_error (pd.set_nth i v l) i = Some v.
Proof.
  revert i; induction l as [|a l IH]; intros [|i] H; simpl in *; try discriminate; auto.
Qed.

Lemma nth_error_set_nth_other {A : Type} (i j : nat) (v : A) (l : list A) :
  i <> j -> nth_error (pd.set_nth j v l) i = nth_error l i.
Proof.
  revert i j; induction l as [|a l IH]; intros [|i] [|j] H; simpl; auto; try congruence.
Qed.

(** What [df.at[j, c] = v] leaves as it was. *)
Lemma set_at_spec (df df' : DataFrame) (j : nat) (c : string) (v : cell) :
  pd.set_at df j c v = Ok df' ->
  nrows df' = nrows df /\
  (forall c', pd.has_col df' c' = pd.has_col df c') /\
  (forall c', c' <> c -> Dict.get c' (columns df') = Dict.get c' (columns df)) /\
  (forall i c', c' <> c \/ i <> j -> pd.at_ df' i c' = pd.at_ df i c') /\
  (forall x, pd.at_ df j c = Ok x -> pd.at_ df' j c = Ok v).
Proof.
  unfold pd.set_at. destruct (pd.getitem df c) as [col|] eqn:E; cbn [bind]; [|discriminate].
  intros H; apply Ok_inj in H; subst df'. apply getitem_get in E.
  split; [reflexivity|]. split; [|split; [|split]].
  - intros c'. rewrite has_setitem. destruct (String.eqb c' c) eqn:Ec; auto.
    apply String.eqb_eq in Ec; subst. symmetry. apply has_col_get. eauto.
  - intros c' Hc. simpl. apply get_set_other. exact Hc.
  - intros i c' Hc. unfold pd.at_, pd.getitem. simpl.
    destruct (string_dec c' c) as [->|Hne].
    + rewrite get_set_same, E. cbn [bind].
      rewrite nth_error_set_nth_other by (destruct Hc; congruence). reflexivity.
    + rewrite get_set_other by exact Hne. reflexivity.
  - intros x. unfold pd.at_, pd.getitem. simpl. rewrite get_set_same, E. cbn [bind].
    destruct (nth_error col j) as [y|] eqn:En; [|discriminate].
    intros _. rewrite (nth_error_set_nth_same _ _ _ _ En). reflexivity.
Qed.

Lemma fills_row_refl (cs : list string) (j : nat) (df : DataFrame) :
  fills_row cs j df df.
Proof. repeat split; auto. Qed.

Lemma fills_row_trans (cs : list string) (j : nat) (a b c : DataFrame) :
  fills_row cs j a b -> fills_row cs j b c -> fills_row cs j a c.
Proof.
  intros (Hn & Hh & Hg & Ha & Hv) (Hn' & Hh' & Hg' & Ha' & Hv').
  split; [congruence|]. split; [intros; rewrite Hh'; auto|].
  split; [intros; rewrite Hg' by auto; auto|].
  split; [intros; rewrite Ha' by auto; auto|].
  intros x v Hx Hna. apply Hv'; auto.
Qed.

Lemma fills_row_weaken (cs cs' : list string) (j : nat) (df df' : DataFrame) :
  incl cs cs' -> fills_row cs j df df' -> fills_row cs' j df df'.
Proof.
  intros Hi (Hn & Hh & Hg & Ha & Hv). split; auto. split; auto.
  split; [intros c Hc; apply Hg; intros Hin; apply Hc, Hi, Hin|].
  split; auto.
  intros i c [Hc|Hc]; apply Ha; [left; intros Hin; apply Hc, Hi, Hin | right; exact Hc].
Qed.

(** The outcome of one [if needle in event and pd.isna(...)]: the test
    succeeded, and where the needle was found the cell is not null
    afterwards. *)
Lemma fill_if_event_spec (needle c text : string) (event : cell) (j : nat)
  (df df' : DataFrame) :
  fill_if_event needle c text event j df = Ok df' ->
  fills_row [c] j df df' /\
  exists hit, in_cell needle event = Ok hit /\
    (hit = true -> exists v, pd.at_ df' j c = Ok v /\ isna v = false).
Proof.
  unfold fill_if_event.
  destruct (in_cell needle event) as [hit|] eqn:Eh; cbn [bind]; [|discriminate].
  destruct hit.
  - destruct (pd.at_ df j c) as [v|] eqn:Ev; cbn [bind]; [|discriminate].
    destruct (isna v) eqn:Ena.
    + intros H. destruct (set_at_spec _ _ _ _ _ H) as (Hn & Hh & Hg & Ha & Hs).
      split.
      * split; auto. split; auto.
        split; [intros c' Hc; apply Hg; simpl in Hc; intuition congruence|].
        split; [intros i c' Hc; apply Ha; simpl in Hc; intuition congruence|].
        intros c' v' Hv' Hna. destruct (string_dec c' c) as [->|Hne].
        -- congruence.
        -- rewrite Ha by (left; exact Hne). exact Hv'.
      * exists true. split; auto. intros _. exists (VStr text). split; auto.
        eapply Hs; eauto.
    + intros H; apply Ok_inj in H; subst df'. split; [apply fills_row_refl|].
      exists true. split; auto. intros _. exists v. auto.
  - intros H; apply Ok_inj in H; subst df'. split; [apply fills_row_refl|].
    exists false. split; auto. discriminate.
Qed.

Lemma fill_if_event_skip (needle c text : string) (event : cell) (j : nat)
  (df : DataFrame) (hit : bool) :
  in_cell needle event = Ok hit ->
  (hit = true -> exists v, pd.at_ df j c = Ok v /\ isna v = false) ->
  fill_if_event needle c text event j df = Ok df.
Proof.
  unfold fill_if_event. intros -> H. cbn [bind]. destruct hit; auto.
  destruct (H eq_refl) as (v & Hv & Hna). rewrite Hv. cbn [bind].
  rewrite Hna. reflexivity.
Qed.

Lemma row_settled_fixed (df : DataFrame) (i : nat) :
  row_settled df i -> add_event_details df i = Ok df.
Proof.
  intros (e & He & H). cbv zeta in H. unfold add_event_details. rewrite He. cbn [bind].
  destruct (H "Battle of Plassey" "Military Developments") as (h1 & Hh1 & Hv1);
    [simpl; tauto|].
  destruct (H "Gandhi returns" "Cultural Developments") as (h2 & Hh2 & Hv2);
    [simpl; tauto|].
  destruct (H "Economic liberalization" "Economic Systems") as (h3 & Hh3 & Hv3);
    [simpl; tauto|].
  rewrite (fill_if_event_skip _ _ _ _ _ _ _ Hh1 Hv1). cbn [bind].
  rewrite (fill_if_event_skip _ _ _ _ _ _ _ Hh2 Hv2). cbn [bind].
  apply (fill_if_event_skip _ _ _ _ _ _ _ Hh3 Hv3).
Qed.

Lemma add_event_details_spec (df df' : DataFrame) (j : nat) :
  add_event_details df j = Ok df' ->
  fills_row detail_columns j df df' /\ row_settled df' j.
Proof.
  unfold add_event_details.
  destruct (pd.at_ df j "Event") as [e|] eqn:Ee; cbn [bind]; [|discriminate].
  set (event := if negb (isna e) then e else VStr "").
  destruct (fill_if_event "Battle of Plassey" _ _ event j df) as [d1|] eqn:E1;
    cbn [bind]; [|discriminate].
  destruct (fill_if_event "Gandhi returns" _ _ event j d1) as [d2|] eqn:E2;
    cbn [bind]; [|discriminate].
  intros E3.
  destruct (fill_if_event_spec _ _ _ _ _ _ _ E1) as (F1 & h1 & Hh1 & Hv1).
  destruct (fill_if_event_spec _ _ _ _ _ _ _ E2) as (F2 & h2 & Hh2 & Hv2).
  destruct (fill_if_event_spec _ _ _ _ _ _ _ E3) as (F3 & h3 & Hh3 & Hv3).
  assert (F : fills_row detail_columns j df df').
  { eapply fills_row_trans; [|eapply fills_row_trans].
    - eapply fills_row_weaken; [|exact F1]. intros x [<-|[]]; simpl; tauto.
    - eapply fills_row_weaken; [|exact F2]. intros x [<-|[]]; simpl; tauto.
    - eapply fills_row_weaken; [|exact F3]. intros x [<-|[]]; simpl; tauto. }
  split; [exact F|].
  exists e. split.
  - destruct F as (_ & _ & _ & Ha & _). rewrite Ha; [exact Ee|].
    left. simpl. intuition discriminate.
  - cbv zeta. fold event. intros needle c Hin. simpl in Hin.
    destruct Hin as [Heq|[Heq|[Heq|[]]]];
      apply pair_equal_spec in Heq; destruct Heq as [<- <-].
    + exists h1. split; auto. intros Hh. destruct (Hv1 Hh) as (v & Hv & Hna).
      exists v. split; auto.
      destruct F3 as (_ & _ & _ & _ & K3). destruct F2 as (_ & _ & _ & _ & K2).
      apply K3; auto.
    + exists h2. split; auto. intros Hh. destruct (Hv2 Hh) as (v & Hv & Hna).
      exists v. split; auto. destruct F3 as (_ & _ & _ & _ & K3). apply K3; auto.
    + exists h3. split; auto.
Qed.

Lemma row_settled_other (df df' : DataFrame) (i j : nat) :
  i <> j -> fills_row detail_columns j df df' ->
  row_settled df i -> row_settled df' i.
Proof.
  intros Hij (_ & _ & _ & Ha & _) (e & He & H). exists e. split.
  - rewrite Ha by (right; exact Hij). exact He.
  - cbv zeta in *. intros needle c Hin. destruct (H needle c Hin) as (hit & Hh & Hv).
    exists hit. split; auto. intros Ht. destruct (Hv Ht) as (v & Hv' & Hna).
    exists v. split; auto. rewrite Ha by (right; exact Hij). exact Hv'.
Qed.

Lemma fills_row_fills (j : nat) (df df' : DataFrame) :
  fills_row detail_columns j df df' -> fills df df'.
Proof.
  intros (Hn & Hh & Hg & Ha & Hv). repeat split; auto.
  intros i c v Hc Hna. destruct (Nat.eq_dec i j) as [->|Hne]; auto.
  rewrite Ha by (right; exact Hne). exact Hc.
Qed.

Lemma fills_trans (a b c : DataFrame) : fills a b -> fills b c -> fills a c.
Proof.
  intros (Hn & Hh & Hg & Hv) (Hn' & Hh' & Hg' & Hv').
  split; [congruence|]. split; [intros; rewrite Hh'; auto|].
  split; [intros; rewrite Hg' by auto; auto|]. auto.
Qed.

Lemma event_details_loop (l : list nat) (df df' : DataFrame) :
  NoDup l -> foldM add_event_details l df = Ok df' ->
  fills df df' /\ (forall i, In i l -> row_settled df' i) /\
  (forall i, ~ In i l -> row_settled df i -> row_settled df' i).
Proof.
  intros Hnd; revert df; induction Hnd as [|j l Hj _ IH]; intros df H.
  - simpl in H. apply Ok_inj in H; subst. repeat split; auto. intros i [].
  - cbn [foldM] in H.
    destruct (add_event_details df j) as [d1|] eqn:E1; cbn [bind] in H; [|discriminate].
    destruct (add_event_details_spec _ _ _ E1) as [F1 S1].
    destruct (IH _ H) as (F & Hin & Hout).
    split; [eapply fills_trans; [eapply fills_row_fills; eauto | exact F]|].
    split.
    + intros i [<-|Hi]; auto.
    + intros i Hi Hs. apply Hout; [intros Hin'; apply Hi; right; exact Hin'|].
      eapply row_settled_other; [|exact F1|exact Hs].
      intros ->. apply Hi. left; reflexivity.
Qed.

Lemma events_settled_fixed (df : DataFrame) :
  events_settled df -> foldM add_event_details (seq 0 (nrows df)) df = Ok df.
Proof.
  intros H. apply foldM_fixed. intros i Hi. apply row_settled_fixed, H.
  apply in_seq in Hi. lia.
Qed.

Lemma event_details_settle (df df' : DataFrame) :
  foldM add_event_details (seq 0 (nrows df)) df = Ok df' ->
  fills df df' /\ events_settled df'.
Proof.
  intros H. destruct (event_details_loop _ _ _ (seq_NoDup _ _) H) as (F & Hin & _).
  split; [exact F|]. intros i Hi. apply Hin. apply in_seq.
  destruct F as (Hn & _). lia.
Qed.

(** *** load_historical_data: the guarded steps *)

Lemma add_time_period_spec (df df' : DataFrame) :
  add_time_period df = Ok df' ->
  grows df df' /\ pd.has_col df' "Time Period" = true.
Proof.
  unfold add_time_period. destruct (pd.has_col df "Time Period") eqn:E.
  - intros H; apply Ok_inj in H; subst. split; [apply grows_refl | exact E].
  - destruct (pd.getitem df "Year") as [year|]; cbn [bind]; [|discriminate].
    destruct (mapM format_time_period year) as [periods|]; cbn [bind]; [|discriminate].
    set (dfa := pd.setitem_series df "Time Period" (pd.infer periods)).
    intros H.
    assert (R : nrows df' = nrows dfa /\
                (forall c, pd.has_col df' c = pd.has_col dfa c) /\
                (forall c, c <> "Time Period" ->
                           Dict.get c (columns df') = Dict.get c (columns dfa))).
    { revert H. generalize (seq 0 (nrows dfa)) as l. intros l.
      apply (foldM_rel (fun d d' => nrows d' = nrows d /\
                (forall c, pd.has_col d' c = pd.has_col d c) /\
                (forall c, c <> "Time Period" ->
                           Dict.get c (columns d') = Dict.get c (columns d)))).
      - intros a. repeat split; auto.
      - intros a b c (Hn & Hh & Hg) (Hn' & Hh' & Hg').
        split; [congruence|]. split; [intros; rewrite Hh'; auto|].
        intros; rewrite Hg' by auto; auto.
      - intros a i a' _. unfold set_era_range.
        destruct (pd.at_ a i "Era") as [era|]; cbn [bind]; [|discriminate].
        destruct (find _ era_ranges) as [[k time_range]|].
        + intros Hs. destruct (set_at_spec _ _ _ _ _ Hs) as (Hn & Hh & Hg & _).
          auto.
        + intros Hs; apply Ok_inj in Hs; subst. repeat split; auto. }
    destruct R as (Hn & Hh & Hg). split.
    + split; [rewrite Hn; reflexivity|].
      intros c col Hc.
      assert (Hne : c <> "Time Period").
      { intros ->. assert (pd.has_col df "Time Period" = true)
          by (apply has_col_get; eauto). congruence. }
      rewrite Hg by exact Hne. unfold dfa. simpl.
      rewrite get_set_other by exact Hne. exact Hc.
    + rewrite Hh. apply has_setitem_same.
Qed.

Lemma add_major_events_spec (float_repr : pyfloat -> string) (df df' : DataFrame) :
  add_major_events float_repr df = Ok df' ->
  grows df df' /\ pd.has_col df' "Major Events" = true.
Proof.
  unfold add_major_events. destruct (pd.has_col df "Major Events") eqn:E.
  - intros H; apply Ok_inj in H; subst. split; [apply grows_refl | exact E].
  - destruct (pd.getitem df "Event"); cbn [bind]; [|discriminate].
    destruct (pd.getitem df "Significance"); cbn [bind]; [|discriminate].
    intros H; apply Ok_inj in H; subst.
    split; [apply grows_setitem; exact E | apply has_setitem_same].
Qed.

Lemma add_additional_all (l : list (string * list (string * cell)))
  (df df' : DataFrame) :
  foldM add_additional l df = Ok df' ->
  grows df df' /\ has_all df' (map fst l).
Proof.
  revert df; induction l as [|[c d] l IH]; cbn [foldM map fst]; intros df H.
  - apply Ok_inj in H; subst. split; [apply grows_refl | intros c []].
  - destruct (add_additional df (c, d)) as [d1|] eqn:E; cbn [bind] in H; [|discriminate].
    unfold add_additional in E. cbn [fst snd] in E.
    destruct (lookup_if_absent_ok _ _ _ _ _ _ E) as [Hg Hc].
    destruct (IH _ H) as [Hg' Hall].
    split; [eapply grows_trans; eauto|].
    apply has_all_cons. split; [eapply grows_has; eauto | exact Hall].
Qed.

Lemma add_additional_skip (l : list (string * list (string * cell)))
  (df : DataFrame) :
  has_all df (map fst l) -> foldM add_additional l df = Ok df.
Proof.
  intros H. apply foldM_fixed. intros [c d] Hin. unfold add_additional.
  apply lookup_if_absent_skip, H. apply (in_map fst) in Hin. exact Hin.
Qed.

Lemma fills_has_all (df df' : DataFrame) (cs : list string) :
  fills df df' -> has_all df cs -> has_all df' cs.
Proof. intros (_ & Hh & _) H c Hc. rewrite Hh. apply H, Hc. Qed.

Section Historical.

Variable float_repr : pyfloat -> string.

(** The historical table before and after the event details. *)
Lemma historical_stages (raw out : DataFrame) :
  reconcile_historical float_repr raw = Ok out ->
  exists df6, grows raw df6 /\ fills df6 out /\ historical_settled out.
Proof.
  unfold reconcile_historical, historical_settled.
  generalize additional_columns as extra. intros extra H.
  destruct (required_block historical_required historical_default raw
              historical_defaults ltac:(no_dup)) as (Hg0 & Hall & _).
  set (df0 := add_missing _ _ _) in *.
  destruct (add_time_period df0) as [df1|] eqn:E1; cbn [bind] in H; [|discriminate].
  destruct (add_time_period_spec _ _ E1) as [Hg1 Hc1].
  match type of H with bind ?r _ = _ => destruct r as [df2|] eqn:E2 end;
    cbn [bind] in H; [|discriminate].
  assert (H2 : grows df1 df2 /\ pd.has_col df2 "Timeline Year" = true).
  { destruct (pd.has_col df1 "Timeline Year") eqn:E.
    - apply Ok_inj in E2; subst. split; [apply grows_refl | exact E].
    - eapply assign_copy_ok; eauto. }
  destruct H2 as [Hg2 Hc2].
  destruct (add_major_events float_repr df2) as [df3|] eqn:E3; cbn [bind] in H;
    [|discriminate].
  destruct (add_major_events_spec _ _ _ E3) as [Hg3 Hc3].
  destruct (lookup_if_absent "Capital Cities" _ _ _ df3) as [df4|] eqn:E4;
    cbn [bind] in H; [|discriminate].
  destruct (lookup_if_absent_ok _ _ _ _ _ _ E4) as [Hg4 Hc4].
  match type of H with bind ?r _ = _ => destruct r as [df5|] eqn:E5 end;
    cbn [bind] in H; [|discriminate].
  assert (H5 : grows df4 df5 /\ pd.has_col df5 "Key Rulers/Leaders" = true).
  { destruct (pd.has_col df4 "Key Rulers/Leaders") eqn:E; cbn [negb andb] in E5.
    - apply Ok_inj in E5; subst. split; [apply grows_refl | exact E].
    - destruct (pd.has_col df4 "Key Figures"); [eapply assign_copy_ok; eauto|].
      apply Ok_inj in E5; subst.
      split; [apply grows_setitem; exact E | apply has_setitem_same]. }
  destruct H5 as [Hg5 Hc5].
  destruct (foldM add_additional extra df5) as [df6|] eqn:E6; cbn [bind] in H;
    [|discriminate].
  destruct (add_additional_all _ _ _ E6) as [Hg6 Hall6].
  destruct (event_details_settle _ _ H) as [F Hs].
  exists df6. split; [grown|]. split; [exact F|].
  split; [|split; [|exact Hs]].
  - apply (fills_has_all df6); [exact F|]. apply has_all_app. split.
    + apply (has_all_grows df0); [grown | exact Hall].
    + unfold historical_added.
      repeat (apply has_all_cons; split; [has_it|]). intros c [].
  - apply (fills_has_all df6); [exact F | exact Hall6].
Qed.

Lemma historical_fixed (df : DataFrame) :
  historical_settled df -> reconcile_historical float_repr df = Ok df.
Proof.
  unfold reconcile_historical, historical_settled.
  generalize additional_columns as extra. intros extra (Hall & Hextra & Hs).
  apply has_all_app in Hall. destruct Hall as [Hr Ha].
  rewrite (proj2 (proj2 (required_block historical_required historical_default df
                            historical_defaults ltac:(no_dup))) Hr).
  unfold add_time_period. rewrite (Ha "Time Period") by (simpl; tauto). cbn [bind].
  rewrite (Ha "Timeline Year") by (simpl; tauto). cbn [bind].
  unfold add_major_events. rewrite (Ha "Major Events") by (simpl; tauto). cbn [bind].
  rewrite lookup_if_absent_skip by (apply Ha; simpl; tauto). cbn [bind].
  rewrite (Ha "Key Rulers/Leaders") by (simpl; tauto). cbn [negb andb bind].
  rewrite (add_additional_skip _ _ Hextra). cbn [bind].
  apply events_settled_fixed, Hs.
Qed.

End Historical.

(** ** Idempotence *)

(** C3. Reconciliation is idempotent in every domain: the reconciliation
    of a domain, applied to a table it has produced, returns that table
    unchanged. *)
Theorem reconcile_idempotent :
  forall (current_year : Z) (float_repr : pyfloat -> string) (d : domain)
         (raw out : DataFrame),
    reconcile current_year float_repr d raw = Ok out ->
    reconcile current_year float_repr d out = Ok out.
Proof.
  intros cy fr d raw out H. destruct d; cbn [reconcile] in *.
  - apply linguistic_settled. apply (linguistic_grows raw), H.
  - apply religious_settled. apply (religious_grows raw), H.
  - apply state_settled. apply (state_grows raw), H.
  - apply cultural_settled. apply (cultural_grows fr raw), H.
  - apply (population_fixed cy raw), H.
  - apply economic_settled. apply (economic_grows raw), H.
  - apply historical_fixed.
    destruct (historical_stages fr raw out H) as (df6 & _ & _ & Hs). exact Hs.
  - apply festivals_fixed.
    destruct (festivals_stages raw out H) as (df2 & df3 & _ & _ & _ & Hs & _). exact Hs.
  - apply tourism_settled. apply (tourism_grows raw), H.
  - apply education_settled. apply (education_grows raw), H.
  - apply (geography_settled raw), H.
Qed.

Lemma reconcile_idempotent_witness :
  let raw := mkDF 0 [("Year", []); ("Era", []); ("Event", []);
                     ("Significance", [])] in
  exists out,
    reconcile 2026 Float.repr historical raw = Ok out /\
    nrows out = 0%nat /\
    reconcile 2026 Float.repr historical out = Ok out.
Proof.
  intros raw. eexists. split; [vm_compute; reflexivity|].
  split; [reflexivity|].
  apply (reconcile_idempotent 2026 Float.repr historical raw).
  vm_compute; reflexivity.
Defined.

(** ** What reconciliation leaves as it was *)

Lemma member_In (c : string) (cs : list string) : member c cs = true <-> In c cs.
Proof.
  unfold member. rewrite existsb_exists. split.
  - intros (x & Hx & Heq). apply String.eqb_eq in Heq. subst. exact Hx.
  - intros H. exists c. split; [exact H | apply String.eqb_refl].
Qed.

Lemma ensure_numeric_get (l : list string) (df : DataFrame) (c : string)
  (col : list cell) :
  NoDup l -> Dict.get c (columns df) = Some col ->
  Dict.get c (columns (fold_left ensure_numeric l df))
  = Some (if member c l then pd.to_numeric col else col).
Proof.
  intros Hnd; revert df col; induction Hnd as [|m l Hm _ IH]; intros df col H.
  - exact H.
  - cbn [fold_left]. unfold member. cbn [existsb]. fold (member c l).
    destruct (String.eqb c m) eqn:E.
    + apply String.eqb_eq in E; subst m. cbn [orb].
      assert (Hc : member c l = false).
      { destruct (member c l) eqn:Hc; auto. apply member_In in Hc. contradiction. }
      rewrite (IH _ (pd.to_numeric col)); [rewrite Hc; reflexivity|].
      unfold ensure_numeric. rewrite H. simpl. apply get_set_same.
    + cbn [orb]. apply IH. unfold ensure_numeric.
      destruct (Dict.get m (columns df)); [|exact H].
      simpl. rewrite get_set_other; [exact H|]. apply String.eqb_neq, E.
Qed.

(** The population loader keeps, of every column it has read, the rows up
    to the current year, the four numeric columns coerced. *)
Lemma population_kept (cy : Z) (raw out : DataFrame) :
  reconcile_population cy raw = Ok out ->
  exists mask, forall c col,
    Dict.get c (columns raw) = Some col ->
    Dict.get c (columns out)
    = Some (pd.select mask (if member c population_required
                            then pd.to_numeric col else col)).
Proof.
  unfold reconcile_population, up_to_year. intros H.
  destruct (pd.getitem (population_numeric raw) "Year") as [year|]; cbn [bind] in H;
    [|discriminate].
  destruct (mapM (pd.le_cell cy) year) as [mask|]; cbn [bind] in H; [|discriminate].
  apply Ok_inj in H; subst out. exists mask. intros c col Hc.
  rewrite filter_rows_get. unfold population_numeric.
  destruct (required_block population_required population_default raw
              population_defaults ltac:(no_dup)) as ((_ & Hg) & _).
  rewrite (ensure_numeric_get population_required _ c col ltac:(no_dup) (Hg _ _ Hc)).
  reflexivity.
Qed.

Lemma at_get (df : DataFrame) (i : nat) (c : string) (v : cell) :
  pd.at_ df i c = Ok v <->
  exists col, Dict.get c (columns df) = Some col /\ nth_error col i = Some v.
Proof.
  unfold pd.at_, pd.getitem. destruct (Dict.get c (columns df)) as [col|]; cbn [bind].
  - destruct (nth_error col i) as [x|] eqn:E; split.
    + intros H; apply Ok_inj in H; subst. eauto.
    + intros (col' & Hc & Hv). congruence.
    + discriminate.
    + intros (col' & Hc & Hv). congruence.
  - split; [discriminate | intros (col' & Hc & _); discriminate].
Qed.

Lemma grows_at (df df' : DataFrame) (i : nat) (c : string) (v : cell) :
  grows df df' -> pd.at_ df i c = Ok v -> pd.at_ df' i c = Ok v.
Proof.
  intros [_ Hg] H. apply at_get in H. destruct H as (col & Hc & Hv).
  apply at_get. exists col. auto.
Qed.

(** C2, as stated, fails: the festivals loader replaces a month it has
    read by the first word of the season, and the population loader drops
    the row of a year after the current one. *)
Lemma present_value_overwritten :
  let seasons := mkDF 1 [("Festival", [VStr "Onam"]);
                         ("Season", [VStr "August-September"]);
                         ("Month", [VStr "Chingam"])] in
  let years := mkDF 2 [("Year", [VInt 2011; VInt 2051]);
                       ("Population (millions)", [VInt 1210; VInt 1670])] in
  (exists out,
     reconcile 2026 Float.repr festivals seasons = Ok out /\
     pd.at_ seasons 0 "Month" = Ok (VStr "Chingam") /\
     pd.at_ out 0 "Month" = Ok (VStr "August")) /\
  (exists out,
     reconcile 2026 Float.repr population years = Ok out /\
     pd.getitem years "Population (millions)" = Ok [VInt 1210; VInt 1670] /\
     pd.getitem out "Population (millions)" = Ok [VInt 1210]) /\
  ~ (forall d raw out c i v,
       reconcile 2026 Float.repr d raw = Ok out ->
       In c (required_of d) ->
       pd.at_ raw i c = Ok v -> isna v = false ->
       pd.at_ out i c = Ok v).
Proof.
  intros seasons years.
  split; [eexists; repeat split; vm_compute; reflexivity|].
  split; [eexists; repeat split; vm_compute; reflexivity|].
  intros H.
  specialize (H festivals seasons _ "Month" 0%nat (VStr "Chingam") eq_refl).
  specialize (H ltac:(simpl; tauto) eq_refl eq_refl).
  vm_compute in H. discriminate.
Qed.

(** ** Further properties of the loaders *)

Lemma safe_read_csv_loop_some (read : string -> read_outcome) (encs : list string)
  (df : DataFrame) :
  safe_read_csv_loop read encs = Some df <->
  exists before enc after,
    encs = (before ++ enc :: after)%list /\
    Forall (fun e => read e = ReadUnicodeDecodeError) before /\
    read enc = ReadOk df.
Proof.
  induction encs as [|e encs IH]; simpl.
  - split; [discriminate|]. intros (b & enc & a & H & _). destruct b; discriminate.
  - destruct (read e) as [df'| |] eqn:E.
    + split.
      * intros H; injection H as ->. exists [], e, encs. auto.
      * intros ([|b bs] & enc & a & H & Hb & Hok).
        -- injection H as -> _. congruence.
        -- injection H as -> _. inversion Hb; congruence.
    + rewrite IH. split.
      * intros (b & enc & a & -> & Hb & Hok). exists (e :: b), enc, a. auto.
      * intros ([|b bs] & enc & a & H & Hb & Hok).
        -- injection H as -> _. congruence.
        -- injection H as _ ->. inversion Hb; subst. exists bs, enc, a. auto.
    + split; [discriminate|].
      intros ([|b bs] & enc & a & H & Hb & Hok).
      * injection H as -> _. congruence.
      * injection H as -> _. inversion Hb; congruence.
Qed.

(** X1. [safe_read_csv] returns exactly the table of the first encoding, in
    the order utf-8, latin-1, cp1252, iso-8859-1, that reads the file, every
    encoding before it having failed with a decode error; any other error
    ends the attempts. *)
Theorem safe_read_csv_first_encoding :
  forall (fs : filesystem) (path : string) (df : DataFrame),
    safe_read_csv fs path = Some df <->
    exists read before enc after,
      fs path = Some read /\
      encodings = (before ++ enc :: after)%list /\
      Forall (fun e => read e = ReadUnicodeDecodeError) before /\
      read enc = ReadOk df.
Proof.
  intros fs path df. unfold safe_read_csv. destruct (fs path) as [read|].
  - rewrite safe_read_csv_loop_some. split.
    + intros (b & enc & a & H). exists read, b, enc, a. tauto.
    + intros (read' & b & enc & a & Hr & H). injection Hr as <-.
      exists b, enc, a. exact H.
  - split; [discriminate|]. intros (read & _ & _ & _ & H & _). discriminate.
Qed.

(** X2. A loader whose file does not exist returns null, the education and
    the geography loader included: the fallback tables are for exceptions
    only. *)
Theorem missing_file_gives_null :
  forall (current_year : Z) (float_repr : pyfloat -> string) (fs : filesystem)
         (d : domain),
    path_exists fs (file_path d) = false ->
    load_try current_year float_repr fs d = Ok None /\
    load current_year float_repr fs d = None.
Proof.
  intros cy fr fs d H.
  assert (Ht : load_try cy fr fs d = Ok None).
  { destruct d; cbn [file_path load_try] in *;
      unfold load_linguistic_data_try, load_religious_data_try, load_state_data_try,
        load_cultural_data_try, load_population_data_try, load_economic_data_try,
        load_historical_data_try, load_festivals_data_try, load_tourism_data_try,
        load_education_data_try, load_geography_data_try, try_load;
      rewrite H; reflexivity. }
  split; [exact Ht|].
  destruct d; cbn [load load_try] in *;
    unfold load_linguistic_data, load_religious_data, load_state_data,
      load_cultural_data, load_population_data, load_economic_data,
      load_historical_data, load_festivals_data, load_tourism_data,
      load_education_data, load_geography_data; rewrite Ht; reflexivity.
Qed.

Lemma missing_file_gives_null_witness :
  load 2026 Float.repr (fun _ => None) education = None.
Proof.
  apply (proj2 (missing_file_gives_null 2026 Float.repr (fun _ => None) education
                  eq_refl)).
Defined.

(** *** preload_data *)

Lemma find_dataset (name : string) (d : domain) :
  find (fun d' => String.eqb name (dataset_name d')) all_datasets = Some d <->
  name = dataset_name d.
Proof.
  split.
  - intros H. apply find_some in H. destruct H as [_ H]. apply String.eqb_eq, H.
  - intros ->. destruct d; reflexivity.
Qed.

Lemma find_dataset_none (name : string) :
  find (fun d' => String.eqb name (dataset_name d')) all_datasets = None <->
  forall d, name <> dataset_name d.
Proof.
  split.
  - intros H d ->. assert (Hd := proj2 (find_dataset (dataset_name d) d) eq_refl).
    congruence.
  - intros H. destruct (find _ all_datasets) as [d|] eqn:E; auto.
    apply find_dataset in E. destruct (H d E).
Qed.

Section Preload.

Variable current_year : Z.
Variable float_repr : pyfloat -> string.
Variable fs : filesystem.

Local Notation "'step'" :=
  (fun (data : list (string * option DataFrame)) (dataset : string) =>
     match find (fun d => String.eqb dataset (dataset_name d)) all_datasets with
     | Some d => Dict.set dataset (load current_year float_repr fs d) data
     | None => data
     end) (only parsing).

Lemma preload_fold (l : list string) (data : list (string * option DataFrame))
  (d : domain) :
  Dict.get (dataset_name d) (fold_left step l data)
  = if member (dataset_name d) l then Some (load current_year float_repr fs d)
    else Dict.get (dataset_name d) data.
Proof.
  revert data; induction l as [|n l IH]; intros data; cbn [fold_left]; [reflexivity|].
  rewrite IH. unfold member. cbn [existsb]. fold (member (dataset_name d) l).
  destruct (member (dataset_name d) l); [rewrite orb_true_r; reflexivity|].
  rewrite orb_false_r.
  destruct (String.eqb (dataset_name d) n) eqn:E.
  - apply String.eqb_eq in E. subst n.
    rewrite (proj2 (find_dataset (dataset_name d) d) eq_refl). apply get_set_same.
  - destruct (find _ all_datasets); [|reflexivity].
    apply get_set_other. apply String.eqb_neq, E.
Qed.

Lemma preload_fold_unknown (l : list string) (data : list (string * option DataFrame))
  (name : string) :
  (forall d, name <> dataset_name d) ->
  Dict.get name (fold_left step l data) = Dict.get name data.
Proof.
  intros Hn. revert data; induction l as [|n l IH]; intros data; cbn [fold_left];
    [reflexivity|].
  rewrite IH. destruct (find _ all_datasets) as [d|] eqn:E; [|reflexivity].
  apply find_dataset in E. apply get_set_other. intros ->. apply (Hn d). exact E.
Qed.

(** X3. [preload_data] gives every requested dataset the result of its own
    loader, whatever the other loaders returned, and gives nothing to a
    name that was not requested or is not a dataset; without a request it
    loads all eleven. *)
Theorem preload_data_entries :
  forall (d : domain) (requested : list string) (name : string),
    Dict.get (dataset_name d)
      (preload_data current_year float_repr fs (Some requested))
    = (if member (dataset_name d) requested
       then Some (load current_year float_repr fs d) else None) /\
    ((forall d', name <> dataset_name d') ->
     Dict.get name (preload_data current_year float_repr fs (Some requested)) = None) /\
    Dict.get (dataset_name d) (preload_data current_year float_repr fs None)
    = Some (load current_year float_repr fs d).
Proof.
  intros d requested name. unfold preload_data. split; [|split].
  - rewrite preload_fold. reflexivity.
  - intros Hn. rewrite preload_fold_unknown by exact Hn. reflexivity.
  - rewrite preload_fold. destruct d; reflexivity.
Qed.

End Preload.

Lemma preload_data_entries_witness :
  Dict.get "cooking"
    (preload_data 2026 Float.repr (fun _ => None) (Some ["tourism"; "cooking"]))
  = None.
Proof.
  apply (proj1 (proj2 (preload_data_entries 2026 Float.repr (fun _ => None)
                         tourism ["tourism"; "cooking"] "cooking"))).
  intros d; destruct d; discriminate.
Defined.

(** *** Total coverage *)

Lemma population_required_present (cy : Z) (raw out : DataFrame) :
  reconcile_population cy raw = Ok out -> has_all out population_required.
Proof.
  unfold reconcile_population, up_to_year. intros H.
  destruct (pd.getitem (population_numeric raw) "Year") as [year|]; cbn [bind] in H;
    [|discriminate].
  destruct (mapM (pd.le_cell cy) year) as [mask|]; cbn [bind] in H; [|discriminate].
  apply Ok_inj in H; subst out. intros c Hc.
  rewrite filter_rows_has. unfold population_numeric. rewrite ensure_numeric_has.
  apply (required_block population_required population_default raw
           population_defaults ltac:(no_dup)). exact Hc.
Qed.

(** X4. Total coverage: the table a reconciliation returns has every
    required column of its domain, whatever columns the table read had. *)
Theorem required_columns_present :
  forall (current_year : Z) (float_repr : pyfloat -> string) (d : domain)
         (raw out : DataFrame),
    reconcile current_year float_repr d raw = Ok out ->
    has_all out (required_of d).
Proof.
  intros cy fr d raw out H. destruct d; cbn [reconcile required_of] in *.
  - apply (linguistic_grows raw), H.
  - apply (religious_grows raw), H.
  - destruct (state_grows raw out H) as [_ Ha]. apply has_all_app in Ha. tauto.
  - destruct (cultural_grows fr raw out H) as [_ Ha]. apply has_all_app in Ha. tauto.
  - apply (population_required_present cy raw), H.
  - apply (economic_grows raw), H.
  - destruct (historical_stages fr raw out H) as (df6 & _ & _ & Ha & _).
    apply has_all_app in Ha. tauto.
  - destruct (festivals_stages raw out H) as (df2 & df3 & _ & _ & _ & (Ha & _) & _).
    apply has_all_app in Ha. tauto.
  - apply (tourism_grows raw), H.
  - destruct (education_grows raw out H) as [_ Ha]. apply has_all_app in Ha. tauto.
  - unfold reconcile_geography in H.
    destruct (pd.has_col raw "Terrain_Type") eqn:Et;
      destruct (pd.has_col raw "Percentage") eqn:Ep; cbn [negb orb] in H;
      apply Ok_inj in H; subst out; intros c [<-|[<-|[]]]; auto.
Qed.

Lemma required_columns_present_witness :
  let raw := mkDF 0 [("Year", []); ("Event", [])] in
  exists out,
    reconcile 2026 Float.repr historical raw = Ok out /\
    nrows out = 0%nat /\
    has_all out (required_of historical).
Proof.
  intros raw. eexists. split; [vm_compute; reflexivity|].
  split; [reflexivity|].
  apply (required_columns_present 2026 Float.repr historical raw).
  vm_compute; reflexivity.
Defined.

(** ** Further properties of the chapters *)

(** X5. The era badge never fails: the category of any cell is one of
    Ancient, Classical, Medieval, Modern and Other and has a badge colour;
    a cell that is not a string, or an era of no period, is Other; and
    every era the loader has a year range for is in a period. *)
Theorem era_category_total :
  forall era : cell,
    In (era_category era) ["Ancient"; "Classical"; "Medieval"; "Modern"; "Other"] /\
    (exists color, badge_color era = Ok color) /\
    ((forall period, In period era_periods -> era_in era (snd period) = false) ->
     era_category era = "Other") /\
    (is_str era = false -> era_category era = "Other") /\
    (forall name time_range,
        In (name, time_range) utils.era_ranges ->
        era_category (VStr name) <> "Other").
Proof.
  intros era.
  assert (Hcat : In (era_category era)
                    ["Ancient"; "Classical"; "Medieval"; "Modern"; "Other"]).
  { unfold era_category.
    destruct (find _ era_periods) as [[category eras]|] eqn:E; [|simpl; tauto].
    apply find_some in E. destruct E as [E _]. vm_compute in E.
    repeat (destruct E as [E|E];
            [apply pair_equal_spec in E; destruct E as [<- _]; simpl; tauto|]).
    destruct E. }
  split; [exact Hcat|]. split; [|split; [|split]].
  - unfold badge_color. simpl in Hcat.
    destruct Hcat as [<-|[<-|[<-|[<-|[<-|[]]]]]]; eexists; reflexivity.
  - intros H. unfold era_category.
    destruct (find _ era_periods) as [[category eras]|] eqn:E; [|reflexivity].
    apply find_some in E. destruct E as [Hin E]. rewrite (H _ Hin) in E. discriminate.
  - intros H. destruct era; [reflexivity | reflexivity | discriminate].
  - intros name time_range Hin.
    assert (Hall : forallb (fun kv => negb (String.eqb (era_category (VStr (fst kv)))
                                                      "Other"))
                     utils.era_ranges = true) by (vm_compute; reflexivity).
    rewrite forallb_forall in Hall. specialize (Hall _ Hin). cbn [fst] in Hall.
    intros Heq. rewrite Heq in Hall. discriminate.
Qed.

Lemma era_category_total_witness : era_category NaN = "Other".
Proof.
  apply (proj1 (proj2 (proj2 (proj2 (era_category_total NaN))))). reflexivity.
Defined.

(** *** The legacy themes *)

Lemma lower_lower (c : ascii) : Py.lower (Py.lower c) = Py.lower c.
Proof. destruct c as [[] [] [] [] [] [] [] []]; vm_compute; reflexivity. Qed.

Lemma lower_str_lower_str (s : string) :
  Py.lower_str (Py.lower_str s) = Py.lower_str s.
Proof. induction s as [|c s IH]; simpl; [reflexivity|]. rewrite lower_lower, IH. reflexivity. Qed.

Lemma startswith_lower (p s : string) :
  Py.startswith p s = true ->
  Py.startswith (Py.lower_str p) (Py.lower_str s) = true.
Proof.
  revert s; induction p as [|a p IH]; intros [|b s]; simpl; auto; try discriminate.
  intros H. apply andb_prop in H. destruct H as [Hab Hp].
  apply Ascii.eqb_eq in Hab. subst. rewrite Ascii.eqb_refl. simpl. apply IH, Hp.
Qed.

Lemma contains_lower (p s : string) :
  Py.contains p s = true -> Py.contains (Py.lower_str p) (Py.lower_str s) = true.
Proof.
  induction s as [|b s IH]; intros H.
  - change (Py.contains p "") with (Py.startswith p "" || false) in H.
    rewrite orb_false_r in H. apply startswith_lower in H.
    change (Py.contains (Py.lower_str p) (Py.lower_str ""))
      with (Py.startswith (Py.lower_str p) (Py.lower_str "") || false).
    rewrite H. reflexivity.
  - change (Py.contains p (String b s))
      with (Py.startswith p (String b s) || Py.contains p s) in H.
    change (Py.contains (Py.lower_str p) (Py.lower_str (String b s)))
      with (Py.startswith (Py.lower_str p) (Py.lower_str (String b s))
            || Py.contains (Py.lower_str p) (Py.lower_str s)).
    apply orb_prop in H. destruct H as [H|H].
    + rewrite (startswith_lower _ _ H). reflexivity.
    + rewrite (IH H). apply orb_true_r.
Qed.

(** X6. A legacy theme flag is 0 or 1. A null legacy gives 0 for each of
    the eight themes. The search does not regard case: a theme written in
    the text in any case is flagged, and the flag of a text is that of the
    text in lower case. *)
Theorem theme_flag_case_insensitive :
  forall (float_repr : pyfloat -> string) (theme text : string),
    (theme_flag float_repr theme (VStr text) = 0 \/
     theme_flag float_repr theme (VStr text) = 1) /\
    (In theme common_themes -> theme_flag float_repr theme NaN = 0) /\
    theme_flag float_repr theme (VStr (Py.lower_str text))
    = theme_flag float_repr theme (VStr text) /\
    (forall written,
        Py.lower_str written = Py.lower_str theme ->
        Py.contains written text = true ->
        theme_flag float_repr theme (VStr text) = 1).
Proof.
  intros fr theme text. unfold theme_flag. cbn [isna str_of_cell].
  split; [destruct (Py.contains _ _); auto|]. split; [|split].
  - intros H. simpl in H.
    repeat (destruct H as [<-|H]; [reflexivity|]). destruct H.
  - rewrite lower_str_lower_str. reflexivity.
  - intros written Hw Hc. apply contains_lower in Hc. rewrite Hw in Hc.
    rewrite Hc. reflexivity.
Qed.

Lemma theme_flag_case_insensitive_witness :
  theme_flag Float.repr "Cultural" (VStr "Indo-Islamic CULTURAL synthesis") = 1.
Proof.
  apply (proj2 (proj2 (proj2 (theme_flag_case_insensitive Float.repr "Cultural"
                                "Indo-Islamic CULTURAL synthesis"))) "CULTURAL");
    reflexivity.
Defined.

(** *** The aligned tables of the education chapter *)

(** X7. No aligned state table is built as soon as one of its five fields
    is empty, and a field that is null parses to the empty list: one null
    field suppresses the whole table. Otherwise the table is built. *)
Theorem aligned_table_needs_every_field :
  forall (names : list string) (lit prim sec high : list pyfloat),
    (states_df names lit prim sec high = None <->
     names = [] \/ lit = [] \/ prim = [] \/ sec = [] \/ high = []) /\
    (forall v, is_str v = false ->
               float_list v = Ok [] /\ state_names v = [] /\
               states_df names [] prim sec high = None).
Proof.
  intros names lit prim sec high. split.
  - unfold states_df.
    destruct names, lit, prim, sec, high; cbn [length Nat.min Nat.ltb Nat.leb];
      split; intros H; try reflexivity; try discriminate; try tauto;
      try (repeat destruct H as [H|H]; discriminate).
  - intros v Hv. destruct v; try discriminate; repeat split;
      unfold states_df; destruct names; reflexivity.
Qed.

Lemma aligned_table_needs_every_field_witness :
  float_list NaN = Ok [] /\ state_names NaN = [] /\
  states_df ["Kerala"] [] [FFin 1] [FFin 2] [FFin 3] = None.
Proof.
  apply (proj2 (aligned_table_needs_every_field ["Kerala"] [] [FFin 1] [FFin 2]
                  [FFin 3]) NaN).
  reflexivity.
Defined.

(** *** The education defaults *)

Lemma education_fill_first (l : list (string * cell)) (df : DataFrame)
  (c : string) (v : cell) :
  Dict.get c l = Some v -> pd.has_col df c = false ->
  Dict.get c (columns (fold_left education_fill l df)) = Some (repeat v (nrows df)).
Proof.
  revert df; induction l as [|[c' v'] l IH]; intros df; [discriminate|].
  cbn [Dict.get fold_left]. destruct (String.eqb c c') eqn:E.
  - apply String.eqb_eq in E; subst c'. intros Hv Hc. injection Hv as ->.
    destruct (education_fill_block l (education_fill df (c, v))) as ((_ & Hg) & _).
    apply Hg. unfold education_fill. rewrite Hc. simpl. apply get_set_same.
  - intros Hv Hc.
    assert (Hstep : pd.has_col (education_fill df (c', v')) c = false /\
                    nrows (education_fill df (c', v')) = nrows df).
    { unfold education_fill. destruct (pd.has_col df c'); [auto|].
      split; [|reflexivity]. unfold pd.setitem_scalar. rewrite has_setitem, E, Hc.
      reflexivity. }
    destruct Hstep as [Hc' Hn]. rewrite (IH _ Hv Hc'), Hn. reflexivity.
Qed.

(** X8. A column of the education defaults that the table read lacks is
    filled, in every row, with the default that the dictionary holds for
    it; for Number of Universities, written twice in the dictionary, that
    is the later entry, the text 1,047. *)
Theorem education_default_fills_column :
  forall (raw out : DataFrame) (c : string) (v : cell),
    reconcile_education raw = Ok out ->
    Dict.get c expected_columns = Some v ->
    pd.has_col raw c = false ->
    pd.getitem out c = Ok (repeat v (nrows raw)) /\
    nrows out = nrows raw /\
    Dict.get "Number of Universities" expected_columns = Some (VStr "1,047").
Proof.
  intros raw out c v H Hv Hc. split; [|split; [|reflexivity]].
  - unfold reconcile_education in H. revert H Hv. generalize expected_columns as l.
    intros l H Hv. apply Ok_inj in H. subst out. apply getitem_get.
    destruct (required_block education_required education_default
                (fold_left education_fill l raw)
                education_defaults ltac:(no_dup)) as ((_ & Hg) & _).
    apply Hg. apply education_fill_first; assumption.
  - apply (education_grows raw out H).
Qed.

Lemma education_default_fills_column_witness :
  exists out,
    reconcile_education (mkDF 2 [("State", [VStr "Kerala"; VStr "Goa"])]) = Ok out /\
    pd.getitem out "Number of Universities" = Ok [VStr "1,047"; VStr "1,047"].
Proof.
  eexists. split; [vm_compute; reflexivity|].
  apply (education_default_fills_column
           (mkDF 2 [("State", [VStr "Kerala"; VStr "Goa"])]) _
           "Number of Universities" (VStr "1,047")); vm_compute; reflexivity.
Defined.

(** ** Decimal text *)

Lemma string_of_uint_digits (d : Decimal.uint) :
  all_chars Py.is_digit (NilEmpty.string_of_uint d) = true.
Proof. induction d; simpl; auto. Qed.

Lemma digits_value_revapp (d r : Decimal.uint) :
  Py.digits_value_go (NilEmpty.string_of_uint d)
    (Z.of_N (DecimalPos.Unsigned.of_lu r))
  = Z.of_N (DecimalPos.Unsigned.of_lu (Decimal.revapp d r)).
Proof.
  revert r; induction d; intros r; cbn [NilEmpty.string_of_uint Py.digits_value_go
    Decimal.revapp]; [reflexivity|..];
    rewrite <- IHd; f_equal; cbn [DecimalPos.Unsigned.of_lu];
    unfold Py.digit_val; rewrite N2Z.inj_add || idtac; rewrite ?N2Z.inj_mul;
    cbn [nat_of_ascii]; simpl Z.of_nat; simpl Z.of_N; lia.
Qed.

Lemma digits_value_of_uint (d : Decimal.uint) :
  Py.digits_value (NilEmpty.string_of_uint d) = Z.of_uint d.
Proof.
  unfold Py.digits_value.
  change 0 with (Z.of_N (DecimalPos.Unsigned.of_lu Decimal.Nil)).
  rewrite digits_value_revapp. unfold Z.of_uint.
  rewrite DecimalPos.Unsigned.of_uint_alt. reflexivity.
Qed.

(** The text of an integer that is not negative: its digits, which read
    back as the integer. *)
Lemma str_of_Z_digits (z : Z) :
  0 <= z ->
  Py.str_of_Z z <> EmptyString /\ all_chars Py.is_digit (Py.str_of_Z z) = true /\
  Py.digits_value (Py.str_of_Z z) = z.
Proof.
  intros Hz. unfold Py.str_of_Z.
  assert (Hu : exists u, Z.to_int z = Decimal.Pos u /\ u <> Decimal.Nil).
  { destruct z as [|p|p]; [| |lia].
    - exists (Decimal.D0 Decimal.Nil). split; [reflexivity | discriminate].
    - exists (Pos.to_uint p). split; [reflexivity|].
      apply DecimalPos.Unsigned.to_uint_nonnil. }
  destruct Hu as (u & Hu & Hnil).
  assert (Hs : NilZero.string_of_int (Z.to_int z) = NilEmpty.string_of_uint u).
  { rewrite Hu. cbn [NilZero.string_of_int]. unfold NilZero.string_of_uint.
    destruct u; [congruence|reflexivity..]. }
  rewrite Hs. split; [|split].
  - destruct u; [congruence|discriminate..].
  - apply string_of_uint_digits.
  - rewrite digits_value_of_uint.
    change (Z.of_uint u) with (Z.of_int (Decimal.Pos u)). rewrite <- Hu.
    apply DecimalZ.of_to.
Qed.

Lemma str_of_Z_neg (z : Z) :
  z < 0 -> Py.str_of_Z z = String "-" (Py.str_of_Z (- z)).
Proof.
  destruct z as [|p|p]; try lia. intros _. unfold Py.str_of_Z.
  cbn [Z.opp Z.to_int NilZero.string_of_int]. unfold NilZero.string_of_uint.
  pose proof (DecimalPos.Unsigned.to_uint_nonnil p) as Hn.
  destruct (Pos.to_uint p); [congruence|reflexivity..].
Qed.

(** ** Years written and read back *)

Lemma span_digits_app (d rest : string) :
  all_chars Py.is_digit d = true ->
  (match rest with String c _ => Py.is_digit c = false | EmptyString => True end) ->
  Py.span Py.is_digit (d ++ rest) = (d, rest).
Proof.
  intros Hd Hr. induction d as [|c d IH]; cbn [append].
  - destruct rest as [|c r]; [reflexivity|]. cbn [Py.span]. rewrite Hr. reflexivity.
  - cbn [all_chars] in Hd. apply andb_prop in Hd. destruct Hd as [Hc Hd].
    cbn [Py.span]. rewrite Hc, (IH Hd). reflexivity.
Qed.

Lemma search_digits_app (d rest : string) :
  d <> EmptyString -> all_chars Py.is_digit d = true ->
  (match rest with String c _ => Py.is_digit c = false | EmptyString => True end) ->
  Py.search_digits (d ++ rest) = Some d.
Proof.
  intros Hne Hd Hr. destruct d as [|c d]; [congruence|].
  pose proof (span_digits_app (String c d) rest Hd Hr) as Hs.
  cbn [all_chars] in Hd. apply andb_prop in Hd. destruct Hd as [Hc _].
  change (Py.search_digits (String c d ++ rest))
    with (if Py.is_digit c then Some (fst (Py.span Py.is_digit (String c d ++ rest)))
          else Py.search_digits (d ++ rest)).
  rewrite Hc, Hs. reflexivity.
Qed.

Lemma contains_app (sub a b : string) :
  Py.contains sub b = true -> Py.contains sub (a ++ b) = true.
Proof.
  intros H. induction a as [|c a IH]; [exact H|].
  change (Py.contains sub (String c a ++ b))
    with (Py.startswith sub (String c (a ++ b)) || Py.contains sub (a ++ b)).
  rewrite IH. apply orb_true_r.
Qed.

Lemma digits_no_BCE (d : string) :
  all_chars Py.is_digit d = true -> Py.contains "BCE" (d ++ " CE") = false.
Proof.
  induction d as [|c d IH]; [reflexivity|]. intros H.
  cbn [all_chars] in H. apply andb_prop in H. destruct H as [Hc Hd].
  change (Py.contains "BCE" (String c d ++ " CE"))
    with (Py.startswith "BCE" (String c (d ++ " CE")) || Py.contains "BCE" (d ++ " CE")).
  rewrite (IH Hd), orb_false_r. cbn [Py.startswith].
  replace (Ascii.eqb "B" c) with false; [reflexivity|].
  clear -Hc. destruct c as [[] [] [] [] [] [] [] []]; vm_compute in *; congruence.
Qed.

(** ** The year of a cultural element *)

Lemma search_signed_digits_shape (s m : string) :
  Py.search_signed_digits s = Some m ->
  (m <> EmptyString /\ all_chars Py.is_digit m = true) \/
  (exists d, m = String "-" d /\ d <> EmptyString /\ all_chars Py.is_digit d = true).
Proof.
  induction s as [|c s IH]; [discriminate|].
  change (Py.search_signed_digits (String c s))
    with (if Py.is_digit c then Some (fst (Py.span Py.is_digit (String c s)))
          else if Ascii.eqb c "-"%char then
            match s with
            | String d _ =>
                if Py.is_digit d then Some (String c (fst (Py.span Py.is_digit s)))
                else Py.search_signed_digits s
            | EmptyString => None
            end
          else Py.search_signed_digits s).
  destruct (Py.is_digit c) eqn:Ec.
  - intros H. assert (Hm : m = fst (Py.span Py.is_digit (String c s))) by congruence.
    clear H. left. split.
    + rewrite Hm, (span_cons _ _ _ Ec). discriminate.
    + rewrite Hm. apply span_all.
  - destruct (Ascii.eqb c "-") eqn:Em; [|exact IH].
    apply Ascii.eqb_eq in Em. subst c.
    destruct s as [|d s]; [discriminate|].
    destruct (Py.is_digit d) eqn:Ed; [|exact IH].
    intros H.
    assert (Hm : m = String "-" (fst (Py.span Py.is_digit (String d s)))) by congruence.
    clear H. right. eexists. split; [exact Hm|]. split.
    + rewrite (span_cons _ _ _ Ed). discriminate.
    + apply span_all.
Qed.

Lemma int_of_neg_digits (d : string) :
  d <> EmptyString -> all_chars Py.is_digit d = true ->
  Py.int_of_str (String "-" d) = Ok (- Py.digits_value d).
Proof.
  intros Hne H. unfold Py.int_of_str, Py.strip.
  change (Py.lstrip (String "-" d)) with (String "-" d).
  assert (Hr : Py.rstrip (String "-" d) = String "-" d).
  { cbn [Py.rstrip]. rewrite (rstrip_digits _ H). destruct d; [congruence|reflexivity]. }
  rewrite Hr. cbn [Py.sign Ascii.eqb Bool.eqb]. unfold Py.digitpart.
  rewrite (digitpart_digits _ false H). destruct d; [congruence|reflexivity].
Qed.

Lemma search_signed_digits_all (d : string) :
  d <> EmptyString -> all_chars Py.is_digit d = true ->
  Py.search_signed_digits d = Some d.
Proof.
  intros Hne H. destruct d as [|c d]; [congruence|].
  pose proof (span_digits_app (String c d) "" H I) as Hs.
  replace (String c d ++ "")%string with (String c d) in Hs
    by (clear; generalize (String c d) as s; induction s; simpl; congruence).
  cbn [all_chars] in H. apply andb_prop in H. destruct H as [Hc _].
  change (Py.search_signed_digits (String c d))
    with (if Py.is_digit c then Some (fst (Py.span Py.is_digit (String c d)))
          else if Ascii.eqb c "-"%char then
            match d with
            | String d0 _ =>
                if Py.is_digit d0 then Some (String c (fst (Py.span Py.is_digit d)))
                else Py.search_signed_digits d
            | EmptyString => None
            end
          else Py.search_signed_digits d).
  rewrite Hc, Hs. reflexivity.
Qed.

Lemma earliest_year_int (float_repr : pyfloat -> string) (x : cell) :
  exists y, utils.earliest_year float_repr x = Ok (VInt y).
Proof.
  unfold earliest_year.
  destruct (Py.search_signed_digits _) as [m|] eqn:E; [|eexists; reflexivity].
  apply search_signed_digits_shape in E.
  destruct E as [[Hne Hd]|(d & -> & Hne & Hd)].
  - rewrite (int_of_digits _ Hne Hd). eexists; reflexivity.
  - rewrite (int_of_neg_digits _ Hne Hd). eexists; reflexivity.
Qed.

(** X10. The year taken from a historical period never fails on an
    ASCII text of ordinary length: it is an integer for every cell, 0 when
    the text of the cell has no digit, and an integer cell gives itself. *)
Theorem earliest_year_total :
  forall (float_repr : pyfloat -> string) (x : cell),
    short_text float_repr x ->
    ascii_text (str_of_cell float_repr x) = true ->
    (exists y, utils.earliest_year float_repr x = Ok (VInt y)) /\
    (Py.search_signed_digits (str_of_cell float_repr x) = None ->
     utils.earliest_year float_repr x = Ok (VInt 0)) /\
    (forall z, x = VInt z -> utils.earliest_year float_repr x = Ok (VInt z)).
Proof.
  intros fr x _ _. split; [|split].
  - apply earliest_year_int.
  - unfold earliest_year. intros ->. reflexivity.
  - intros z ->. unfold earliest_year. cbn [str_of_cell].
    destruct (Z.ltb_spec z 0) as [Hz|Hz].
    + rewrite (str_of_Z_neg z Hz).
      destruct (str_of_Z_digits (- z) ltac:(lia)) as (Hne & Hd & Hv).
      set (d := Py.str_of_Z (- z)) in *.
      assert (Hs : Py.search_signed_digits (String "-" d) = Some (String "-" d)).
      { destruct d as [|c d]; [congruence|].
        pose proof (span_digits_app (String c d) "" Hd I) as Hsp.
        replace (String c d ++ "")%string with (String c d) in Hsp
          by (clear; generalize (String c d) as s; induction s; simpl; congruence).
        cbn [all_chars] in Hd. apply andb_prop in Hd. destruct Hd as [Hc _].
        change (Py.search_signed_digits (String "-" (String c d)))
          with (if Py.is_digit c
                then Some (String "-" (fst (Py.span Py.is_digit (String c d))))
                else Py.search_signed_digits (String c d)).
        rewrite Hc, Hsp. reflexivity. }
      rewrite Hs, (int_of_neg_digits _ Hne Hd), Hv. cbn [bind]. do 2 f_equal. lia.
    + destruct (str_of_Z_digits z Hz) as (Hne & Hd & Hv).
      rewrite (search_signed_digits_all _ Hne Hd), (int_of_digits _ Hne Hd), Hv.
      reflexivity.
Qed.

Lemma earliest_year_total_witness :
  short_text Float.repr (VStr "Ancient times") /\
  utils.earliest_year Float.repr (VStr "Ancient times") = Ok (VInt 0).
Proof.
  assert (H : short_text Float.repr (VStr "Ancient times"))
    by (unfold short_text; simpl; lia).
  split; [exact H|].
  apply (proj1 (proj2 (earliest_year_total Float.repr (VStr "Ancient times") H
                         eq_refl))).
  reflexivity.
Defined.

(** ** Reconciliations that cannot fail *)

Lemma lookup_if_absent_total (c key : string) (d : list (string * cell))
  (default : cell) (df : DataFrame) :
  pd.has_col df key = true ->
  exists df', lookup_if_absent c key d default df = Ok df'.
Proof.
  intros Hk. unfold lookup_if_absent, assign_map.
  destruct (pd.has_col df c); [eexists; reflexivity|].
  apply has_col_get in Hk. destruct Hk as [col Hk].
  apply getitem_get in Hk. rewrite Hk. cbn [bind]. eexists; reflexivity.
Qed.

Lemma assign_copy_total (df : DataFrame) (c key : string) :
  pd.has_col df key = true -> exists df', assign_copy df c key = Ok df'.
Proof.
  intros Hk. unfold assign_copy. apply has_col_get in Hk. destruct Hk as [col Hk].
  apply getitem_get in Hk. rewrite Hk. cbn [bind]. eexists; reflexivity.
Qed.

Lemma reconcile_state_total (raw : DataFrame) : exists out, reconcile_state raw = Ok out.
Proof.
  unfold reconcile_state.
  destruct (required_block state_required state_default raw
              state_defaults ltac:(no_dup)) as (_ & Hall & _).
  set (df0 := add_missing _ _ _) in *.
  assert (H0 : pd.has_col df0 "State" = true) by (apply Hall; simpl; tauto).
  destruct (lookup_if_absent_total "HDI" "State" hdi_values (VDec 65 (-2)) df0 H0)
    as [df1 E1].
  rewrite E1. cbn [bind]. destruct (lookup_if_absent_ok _ _ _ _ _ _ E1) as [G1 _].
  pose proof (grows_has _ _ _ G1 H0) as H1.
  destruct (lookup_if_absent_total "Urbanization (%)" "State" urbanization_values
              (VDec 350 (-1)) df1 H1) as [df2 E2].
  rewrite E2. cbn [bind]. destruct (lookup_if_absent_ok _ _ _ _ _ _ E2) as [G2 _].
  pose proof (grows_has _ _ _ G2 H1) as H2.
  destruct (lookup_if_absent_total "Capital" "State" capitals (VStr "Unknown") df2 H2)
    as [df3 E3].
  rewrite E3. cbn [bind]. destruct (lookup_if_absent_ok _ _ _ _ _ _ E3) as [G3 _].
  pose proof (grows_has _ _ _ G3 H2) as H3.
  destruct (lookup_if_absent_total "Official Languages" "State" languages
              (VStr "Unknown") df3 H3) as [df4 E4].
  rewrite E4. cbn [bind]. destruct (lookup_if_absent_ok _ _ _ _ _ _ E4) as [G4 _].
  pose proof (grows_has _ _ _ G4 H3) as H4.
  destruct (lookup_if_absent_total "Major Crops" "State" crops
              (VStr "Various food and cash crops") df4 H4) as [df5 E5].
  rewrite E5. cbn [bind]. destruct (lookup_if_absent_ok _ _ _ _ _ _ E5) as [G5 _].
  pose proof (grows_has _ _ _ G5 H4) as H5.
  destruct (lookup_if_absent_total "Key Industries" "State" industries
              (VStr "Agriculture, Services, Small-scale industries") df5 H5)
    as [df6 E6].
  rewrite E6. cbn [bind]. destruct (lookup_if_absent_ok _ _ _ _ _ _ E6) as [G6 _].
  pose proof (grows_has _ _ _ G6 H5) as H6.
  apply lookup_if_absent_total. exact H6.
Qed.

Lemma mapM_earliest_year (float_repr : pyfloat -> string) (col : list cell) :
  exists years, mapM (earliest_year float_repr) col = Ok years.
Proof.
  apply mapM_total. apply Forall_forall. intros x _.
  destruct (earliest_year_int float_repr x) as (y & Hy). eauto.
Qed.

Lemma reconcile_cultural_total (float_repr : pyfloat -> string) (raw : DataFrame) :
  exists out, reconcile_cultural float_repr raw = Ok out.
Proof.
  unfold reconcile_cultural.
  destruct (required_block cultural_required cultural_default raw
              cultural_defaults ltac:(no_dup)) as (_ & Hall & _).
  set (df0 := add_missing _ _ _) in *.
  assert (Hce : pd.has_col df0 "Cultural Element" = true) by (apply Hall; simpl; tauto).
  assert (Hhp : pd.has_col df0 "Historical Period" = true) by (apply Hall; simpl; tauto).
  assert (Hro : pd.has_col df0 "Region of Origin" = true) by (apply Hall; simpl; tauto).
  assert (S1 : exists df1, (if negb (pd.has_col df0 "Heritage_Type")
                               && pd.has_col df0 "Cultural Element"
                            then assign_copy df0 "Heritage_Type" "Cultural Element"
                            else Ok df0) = Ok df1 /\ grows df0 df1).
  { destruct (pd.has_col df0 "Heritage_Type") eqn:E; cbn [negb andb].
    - exists df0. split; [reflexivity | apply grows_refl].
    - rewrite Hce. destruct (assign_copy_total df0 "Heritage_Type" "Cultural Element" Hce)
        as [df1 E1].
      exists df1. split; [exact E1|]. apply (assign_copy_ok _ _ _ _ E E1). }
  destruct S1 as (df1 & -> & G1). cbn [bind].
  set (df2 := if negb (pd.has_col df1 "Name") then _ else df1).
  assert (G2 : grows df1 df2).
  { unfold df2. destruct (pd.has_col df1 "Name") eqn:E; cbn [negb];
      [apply grows_refl | apply grows_setitem; exact E]. }
  assert (Hro2 : pd.has_col df2 "Region of Origin" = true).
  { apply (grows_has df1); [exact G2|]. apply (grows_has df0); assumption. }
  assert (Hhp2 : pd.has_col df2 "Historical Period" = true).
  { apply (grows_has df1); [exact G2|]. apply (grows_has df0); assumption. }
  assert (S3 : exists df3,
             (if negb (pd.has_col df2 "State") && pd.has_col df2 "Associated States"
              then assign_copy df2 "State" "Associated States"
              else if negb (pd.has_col df2 "State") && pd.has_col df2 "Region of Origin"
              then assign_copy df2 "State" "Region of Origin"
              else if negb (pd.has_col df2 "State")
              then Ok (pd.setitem_scalar df2 "State" (VStr "Unknown"))
              else Ok df2) = Ok df3 /\ grows df2 df3).
  { destruct (pd.has_col df2 "State") eqn:E; cbn [negb andb].
    - exists df2. split; [reflexivity | apply grows_refl].
    - destruct (pd.has_col df2 "Associated States") eqn:Ea.
      + destruct (assign_copy_total df2 "State" "Associated States" Ea) as [df3 E3].
        exists df3. split; [exact E3|]. apply (assign_copy_ok _ _ _ _ E E3).
      + rewrite Hro2.
        destruct (assign_copy_total df2 "State" "Region of Origin" Hro2) as [df3 E3].
        exists df3. split; [exact E3|]. apply (assign_copy_ok _ _ _ _ E E3). }
  destruct S3 as (df3 & -> & G3). cbn [bind].
  pose proof (grows_has _ _ _ G3 Hhp2) as Hhp3.
  destruct (pd.has_col df3 "Year"); cbn [negb andb]; [eexists; reflexivity|].
  rewrite Hhp3. apply has_col_get in Hhp3. destruct Hhp3 as [col Hcol].
  apply getitem_get in Hcol. rewrite Hcol. cbn [bind].
  destruct (mapM_earliest_year float_repr col) as [years ->]. cbn [bind].
  eexists; reflexivity.
Qed.

Lemma mapM_le_cell (cy : Z) (col : list cell) :
  Forall (fun v => is_str v = false) col ->
  exists mask, mapM (pd.le_cell cy) col = Ok mask.
Proof.
  intros H. apply mapM_total. eapply Forall_impl; [|exact H].
  intros [z|f|s] Hv; simpl in *; try discriminate; eexists; reflexivity.
Qed.

Lemma reconcile_population_total (cy : Z) (raw : DataFrame) :
  exists out, reconcile_population cy raw = Ok out.
Proof.
  unfold reconcile_population, up_to_year.
  assert (Hy : pd.has_col (population_numeric raw) "Year" = true).
  { unfold population_numeric. rewrite ensure_numeric_has.
    apply (required_block population_required population_default raw
             population_defaults ltac:(no_dup)). simpl; tauto. }
  apply has_col_get in Hy. destruct Hy as [year Hy].
  assert (Hn : Forall (fun v => is_str v = false) year).
  { revert Hy. apply (ensure_numeric_all population_required). left. simpl; tauto. }
  apply getitem_get in Hy. rewrite Hy. cbn [bind].
  destruct (mapM_le_cell cy year Hn) as [mask ->]. cbn [bind]. eexists; reflexivity.
Qed.

(** X11. Eight reconciliations cannot fail: for the linguistic, religious,
    state, cultural, population, economic, education and geography domains
    every table is reconciled (the historical periods of the cultural
    table being of ordinary length), so that their loaders raise only
    when the file cannot be read. The festivals and the historical
    reconciliation can raise, on a Season column of numbers and on an
    event that is a number. *)
Theorem reconcile_never_raises :
  forall (current_year : Z) (float_repr : pyfloat -> string) (d : domain)
         (raw : DataFrame),
    never_fails d = true ->
    short_periods float_repr d raw ->
    (exists out, reconcile current_year float_repr d raw = Ok out) /\
    reconcile current_year float_repr festivals
      (mkDF 1 [("Festival", [VStr "Onam"]); ("Season", [VInt 8])])
    = Raise AttributeError /\
    reconcile current_year float_repr historical
      (mkDF 1 [("Year", [VInt 1757]); ("Event", [VInt 1])])
    = Raise TypeError.
Proof.
  intros cy fr d raw Hd _. split; [|split; vm_compute; reflexivity].
  destruct d; try discriminate; cbn [reconcile].
  - eexists; reflexivity.
  - eexists; reflexivity.
  - apply reconcile_state_total.
  - apply reconcile_cultural_total.
  - apply reconcile_population_total.
  - eexists; reflexivity.
  - eexists; reflexivity.
  - unfold reconcile_geography. destruct (_ || _); eexists; reflexivity.
Qed.

Lemma reconcile_never_raises_witness :
  exists out,
    reconcile 2026 Float.repr cultural
      (mkDF 1 [("Cultural Element", [VStr "Yoga"]);
               ("Historical Period", [VStr "c. 500 BCE"])]) = Ok out.
Proof.
  apply (proj1 (reconcile_never_raises 2026 Float.repr cultural
                  (mkDF 1 [("Cultural Element", [VStr "Yoga"]);
                           ("Historical Period", [VStr "c. 500 BCE"])]) eq_refl
                  ltac:(intros col H; vm_compute in H; injection H as <-;
                        repeat constructor; unfold short_text; simpl; lia))).
Defined.

(** ** The first destination of a list *)

Lemma all_chars_app (p : ascii -> bool) (a b : string) :
  all_chars p (a ++ b) = all_chars p a && all_chars p b.
Proof.
  induction a as [|c a IH]; cbn [append all_chars]; [reflexivity|].
  rewrite IH, andb_assoc. reflexivity.
Qed.

Lemma all_chars_impl (p q : ascii -> bool) (s : string) :
  (forall c, p c = true -> q c = true) ->
  all_chars p s = true -> all_chars q s = true.
Proof.
  intros Hpq. induction s as [|c s IH]; cbn [all_chars]; [reflexivity|].
  intros H. apply andb_prop in H. destruct H as [Hc Hs].
  rewrite (Hpq _ Hc), (IH Hs). reflexivity.
Qed.

Lemma all_chars_lstrip (p : ascii -> bool) (s : string) :
  all_chars p s = true -> all_chars p (Py.lstrip s) = true.
Proof.
  induction s as [|c s IH]; cbn [Py.lstrip all_chars]; [reflexivity|].
  intros H. destruct (Py.is_space c); [|exact H].
  apply andb_prop in H. apply IH, H.
Qed.

Lemma all_chars_rstrip (p : ascii -> bool) (s : string) :
  all_chars p s = true -> all_chars p (Py.rstrip s) = true.
Proof.
  induction s as [|c s IH]; cbn [Py.rstrip all_chars]; [reflexivity|].
  intros H. apply andb_prop in H. destruct H as [Hc Hs].
  specialize (IH Hs). destruct (Py.rstrip s) as [|c' r].
  - destruct (Py.is_space c); cbn [all_chars]; [reflexivity|].
    rewrite Hc. reflexivity.
  - cbn [all_chars] in *. rewrite Hc, IH. reflexivity.
Qed.

Lemma rstrip_idem (s : string) : Py.rstrip (Py.rstrip s) = Py.rstrip s.
Proof.
  induction s as [|c s IH]; [reflexivity|].
  cbn [Py.rstrip]. destruct (Py.rstrip s) as [|c' r] eqn:E.
  - destruct (Py.is_space c) eqn:Ec; [reflexivity|].
    cbn [Py.rstrip]. rewrite Ec. reflexivity.
  - change (Py.rstrip (String c (String c' r)))
      with (match Py.rstrip (String c' r) with
            | EmptyString => if Py.is_space c then EmptyString else String c EmptyString
            | r0 => String c r0
            end).
    rewrite IH. reflexivity.
Qed.

Lemma lstrip_head (s : string) :
  Py.lstrip s = EmptyString \/
  exists c t, Py.lstrip s = String c t /\ Py.is_space c = false.
Proof.
  induction s as [|c s IH]; [left; reflexivity|].
  cbn [Py.lstrip]. destruct (Py.is_space c) eqn:E; [exact IH|].
  right. exists c, s. auto.
Qed.

Lemma rstrip_head (c : ascii) (t : string) :
  Py.is_space c = false -> exists r, Py.rstrip (String c t) = String c r.
Proof.
  intros Hc. cbn [Py.rstrip]. destruct (Py.rstrip t) as [|c' r].
  - rewrite Hc. eexists; reflexivity.
  - eexists; reflexivity.
Qed.

Lemma strip_idem (s : string) : Py.strip (Py.strip s) = Py.strip s.
Proof.
  unfold Py.strip. destruct (lstrip_head s) as [->|(c & t & -> & Hc)]; [reflexivity|].
  destruct (rstrip_head c t Hc) as [r Hr].
  assert (Hl : Py.lstrip (Py.rstrip (String c t)) = Py.rstrip (String c t)).
  { rewrite Hr. cbn [Py.lstrip]. rewrite Hc. reflexivity. }
  rewrite Hl. apply rstrip_idem.
Qed.

Lemma all_chars_snoc (p : ascii -> bool) (s : string) (c : ascii) :
  all_chars p (Py.snoc s c) = all_chars p s && p c.
Proof.
  unfold Py.snoc. rewrite all_chars_app. cbn [all_chars].
  rewrite andb_true_r. reflexivity.
Qed.

Lemma split_comma_step (c : ascii) (s cur : string) :
  Py.split_go "," (String c s) 0 cur
  = if Ascii.eqb "," c then cur :: Py.split_go "," s 0 EmptyString
    else Py.split_go "," s 0 (Py.snoc cur c).
Proof.
  cbn [Py.split_go Py.startswith String.length Nat.sub].
  rewrite andb_true_r. reflexivity.
Qed.

Lemma hd_split_no_comma (s cur : string) :
  no_comma cur = true ->
  no_comma (hd EmptyString (Py.split_go "," s 0 cur)) = true.
Proof.
  revert cur. induction s as [|c s IH]; intros cur Hcur; [exact Hcur|].
  rewrite split_comma_step. destruct (Ascii.eqb "," c) eqn:E; [exact Hcur|].
  apply IH. unfold no_comma in *. rewrite all_chars_snoc, Hcur.
  rewrite Ascii.eqb_sym, E. reflexivity.
Qed.

Lemma split_no_comma (s cur : string) :
  no_comma s = true -> Py.split_go "," s 0 cur = [(cur ++ s)%string].
Proof.
  revert cur. induction s as [|c s IH]; intros cur H.
  - cbn [Py.split_go]. f_equal.
    clear. induction cur; cbn [append]; congruence.
  - rewrite split_comma_step. unfold no_comma in H. cbn [all_chars] in H.
    apply andb_prop in H. destruct H as [Hc Hs].
    rewrite Ascii.eqb_sym. destruct (Ascii.eqb c ","); [discriminate|].
    rewrite (IH _ Hs). unfold Py.snoc. f_equal.
    clear. induction cur; cbn [append]; congruence.
Qed.

Lemma first_of_list_clean (s : string) :
  Py.strip (first_of_list s) = first_of_list s /\
  no_comma (first_of_list s) = true /\
  (no_comma s = true -> first_of_list s = Py.strip s).
Proof.
  unfold first_of_list. split; [apply strip_idem|]. split.
  - unfold Py.strip, no_comma. apply all_chars_rstrip, all_chars_lstrip.
    apply hd_split_no_comma. reflexivity.
  - intros H. unfold Py.split. rewrite (split_no_comma _ _ H). reflexivity.
Qed.

Lemma digit_not_comma (c : ascii) :
  Py.is_digit c = true -> negb (Ascii.eqb c ",") = true.
Proof. destruct c as [[] [] [] [] [] [] [] []]; vm_compute; congruence. Qed.

Lemma rstrip_app_digits (a d : string) :
  d <> EmptyString -> all_chars Py.is_digit d = true ->
  Py.rstrip (a ++ d) = (a ++ d)%string.
Proof.
  intros Hne Hd. induction a as [|c a IH]; cbn [append]; [apply rstrip_digits, Hd|].
  cbn [Py.rstrip]. rewrite IH. destruct (a ++ d)%string eqn:E; [|reflexivity].
  destruct a; cbn [append] in E; [congruence | discriminate].
Qed.

Lemma numbered_destination_clean (i : nat) :
  exists t, numbered "Destination" i = VStr t /\
            Py.strip t = t /\ no_comma t = true.
Proof.
  unfold numbered.
  destruct (str_of_Z_digits (Z.of_nat i + 1) ltac:(lia)) as (Hne & Hd & _).
  set (d := Py.str_of_Z _) in *. eexists. split; [reflexivity|]. split.
  - unfold Py.strip.
    change ("Destination" ++ " " ++ d)%string with ("Destination " ++ d)%string.
    change (Py.lstrip ("Destination " ++ d)) with ("Destination " ++ d)%string.
    apply rstrip_app_digits; assumption.
  - change ("Destination" ++ " " ++ d)%string with ("Destination " ++ d)%string.
    unfold no_comma. rewrite all_chars_app.
    rewrite (all_chars_impl _ _ d digit_not_comma Hd). reflexivity.
Qed.

Lemma infer_texts (l : list cell) :
  Forall (fun v => is_str v = true) l -> pd.infer l = l.
Proof.
  intros H. unfold pd.infer.
  assert (Hf : existsb pd.is_float l = false).
  { induction H as [|v l Hv _ IH]; [reflexivity|].
    cbn [existsb]. rewrite IH. destruct v; try discriminate. reflexivity. }
  rewrite Hf. reflexivity.
Qed.

Lemma destinations_clean (col : list cell) (start : nat) :
  Forall2 (fun v d => exists t, d = VStr t /\ Py.strip t = t /\ no_comma t = true /\
                        (forall s, v = VStr s -> no_comma s = true -> t = Py.strip s))
    col
    (map (fun iv => destination_of (fst iv) (snd iv))
         (combine (seq start (length col)) col)).
Proof.
  revert start. induction col as [|v col IH]; intros start; cbn [length seq combine map];
    constructor; [|apply IH].
  cbn [fst snd]. destruct v as [z|f|s]; cbn [destination_of].
  - destruct (numbered_destination_clean start) as (t & -> & H1 & H2).
    exists t. repeat split; auto. discriminate.
  - destruct (numbered_destination_clean start) as (t & -> & H1 & H2).
    exists t. repeat split; auto. discriminate.
  - destruct (first_of_list_clean s) as (H1 & H2 & H3).
    eexists. split; [reflexivity|]. split; [exact H1|]. split; [exact H2|].
    intros s' Hs Hn. injection Hs as <-. apply H3, Hn.
Qed.

Lemma tourism_mappings :
  tourism_column_mappings
  = [("Destination", "Popular Destinations"); ("State", "Key States");
     ("Type", "Tourism Type"); ("Visitors_Annual", "Annual Visitors (millions)")].
Proof. reflexivity. Qed.

(** X12. The destination the tourism loader derives: for a table with the
    column Popular Destinations and no Destination, the loaded table has a
    destination for every row, a text; where the popular destinations are
    no text or an ASCII text, the destination has no comma and no white
    space around it, and where they are one name, it is that name
    stripped. *)
Theorem tourism_destination_first_item :
  forall (raw out : DataFrame) (col : list cell),
    reconcile_tourism raw = Ok out ->
    pd.has_col raw "Destination" = false ->
    Dict.get "Popular Destinations" (columns raw) = Some col ->
    exists dest,
      Dict.get "Destination" (columns out) = Some dest /\
      Forall2 first_destination col dest.
Proof.
  intros raw out col H Hd Hp. unfold reconcile_tourism in H.
  rewrite tourism_mappings in H. cbn [foldM] in H.
  destruct (tourism_derive raw ("Destination", "Popular Destinations"))
    as [df1|] eqn:E1; cbn [bind] in H; [|discriminate].
  match type of H with
  | bind ?r _ = _ =>
      change r with (foldM tourism_derive
                       [("State", "Key States"); ("Type", "Tourism Type");
                        ("Visitors_Annual", "Annual Visitors (millions)")] df1) in H
  end.
  destruct (foldM tourism_derive _ df1) as [df0|] eqn:E0; cbn [bind] in H;
    [|discriminate].
  apply Ok_inj in H.
  set (dest := map (fun iv => destination_of (fst iv) (snd iv)) (enumerate col)).
  assert (Ht : Forall2 (fun v d =>
                 exists t, d = VStr t /\ Py.strip t = t /\ no_comma t = true /\
                   (forall s, v = VStr s -> no_comma s = true -> t = Py.strip s))
              col dest) by apply destinations_clean.
  exists dest. split.
  2:{ eapply Forall2_impl; [|exact Ht]. intros v d (t & -> & H1 & H2 & H3).
      exists t. split; [reflexivity|]. intros _. auto. }
  assert (G1 : Dict.get "Destination" (columns df1) = Some dest).
  { unfold tourism_derive in E1.
    assert (Hh : pd.has_col raw "Popular Destinations" = true)
      by (apply has_col_get; eauto).
    rewrite Hh, Hd in E1. cbn [negb andb] in E1.
    change (String.eqb "Destination" "Destination") with true in E1. cbv iota in E1.
    apply getitem_get in Hp. rewrite Hp in E1. cbn [bind] in E1.
    fold dest in E1. unfold pd.setitem_list in E1.
    destruct (_ =? _)%nat; [|discriminate]. apply Ok_inj in E1. subst df1.
    cbn [columns pd.setitem_series]. rewrite get_set_same. f_equal.
    apply infer_texts. clear - Ht. induction Ht as [|v d col dest (t & -> & _) _ IH];
      constructor; [reflexivity | exact IH]. }
  assert (G0 : grows df1 df0).
  { revert E0. apply (foldM_rel grows); [apply grows_refl | apply grows_trans|].
    intros a m a' _. apply tourism_derive_grows. }
  destruct (required_block tourism_required tourism_default df0
              tourism_defaults ltac:(no_dup)) as (Hg & _).
  rewrite <- H. apply Hg, G0, G1.
Qed.

Lemma tourism_destination_first_item_witness :
  exists dest,
    Dict.get "Destination"
      (columns (mkDF 2 [("Popular Destinations", [VStr " Taj Mahal , Agra Fort"; NaN]);
                        ("Destination", [VStr "Taj Mahal"; VStr "Destination 2"]);
                        ("State", [VStr "Unknown"; VStr "Unknown"]);
                        ("Type", [VStr "Monument"; VStr "Monument"]);
                        ("Visitors_Annual", [VInt 0; VInt 0])]))
    = Some dest /\
    Forall2 first_destination [VStr " Taj Mahal , Agra Fort"; NaN] dest.
Proof.
  apply (tourism_destination_first_item
           (mkDF 2 [("Popular Destinations", [VStr " Taj Mahal , Agra Fort"; NaN])]));
    vm_compute; reflexivity.
Defined.

(** ** The major events of the historical table *)

Lemma add_time_period_has_other (df df' : DataFrame) (c : string) :
  add_time_period df = Ok df' -> c <> "Time Period" ->
  pd.has_col df' c = pd.has_col df c.
Proof.
  unfold add_time_period. destruct (pd.has_col df "Time Period") eqn:E.
  - intros H _; apply Ok_inj in H; subst. reflexivity.
  - destruct (pd.getitem df "Year") as [year|]; cbn [bind]; [|discriminate].
    destruct (mapM format_time_period year) as [periods|]; cbn [bind]; [|discriminate].
    set (dfa := pd.setitem_series df "Time Period" (pd.infer periods)).
    intros H Hc.
    assert (R : forall c, pd.has_col df' c = pd.has_col dfa c).
    { revert H. generalize (seq 0 (nrows dfa)) as l. intros l.
      apply (foldM_rel (fun d d' => forall c, pd.has_col d' c = pd.has_col d c)).
      - intros a c0. reflexivity.
      - intros a b c0 Hab Hbc c1. rewrite Hbc. apply Hab.
      - intros a i a' _. unfold set_era_range.
        destruct (pd.at_ a i "Era") as [era|]; cbn [bind]; [|discriminate].
        destruct (find _ era_ranges) as [[k time_range]|].
        + intros Hs. destruct (set_at_spec _ _ _ _ _ Hs) as (_ & Hh & _). exact Hh.
        + intros Hs; apply Ok_inj in Hs; subst. reflexivity. }
    rewrite R. unfold dfa. rewrite has_setitem.
    apply String.eqb_neq in Hc. rewrite Hc. reflexivity.
Qed.

Lemma major_event_notna (float_repr : pyfloat -> string) (e s : cell) :
  isna (major_event float_repr e s) = false.
Proof.
  unfold major_event. destruct (isna e) eqn:Ee, (isna s) eqn:Es; cbn [negb andb]; auto.
Qed.

Lemma infer_notna (l : list cell) :
  Forall (fun v => isna v = false) l -> Forall (fun v => isna v = false) (pd.infer l).
Proof.
  intros H. unfold pd.infer. destruct (_ && _); [|exact H].
  apply Forall_map. eapply Forall_impl; [|exact H].
  intros [z|f|s] Hv; cbn [pd.to_float]; auto.
Qed.

Lemma infer_with_text (l : list cell) (i : nat) (t : string) :
  nth_error l i = Some (VStr t) -> pd.infer l = l.
Proof.
  intros H. unfold pd.infer.
  assert (Hs : existsb is_str l = true).
  { apply existsb_exists. exists (VStr t). split; [|reflexivity].
    eapply nth_error_In; eauto. }
  rewrite Hs. cbn [negb]. rewrite andb_false_r. reflexivity.
Qed.

Lemma nth_error_combine {A B : Type} (l : list A) (l' : list B) (i : nat)
  (a : A) (b : B) :
  nth_error l i = Some a -> nth_error l' i = Some b ->
  nth_error (combine l l') i = Some (a, b).
Proof.
  revert l' i. induction l as [|x l IH]; intros [|y l'] [|i]; cbn; try discriminate.
  - intros Ha Hb. congruence.
  - apply IH.
Qed.

(** A historical table that has its header and no row is reconciled to
    the table of the twenty columns without a row: the row-wise steps
    write empty columns. *)
Lemma historical_header_only :
  exists out,
    reconcile_historical Float.repr
      (mkDF 0 [("Year", []); ("Era", []); ("Event", []); ("Significance", [])])
    = Ok out /\
    nrows out = 0%nat /\
    length (columns out) = 20%nat /\
    Forall (fun kv => snd kv = []) (columns out) /\
    Dict.get "Major Events" (columns out) = Some [].
Proof.
  eexists. split; [vm_compute; reflexivity|].
  split; [reflexivity|]. split; [reflexivity|].
  split; [repeat constructor | reflexivity].
Qed.

(** X13. The Major Events column never holds a null: for a table without
    that column, with or without rows, the historical loader writes in
    every row the event with its significance, or the one of the two that
    is there, or a fixed text; a row whose event and significance are
    texts gets the event in bold followed by the significance. *)
Theorem major_events_never_null :
  forall (float_repr : pyfloat -> string) (raw out : DataFrame),
    reconcile_historical float_repr raw = Ok out ->
    pd.has_col raw "Major Events" = false ->
    exists col,
      Dict.get "Major Events" (columns out) = Some col /\
      Forall (fun v => isna v = false) col /\
      (forall i e s,
          pd.at_ out i "Event" = Ok (VStr e) ->
          pd.at_ out i "Significance" = Ok (VStr s) ->
          nth_error col i = Some (VStr ("**" ++ e ++ "**: " ++ s))).
Proof.
  intros float_repr raw out. unfold reconcile_historical.
  generalize additional_columns as extra. intros extra H Hraw.
  set (df0 := add_missing _ _ _) in *.
  assert (H0 : pd.has_col df0 "Major Events" = false).
  { unfold df0. rewrite (add_missing_has_other historical_required);
      [exact Hraw | exact historical_defaults|].
    simpl. intuition discriminate. }
  destruct (add_time_period df0) as [df1|] eqn:E1; cbn [bind] in H; [|discriminate].
  assert (H1 : pd.has_col df1 "Major Events" = false).
  { rewrite (add_time_period_has_other _ _ _ E1); [exact H0 | discriminate]. }
  match type of H with bind ?r _ = _ => destruct r as [df2|] eqn:E2 end;
    cbn [bind] in H; [|discriminate].
  assert (H2 : pd.has_col df2 "Major Events" = false).
  { destruct (pd.has_col df1 "Timeline Year").
    - apply Ok_inj in E2; subst. exact H1.
    - unfold assign_copy in E2.
      destruct (pd.getitem df1 "Year"); cbn [bind] in E2; [|discriminate].
      apply Ok_inj in E2; subst. rewrite has_setitem, H1. reflexivity. }
  destruct (add_major_events float_repr df2) as [df3|] eqn:E3; cbn [bind] in H;
    [|discriminate].
  destruct (add_major_events_spec _ _ _ E3) as [Hg3 _].
  unfold add_major_events in E3. rewrite H2 in E3.
  destruct (pd.getitem df2 "Event") as [ev|] eqn:Eev; cbn [bind] in E3; [|discriminate].
  destruct (pd.getitem df2 "Significance") as [sg|] eqn:Esg; cbn [bind] in E3;
    [|discriminate].
  apply Ok_inj in E3.
  set (texts := map (fun es => major_event float_repr (fst es) (snd es))
                    (combine ev sg)) in E3.
  assert (G3 : Dict.get "Major Events" (columns df3) = Some (pd.infer texts)).
  { rewrite <- E3. cbn [columns pd.setitem_series]. apply get_set_same. }
  apply getitem_get in Eev. apply getitem_get in Esg.
  destruct Hg3 as [_ Hg3].
  pose proof (Hg3 _ _ Eev) as Ev3. pose proof (Hg3 _ _ Esg) as Sg3.
  clear E3 Hg3.
  destruct (lookup_if_absent "Capital Cities" _ _ _ df3) as [df4|] eqn:E4;
    cbn [bind] in H; [|discriminate].
  destruct (lookup_if_absent_ok _ _ _ _ _ _ E4) as [Hg4 _].
  match type of H with bind ?r _ = _ => destruct r as [df5|] eqn:E5 end;
    cbn [bind] in H; [|discriminate].
  assert (Hg5 : grows df4 df5).
  { destruct (pd.has_col df4 "Key Rulers/Leaders") eqn:E; cbn [negb andb] in E5.
    - apply Ok_inj in E5; subst. apply grows_refl.
    - destruct (pd.has_col df4 "Key Figures"); [eapply assign_copy_ok; eauto|].
      apply Ok_inj in E5; subst. apply grows_setitem; exact E. }
  destruct (foldM add_additional extra df5) as [df6|] eqn:E6; cbn [bind] in H;
    [|discriminate].
  destruct (add_additional_all _ _ _ E6) as [Hg6 _].
  destruct (event_details_settle _ _ H) as [(_ & _ & Hsame & _) _].
  assert (G : grows df3 df6)
    by (eapply grows_trans; [exact Hg4|]; eapply grows_trans; eassumption).
  destruct G as [_ G].
  assert (Hout : forall c col, In c ["Major Events"; "Event"; "Significance"] ->
                   Dict.get c (columns df3) = Some col ->
                   Dict.get c (columns out) = Some col).
  { intros c col Hc Hcol. rewrite Hsame; [apply G, Hcol|].
    unfold detail_columns. simpl in Hc |- *. intuition (subst; discriminate). }
  exists (pd.infer texts). split; [apply Hout; [simpl; tauto | exact G3]|].
  split.
  - apply infer_notna. unfold texts. apply Forall_map, Forall_forall.
    intros es _. apply major_event_notna.
  - intros i e s He Hs.
    apply at_get in He. destruct He as (colE & HcE & HiE).
    apply at_get in Hs. destruct Hs as (colS & HcS & HiS).
    rewrite (Hout "Event" ev) in HcE by (simpl; tauto || exact Ev3).
    rewrite (Hout "Significance" sg) in HcS by (simpl; tauto || exact Sg3).
    apply Some_inj in HcE. apply Some_inj in HcS. subst colE colS.
    assert (Ht : nth_error texts i = Some (VStr ("**" ++ e ++ "**: " ++ s))).
    { unfold texts. rewrite nth_error_map.
      rewrite (nth_error_combine _ _ _ _ _ HiE HiS). reflexivity. }
    rewrite (infer_with_text _ _ _ Ht). exact Ht.
Qed.

Lemma major_events_never_null_witness :
  exists out,
    reconcile_historical Float.repr
      (mkDF 2 [("Year", [VInt 1757; VInt 1915]);
               ("Event", [VStr "Battle of Plassey"; NaN]);
               ("Significance", [VStr "Company rule begins"; NaN])]) = Ok out /\
    exists col,
      Dict.get "Major Events" (columns out) = Some col /\
      Forall (fun v => isna v = false) col /\
      (forall i e s,
          pd.at_ out i "Event" = Ok (VStr e) ->
          pd.at_ out i "Significance" = Ok (VStr s) ->
          nth_error col i = Some (VStr ("**" ++ e ++ "**: " ++ s))).
Proof.
  eexists. split; [vm_compute; reflexivity|].
  apply (major_events_never_null Float.repr
           (mkDF 2 [("Year", [VInt 1757; VInt 1915]);
                    ("Event", [VStr "Battle of Plassey"; NaN]);
                    ("Significance", [VStr "Company rule begins"; NaN])]));
    vm_compute; reflexivity.
Defined.

(** ** The institution counts of the infrastructure tab *)

Lemma replace_comma_step (c : ascii) (s : string) :
  Py.replace_go "," "" (String c s) 0
  = if Ascii.eqb "," c then Py.replace_go "," "" s 0
    else String c (Py.replace_go "," "" s 0).
Proof.
  cbn [Py.replace_go Py.startswith String.length Nat.sub append].
  rewrite andb_true_r. reflexivity.
Qed.

Lemma replace_comma_app (a b : string) :
  no_comma a = true ->
  Py.replace_go "," "" (a ++ b) 0 = (a ++ Py.replace_go "," "" b 0)%string.
Proof.
  induction a as [|c a IH]; intros H; cbn [append]; [reflexivity|].
  unfold no_comma in H. cbn [all_chars] in H. apply andb_prop in H.
  destruct H as [Hc Ha]. rewrite replace_comma_step, Ascii.eqb_sym.
  destruct (Ascii.eqb c ","); [discriminate|]. rewrite (IH Ha). reflexivity.
Qed.

Lemma append_empty (s : string) : (s ++ "")%string = s.
Proof. induction s; cbn [append]; congruence. Qed.

Lemma replace_no_comma (s : string) :
  no_comma s = true -> Py.replace "," "" s = s.
Proof.
  intros H. unfold Py.replace. rewrite <- (append_empty s) at 1.
  rewrite (replace_comma_app _ _ H). apply append_empty.
Qed.

Lemma digits_no_comma (d : string) :
  all_chars Py.is_digit d = true -> no_comma d = true.
Proof. apply all_chars_impl, digit_not_comma. Qed.

Lemma replace_grouped (groups : list string) :
  Forall (fun g => all_chars Py.is_digit g = true) groups ->
  Py.replace "," "" (String.concat "," groups) = String.concat "" groups /\
  all_chars Py.is_digit (String.concat "" groups) = true.
Proof.
  induction 1 as [|g groups Hg Hgs [IH1 IH2]]; [split; reflexivity|].
  destruct groups as [|g' groups].
  - cbn [String.concat]. split; [apply replace_no_comma, digits_no_comma, Hg | exact Hg].
  - change (String.concat "," (g :: g' :: groups))
      with (g ++ String "," (String.concat "," (g' :: groups)))%string.
    change (String.concat "" (g :: g' :: groups))
      with (g ++ String.concat "" (g' :: groups))%string.
    split.
    + unfold Py.replace in *. rewrite (replace_comma_app _ _ (digits_no_comma _ Hg)).
      rewrite replace_comma_step. cbn [Ascii.eqb Bool.eqb]. rewrite IH1. reflexivity.
    + rewrite all_chars_app, Hg, IH2. reflexivity.
Qed.

Lemma int_of_str_of_Z (z : Z) : Py.int_of_str (Py.str_of_Z z) = Ok z.
Proof.
  destruct (Z.ltb_spec z 0) as [Hz|Hz].
  - rewrite (str_of_Z_neg z Hz).
    destruct (str_of_Z_digits (- z) ltac:(lia)) as (Hne & Hd & Hv).
    rewrite (int_of_neg_digits _ Hne Hd), Hv. f_equal. lia.
  - destruct (str_of_Z_digits z Hz) as (Hne & Hd & Hv).
    rewrite (int_of_digits _ Hne Hd), Hv. reflexivity.
Qed.

Lemma str_of_Z_no_comma (z : Z) : no_comma (Py.str_of_Z z) = true.
Proof.
  destruct (Z.ltb_spec z 0) as [Hz|Hz].
  - rewrite (str_of_Z_neg z Hz).
    destruct (str_of_Z_digits (- z) ltac:(lia)) as (_ & Hd & _).
    unfold no_comma. cbn [all_chars]. apply (digits_no_comma _ Hd).
  - destruct (str_of_Z_digits z Hz) as (_ & Hd & _). apply digits_no_comma, Hd.
Qed.

(** X14. An institution count is read as a number from an integer cell
    and from a text of digits grouped by commas, the commas being dropped;
    the defaults the education loader supplies for the five counts are
    read so; a null count raises a ValueError. *)
Theorem institution_count_reads :
  forall (float_repr : pyfloat -> string) (v : cell),
    short_text float_repr v ->
    (forall z, v = VInt z -> institution_count float_repr v = Ok z) /\
    (forall groups,
        v = VStr (String.concat "," groups) ->
        Forall (fun g => all_chars Py.is_digit g = true) groups ->
        String.concat "" groups <> EmptyString ->
        institution_count float_repr v
        = Ok (Py.digits_value (String.concat "" groups))) /\
    (v = NaN -> float_repr FNaN = "nan" ->
     institution_count float_repr v = Raise ValueError) /\
    (forall c z, In (c, z) institution_defaults ->
       exists text, Dict.get c utils.expected_columns = Some (VStr text) /\
                    institution_count float_repr (VStr text) = Ok z).
Proof.
  intros fr v _. split; [|split; [|split]].
  - intros z ->. unfold institution_count. cbn [str_of_cell].
    rewrite (replace_no_comma _ (str_of_Z_no_comma z)). apply int_of_str_of_Z.
  - intros groups -> Hg Hne. unfold institution_count. cbn [str_of_cell].
    destruct (replace_grouped groups Hg) as [-> Hd].
    apply int_of_digits; assumption.
  - intros -> Hnan. unfold institution_count. cbn [str_of_cell NaN].
    rewrite Hnan. vm_compute. reflexivity.
  - unfold institution_defaults. intros c z Hin.
    repeat (destruct Hin as [Hin|Hin];
            [apply pair_equal_spec in Hin; destruct Hin as [<- <-];
             eexists; split; vm_compute; reflexivity|]).
    destruct Hin.
Qed.

Lemma institution_count_reads_witness :
  institution_count Float.repr (VStr "1,210,854") = Ok 1210854.
Proof.
  apply (proj1 (proj2 (institution_count_reads Float.repr (VStr "1,210,854")
                         ltac:(unfold short_text; simpl; lia)))
           ["1"; "210"; "854"]).
  - reflexivity.
  - repeat constructor.
  - discriminate.
Defined.

(** ** The population table, row by row *)

(** *** A text with a comma is no number *)

Lemma space_not_comma (c : ascii) :
  Py.is_space c = true -> negb (Ascii.eqb c ",") = true.
Proof. destruct c as [[] [] [] [] [] [] [] []]; vm_compute; congruence. Qed.

Lemma no_comma_cons (c : ascii) (s : string) :
  no_comma (String c s) = negb (Ascii.eqb c ",") && no_comma s.
Proof. reflexivity. Qed.

Lemma no_comma_lstrip (s : string) : no_comma (Py.lstrip s) = no_comma s.
Proof.
  induction s as [|c s IH]; [reflexivity|]. cbn [Py.lstrip].
  destruct (Py.is_space c) eqn:E; [|reflexivity].
  rewrite IH, no_comma_cons, (space_not_comma _ E). reflexivity.
Qed.

Lemma no_comma_rstrip (s : string) : no_comma (Py.rstrip s) = no_comma s.
Proof.
  induction s as [|c s IH]; [reflexivity|]. cbn [Py.rstrip].
  rewrite (no_comma_cons c s), <- IH. destruct (Py.rstrip s) as [|c' r].
  - destruct (Py.is_space c) eqn:E.
    + rewrite (space_not_comma _ E). reflexivity.
    + reflexivity.
  - reflexivity.
Qed.

Lemma no_comma_strip (s : string) : no_comma (Py.strip s) = no_comma s.
Proof. unfold Py.strip. rewrite no_comma_rstrip. apply no_comma_lstrip. Qed.

Lemma no_comma_sign (s : string) : no_comma (snd (Py.sign s)) = no_comma s.
Proof.
  destruct s as [|c s]; [reflexivity|]. unfold Py.sign.
  destruct (Ascii.eqb c "-") eqn:E1.
  - apply Ascii.eqb_eq in E1. subst. reflexivity.
  - destruct (Ascii.eqb c "+") eqn:E2; [|reflexivity].
    apply Ascii.eqb_eq in E2. subst. reflexivity.
Qed.

Lemma no_comma_digitpart_go (s : string) (b : bool) :
  no_comma (snd (Py.digitpart_go s b)) = no_comma s.
Proof.
  revert b. induction s as [|c s IH]; intros b; [reflexivity|].
  cbn [Py.digitpart_go]. destruct (Py.is_digit c) eqn:Ed.
  - specialize (IH true). destruct (Py.digitpart_go s true) as [a r].
    cbn [snd] in *. rewrite IH, no_comma_cons, (digit_not_comma _ Ed). reflexivity.
  - destruct (Ascii.eqb c "_" && b) eqn:Eu; [|reflexivity].
    apply andb_prop in Eu. destruct Eu as [Eu _]. apply Ascii.eqb_eq in Eu. subst c.
    destruct s as [|d s]; [reflexivity|].
    destruct (Py.is_digit d); [|reflexivity].
    rewrite (IH false). reflexivity.
Qed.

Lemma exponent_mark_not_comma (c : ascii) :
  Ascii.eqb (Py.lower c) "e" = true -> negb (Ascii.eqb c ",") = true.
Proof. destruct c as [[] [] [] [] [] [] [] []]; vm_compute; congruence. Qed.

Lemma no_comma_exponent (s : string) :
  no_comma (snd (Float.exponent s)) = no_comma s.
Proof.
  destruct s as [|c s]; [reflexivity|]. unfold Float.exponent.
  destruct (Ascii.eqb (Py.lower c) "e") eqn:E; [|reflexivity].
  pose proof (no_comma_sign s) as Hs. destruct (Py.sign s) as [neg r].
  pose proof (no_comma_digitpart_go r false) as Hd. unfold Py.digitpart.
  destruct (Py.digitpart_go r false) as [ds rest]. cbn [snd] in *.
  destruct ds; [reflexivity|]. cbn [snd].
  rewrite Hd, Hs, no_comma_cons, (exponent_mark_not_comma _ E). reflexivity.
Qed.

Lemma lower_comma (c : ascii) :
  Ascii.eqb (Py.lower c) "," = Ascii.eqb c ",".
Proof. destruct c as [[] [] [] [] [] [] [] []]; vm_compute; reflexivity. Qed.

Lemma no_comma_lower (s : string) : no_comma (Py.lower_str s) = no_comma s.
Proof.
  induction s as [|c s IH]; [reflexivity|]. cbn [Py.lower_str].
  rewrite !no_comma_cons, IH, lower_comma. reflexivity.
Qed.

Lemma int_of_str_comma (s : string) :
  no_comma s = false -> Py.int_of_str s = Raise ValueError.
Proof.
  intros H. unfold Py.int_of_str.
  pose proof (no_comma_sign (Py.strip s)) as Hs. rewrite no_comma_strip, H in Hs.
  destruct (Py.sign (Py.strip s)) as [neg r]. cbn [snd] in Hs.
  pose proof (no_comma_digitpart_go r false) as Hd. rewrite Hs in Hd.
  unfold Py.digitpart. destruct (Py.digitpart_go r false) as [ds rest]. cbn [snd] in Hd.
  destruct ds; [reflexivity|]. destruct rest; [discriminate | reflexivity].
Qed.

Lemma float_of_str_comma (s : string) :
  no_comma s = false -> Float.of_str s = Raise ValueError.
Proof.
  intros H. unfold Float.of_str.
  pose proof (no_comma_sign (Py.strip s)) as Hs. rewrite no_comma_strip, H in Hs.
  destruct (Py.sign (Py.strip s)) as [neg r]. cbn [snd] in Hs.
  unfold Float.unsigned_of_str.
  pose proof (no_comma_lower r) as Hl. rewrite Hs in Hl.
  assert (Hw : forall w, no_comma w = true -> String.eqb (Py.lower_str r) w = false).
  { intros w Hw. apply String.eqb_neq. intros Heq. rewrite Heq in Hl. congruence. }
  rewrite !Hw by reflexivity. cbn [orb].
  pose proof (no_comma_digitpart_go r false) as Hd. rewrite Hs in Hd.
  unfold Py.digitpart. destruct (Py.digitpart_go r false) as [ip r1]. cbn [snd] in Hd.
  assert (H2 : forall fp r2,
             match r1 with
             | String c r' =>
                 if Ascii.eqb c "." then Py.digitpart_go r' false else (EmptyString, r1)
             | EmptyString => (EmptyString, r1)
             end = (fp, r2) -> no_comma r2 = false).
  { intros fp r2. destruct r1 as [|c r']; [intros E; injection E as _ <-; exact Hd|].
    destruct (Ascii.eqb c ".") eqn:Ec.
    - apply Ascii.eqb_eq in Ec. subst c. intros E.
      pose proof (no_comma_digitpart_go r' false) as Hd'. rewrite E in Hd'.
      cbn [snd] in Hd'. rewrite Hd'. exact Hd.
    - intros E; injection E as _ <-; exact Hd. }
  destruct (match r1 with EmptyString => _ | String _ _ => _ end) as [fp r2].
  specialize (H2 fp r2 eq_refl).
  destruct (ip ++ fp)%string; [reflexivity|].
  pose proof (no_comma_exponent r2) as He. rewrite H2 in He.
  destruct (Float.exponent r2) as [ex r3]. cbn [snd] in He.
  destruct r3; [discriminate | reflexivity].
Qed.

Lemma numeric_of_str_comma (s : string) :
  no_comma s = false -> pd.numeric_of_str s = NaN.
Proof.
  intros H. unfold pd.numeric_of_str.
  rewrite (int_of_str_comma _ H), (float_of_str_comma _ H). reflexivity.
Qed.

(** *** The coerced columns and the mask of the years *)

Lemma to_numeric_coerced (col : list cell) : Forall2 coerced col (pd.to_numeric col).
Proof.
  unfold pd.to_numeric, pd.infer. destruct (_ && _).
  - induction col as [|v col IH]; cbn [map]; constructor; [|exact IH].
    destruct v as [z|f|s]; cbn [coerced pd.coerce pd.to_float].
    + right. exists (Float.of_Z z). split; reflexivity.
    + reflexivity.
    + split.
      * pose proof (coerce_numeric (VStr s)) as Hn. cbn [pd.coerce] in Hn.
        destruct (pd.numeric_of_str s); [reflexivity | reflexivity | discriminate].
      * intros Hc. rewrite (numeric_of_str_comma _ Hc). reflexivity.
  - induction col as [|v col IH]; cbn [map]; constructor; [|exact IH].
    destruct v as [z|f|s]; cbn [coerced pd.coerce].
    + left; reflexivity.
    + reflexivity.
    + split; [apply (coerce_numeric (VStr s)) | apply numeric_of_str_comma].
Qed.

Lemma le_cell_not_after (cy : Z) (v : cell) (keep : bool) :
  pd.le_cell cy v = Ok keep -> (keep = true <-> not_after cy v).
Proof.
  destruct v as [z|[q|neg|]|s]; cbn [pd.le_cell Float.leb_Z not_after];
    intros H; try discriminate; apply Ok_inj in H; subst keep.
  - apply Z.leb_le.
  - apply Qle_bool_iff.
  - reflexivity.
  - split; [discriminate | contradiction].
Qed.

Lemma mask_not_after (cy : Z) (year : list cell) (mask : list bool) :
  mapM (pd.le_cell cy) year = Ok mask ->
  Forall2 (fun v keep => keep = true <-> not_after cy v) year mask.
Proof.
  intros H. apply mapM_ok_Forall2 in H.
  induction H as [|v b year mask Hv _ IH]; constructor; [|exact IH].
  apply le_cell_not_after, Hv.
Qed.


Lemma Forall2_nth_error {A B : Type} (R : A -> B -> Prop) (l : list A) (l' : list B)
  (i : nat) (a : A) :
  Forall2 R l l' -> nth_error l i = Some a ->
  exists b, nth_error l' i = Some b /\ R a b.
Proof.
  intros H. revert i. induction H as [|x y l l' Hxy _ IH]; intros [|i] Hi;
    cbn in *; try discriminate.
  - apply Some_inj in Hi. subst. eauto.
  - apply IH, Hi.
Qed.

Lemma ensure_numeric_nrows (l : list string) (df : DataFrame) :
  nrows (fold_left ensure_numeric l df) = nrows df.
Proof.
  revert df. induction l as [|c l IH]; intros df; [reflexivity|].
  cbn [fold_left]. rewrite IH. unfold ensure_numeric.
  destruct (Dict.get c (columns df)); reflexivity.
Qed.

Lemma infer_ints (l : list cell) :
  Forall (fun v => exists z, v = VInt z) l -> pd.infer l = l.
Proof.
  intros H. unfold pd.infer.
  rewrite (Forall_existsb_false pd.is_float); [reflexivity|].
  eapply Forall_impl; [|exact H]. intros v [z ->]. reflexivity.
Qed.

(** The years the loader gives a table that has none: 1950, 1951, ... *)
Lemma population_default_year (raw : DataFrame) :
  pd.has_col raw "Year" = false ->
  Dict.get "Year"
    (columns (add_missing population_default
                (missing_columns population_required raw) raw))
  = Some (map (fun i => VInt (1950 + Z.of_nat i)) (seq 0 (nrows raw))).
Proof.
  intros H. unfold missing_columns, population_required.
  set (absent := fun col => negb (pd.has_col raw col)).
  set (others := ["Population (millions)"; "Urban Population (%)";
                  "Rural Population (%)"]).
  change (filter absent ("Year" :: others))
    with (if absent "Year" then "Year" :: filter absent others
          else filter absent others).
  unfold absent at 1. rewrite H. cbn [negb]. unfold add_missing. cbn [fold_left].
  set (rest := filter absent others).
  set (df1 := population_default raw "Year").
  assert (H1 : Dict.get "Year" (columns df1)
               = Some (map (fun i => VInt (1950 + Z.of_nat i)) (seq 0 (nrows raw)))).
  { unfold df1, population_default. cbn [String.eqb Ascii.eqb Bool.eqb].
    unfold pd.setitem_range. cbn [columns pd.setitem_series].
    rewrite get_set_same. f_equal. apply infer_ints.
    apply Forall_forall. intros v Hv. apply in_map_iff in Hv.
    destruct Hv as (i & <- & _). eexists; reflexivity. }
  destruct (add_missing_grows population_required population_default rest df1
              population_defaults) as [[_ Hg] _].
  - apply NoDup_filter. no_dup.
  - intros c Hc. unfold rest in Hc. apply filter_In in Hc. destruct Hc as [Hin Hc].
    split; [right; exact Hin|].
    unfold df1, population_default. cbn [String.eqb Ascii.eqb Bool.eqb].
    unfold pd.setitem_range. rewrite has_setitem. unfold absent in Hc.
    destruct (pd.has_col raw c); [discriminate|]. rewrite orb_false_r.
    apply String.eqb_neq. intros ->. simpl in Hin. intuition discriminate.
  - apply Hg, H1.
Qed.

(** The table the population loader returns, from the table it has read:
    the years made numeric, the rows whose year is not after the current
    one, and every column cut to those rows. *)
Lemma population_rows (cy : Z) (raw out : DataFrame) :
  reconcile_population cy raw = Ok out ->
  exists year mask,
    (forall col, Dict.get "Year" (columns raw) = Some col -> Forall2 coerced col year) /\
    (pd.has_col raw "Year" = false ->
     year = map (fun i => VInt (1950 + Z.of_nat i)) (seq 0 (nrows raw))) /\
    Forall2 (fun v keep => keep = true <-> not_after cy v) year mask /\
    Dict.get "Year" (columns out) = Some (pd.select mask year) /\
    (forall c col, Dict.get c (columns raw) = Some col ->
       exists col',
         (if member c population_required then Forall2 coerced col col'
          else col' = col) /\
         Dict.get c (columns out) = Some (pd.select mask col')) /\
    nrows out = length (pd.select mask (seq 0 (nrows raw))).
Proof.
  unfold reconcile_population, up_to_year. intros H.
  destruct (pd.getitem (population_numeric raw) "Year") as [year|] eqn:Ey;
    cbn [bind] in H; [|discriminate].
  destruct (mapM (pd.le_cell cy) year) as [mask|] eqn:Em; cbn [bind] in H;
    [|discriminate].
  apply Ok_inj in H. subst out. apply getitem_get in Ey.
  destruct (required_block population_required population_default raw
              population_defaults ltac:(no_dup)) as ((Hn & Hg) & _).
  set (df0 := add_missing _ _ _) in *.
  assert (Hget : forall c col, Dict.get c (columns df0) = Some col ->
             Dict.get c (columns (population_numeric raw))
             = Some (if member c population_required then pd.to_numeric col else col)).
  { intros c col Hc. unfold population_numeric. fold df0.
    apply ensure_numeric_get; [no_dup | exact Hc]. }
  exists year, mask. split; [|split; [|split; [|split; [|split]]]].
  - intros col Hc. rewrite (Hget _ _ (Hg _ _ Hc)) in Ey.
    apply Some_inj in Ey. subst year. apply to_numeric_coerced.
  - intros Hno. pose proof (population_default_year raw Hno) as Hd. fold df0 in Hd.
    rewrite (Hget _ _ Hd) in Ey. apply Some_inj in Ey. subst year.
    cbn [member existsb String.eqb Ascii.eqb Bool.eqb orb].
    apply uniform_fixed. left. apply Forall_forall. intros v Hv.
    apply in_map_iff in Hv. destruct Hv as (i & <- & _). eexists; reflexivity.
  - apply mask_not_after, Em.
  - rewrite filter_rows_get, Ey. reflexivity.
  - intros c col Hc. rewrite filter_rows_get, (Hget _ _ (Hg _ _ Hc)). cbn [option_map].
    destruct (member c population_required).
    + exists (pd.to_numeric col). split; [apply to_numeric_coerced | reflexivity].
    + exists col. split; reflexivity.
  - cbn [nrows pd.filter_rows]. unfold population_numeric. fold df0.
    rewrite ensure_numeric_nrows, Hn. reflexivity.
Qed.





(** ** What reconciliation leaves as it was, domain by domain *)

Lemma festivals_month (raw out : DataFrame) (season : list cell) :
  reconcile_festivals raw = Ok out ->
  Dict.get "Season" (columns raw) = Some season ->
  Dict.get "Month" (columns out) = Some (map first_word season).
Proof.
  intros H Hraw.
  destruct (festivals_stages raw out H)
    as (df2 & df3 & [_ Hg2] & E3 & [_ Hg3] & (Hall & _ & Hms) & _).
  destruct (month_from_season_settles _ _ E3) as (_ & _ & _ & Hother & _).
  assert (Hs : Dict.get "Season" (columns out) = Some season).
  { apply Hg3. rewrite Hother by discriminate. apply Hg2, Hraw. }
  assert (Hm : pd.has_col out "Month" = true) by (apply Hall; simpl; tauto).
  unfold month_settled, month_from_season in Hms.
  assert (Hh : pd.has_col out "Season" = true) by (apply has_col_get; eauto).
  rewrite Hh, Hm in Hms. cbn [andb] in Hms.
  apply getitem_get in Hs. rewrite Hs in Hms. cbn [bind] in Hms.
  unfold pd.str_extract in Hms.
  destruct (pd.str_accessor season) as [col|] eqn:Ea; cbn [bind] in Hms; [|discriminate].
  apply str_accessor_ok in Ea. subst col. apply Ok_inj in Hms.
  rewrite <- Hms. cbn [columns pd.setitem_series]. apply get_set_same.
Qed.

(** C2, amended. A column that is present in the table read is left
    unchanged, and only absent columns are added, by the loaders of the
    linguistic, religious, state, cultural, economic, tourism and education
    domains. The historical loader does the same, except that a null cell
    of Military Developments, Cultural Developments or Economic Systems may
    receive a text: every cell that is not null stays. The festivals loader
    leaves every column but Month, which is, whenever there is a Season
    column, the first word of the season of each row. The population
    loader keeps of every column the rows whose year, made numeric, is not
    after the current year (an integer that a float holds exactly), and
    coerces its four numeric columns: a number keeps its value and a text
    becomes a number or NaN. The geography
    loader returns the table it has read when both terrain columns are
    there. *)
Theorem present_columns_kept :
  forall (current_year : Z) (float_repr : pyfloat -> string) (d : domain)
         (raw out : DataFrame),
    reconcile current_year float_repr d raw = Ok out ->
    match d with
    | population =>
        exists year mask,
          (forall col, Dict.get "Year" (columns raw) = Some col ->
                       Forall2 coerced col year) /\
          (pd.has_col raw "Year" = false ->
           year = map (fun i => VInt (1950 + Z.of_nat i)) (seq 0 (nrows raw))) /\
          (exact_int current_year ->
           Forall2 (fun v keep => keep = true <-> not_after current_year v)
                   year mask) /\
          (forall c col, Dict.get c (columns raw) = Some col ->
             exists col',
               (if member c population_required then Forall2 coerced col col'
                else col' = col) /\
               Dict.get c (columns out) = Some (pd.select mask col')) /\
          nrows out = length (pd.select mask (seq 0 (nrows raw)))
    | festivals =>
        nrows out = nrows raw /\
        (forall c, c <> "Month" \/ pd.has_col raw "Season" = false ->
                   kept raw out c) /\
        (forall season, Dict.get "Season" (columns raw) = Some season ->
                        Dict.get "Month" (columns out) = Some (map first_word season))
    | historical =>
        nrows out = nrows raw /\
        (forall c, ~ In c detail_columns -> kept raw out c) /\
        (forall i c v, pd.at_ raw i c = Ok v -> isna v = false ->
                       pd.at_ out i c = Ok v)
    | geography =>
        pd.has_col raw "Terrain_Type" = true -> pd.has_col raw "Percentage" = true ->
        out = raw
    | _ => nrows out = nrows raw /\ forall c, kept raw out c
    end.
Proof.
  intros cy fr d raw out H. destruct d; cbn [reconcile] in H.
  - destruct (linguistic_grows raw out H) as [[Hn Hg] _]. split; [exact Hn | exact Hg].
  - destruct (religious_grows raw out H) as [[Hn Hg] _]. split; [exact Hn | exact Hg].
  - destruct (state_grows raw out H) as [[Hn Hg] _]. split; [exact Hn | exact Hg].
  - destruct (cultural_grows fr raw out H) as [[Hn Hg] _]. split; [exact Hn | exact Hg].
  - destruct (population_rows cy raw out H)
      as (year & mask & Hy & Hd & Hm & _ & Hc & Hn).
    exists year, mask. auto.
  - destruct (economic_grows raw out H) as [[Hn Hg] _]. split; [exact Hn | exact Hg].
  - destruct (historical_stages fr raw out H)
      as (df6 & [Hn Hg] & (Hn' & _ & Hg' & Hv) & _).
    split; [congruence|]. split.
    + intros c Hc col Hcol. rewrite Hg' by exact Hc. apply Hg, Hcol.
    + intros i c v Hat Hna. apply Hv; [|exact Hna].
      apply (grows_at raw); [split; assumption | exact Hat].
  - destruct (festivals_stages raw out H)
      as (df2 & df3 & [Hn2 Hg2] & E3 & [Hn3 Hg3] & _ & Hs).
    destruct (month_from_season_settles _ _ E3) as (_ & Hn & _ & Hother & Hnone).
    split; [congruence|]. split.
    + intros c Hc col Hcol. apply Hg3. destruct Hc as [Hc|Hc].
      * rewrite Hother by exact Hc. apply Hg2, Hcol.
      * rewrite Hnone by congruence. apply Hg2, Hcol.
    + intros season. apply festivals_month, H.
  - destruct (tourism_grows raw out H) as [[Hn Hg] _]. split; [exact Hn | exact Hg].
  - destruct (education_grows raw out H) as [[Hn Hg] _]. split; [exact Hn | exact Hg].
  - intros Ht Hp. unfold reconcile_geography in H. rewrite Ht, Hp in H.
    apply Ok_inj in H. auto.
Qed.

Lemma present_columns_kept_witness :
  let raw := mkDF 1 [("Festival", [VStr "Onam"]);
                     ("Season", [VStr "August-September"]);
                     ("Month", [VStr "Chingam"])] in
  exists out,
    reconcile 2026 Float.repr festivals raw = Ok out /\
    nrows out = nrows raw /\
    (forall c, c <> "Month" \/ pd.has_col raw "Season" = false -> kept raw out c) /\
    (forall season, Dict.get "Season" (columns raw) = Some season ->
                    Dict.get "Month" (columns out) = Some (map first_word season)).
Proof.
  intros raw. eexists. split; [vm_compute; reflexivity|].
  apply (present_columns_kept 2026 Float.repr festivals raw).
  vm_compute; reflexivity.
Defined.

(** ** The time period of a row, written and read back *)

(** The period written for a year is read back as that year. *)
Lemma period_read_back (year : Z) :
  - int64_max <= year <= int64_max ->
  exists period,
    utils.format_time_period (VInt year) = Ok (VStr period) /\
    Timeline_Year [VStr period] = Ok [year].
Proof.
  intros Hz. rename year into z. unfold format_time_period. cbn [int_of_cell bind].
  destruct (z <? 0) eqn:E.
  - apply Z.ltb_lt in E. eexists. split; [reflexivity|].
    destruct (str_of_Z_digits (Z.abs z) (Z.abs_nonneg z)) as (Hne & Hd & Hv).
    set (d := Py.str_of_Z (Z.abs z)) in *.
    unfold Timeline_Year, Start_Year, BCE, pd.str_extract.
    cbn [pd.str_accessor existsb is_str orb bind map].
    rewrite (search_digits_app d " BCE" Hne Hd eq_refl).
    cbn [mapM astype_int]. rewrite (int_of_digits d Hne Hd), Hv. cbn [bind].
    replace ((- int64_max - 1 <=? Z.abs z) && (Z.abs z <=? int64_max)) with true
      by (symmetry; apply andb_true_intro; split; apply Z.leb_le; lia).
    cbn [bind combine map fst snd]. unfold signed_year, truthy.
    rewrite (contains_app "BCE" d " BCE" eq_refl). do 2 f_equal. lia.
  - apply Z.ltb_ge in E. eexists. split; [reflexivity|].
    destruct (str_of_Z_digits z E) as (Hne & Hd & Hv).
    set (d := Py.str_of_Z z) in *.
    unfold Timeline_Year, Start_Year, BCE, pd.str_extract.
    cbn [pd.str_accessor existsb is_str orb bind map].
    rewrite (search_digits_app d " CE" Hne Hd eq_refl).
    cbn [mapM astype_int]. rewrite (int_of_digits d Hne Hd), Hv. cbn [bind].
    replace ((- int64_max - 1 <=? z) && (z <=? int64_max)) with true
      by (symmetry; apply andb_true_intro; split; apply Z.leb_le; lia).
    cbn [bind combine map fst snd]. unfold signed_year, truthy.
    rewrite (digits_no_BCE d Hd). reflexivity.
Qed.

(** *** The loop that writes the year range of an era *)

Lemma set_era_range_other (df df' : DataFrame) (i j : nat) (c : string) :
  set_era_range df j = Ok df' -> c <> "Time Period" \/ i <> j ->
  pd.at_ df' i c = pd.at_ df i c.
Proof.
  unfold set_era_range. intros H Hc.
  destruct (pd.at_ df j "Era") as [era|]; cbn [bind] in H; [|discriminate].
  destruct (find _ era_ranges) as [[k time_range]|].
  - destruct (set_at_spec _ _ _ _ _ H) as (_ & _ & _ & Hat & _). apply Hat, Hc.
  - apply Ok_inj in H. subst. reflexivity.
Qed.

Lemma set_era_range_nrows (df df' : DataFrame) (j : nat) :
  set_era_range df j = Ok df' -> nrows df' = nrows df.
Proof.
  unfold set_era_range. intros H.
  destruct (pd.at_ df j "Era") as [era|]; cbn [bind] in H; [|discriminate].
  destruct (find _ era_ranges) as [[k time_range]|].
  - apply (set_at_spec _ _ _ _ _ H).
  - apply Ok_inj in H. subst. reflexivity.
Qed.

Lemma era_loop_other (l : list nat) (df df' : DataFrame) (i : nat) (c : string) :
  foldM set_era_range l df = Ok df' ->
  c <> "Time Period" \/ ~ In i l ->
  pd.at_ df' i c = pd.at_ df i c.
Proof.
  revert df. induction l as [|j l IH]; intros df H Hc; cbn [foldM] in H.
  - apply Ok_inj in H. subst. reflexivity.
  - destruct (set_era_range df j) as [d1|] eqn:E; cbn [bind] in H; [|discriminate].
    rewrite (IH d1 H) by (destruct Hc as [Hc|Hc]; [left; exact Hc | right; simpl in Hc; tauto]).
    apply (set_era_range_other _ _ _ _ _ E).
    destruct Hc as [Hc|Hc]; [left; exact Hc | right; simpl in Hc; intros ->; tauto].
Qed.

(** The period of a row after the loop: the range of its era, if the era
    has one, and the period it had otherwise. *)
Lemma era_loop_row (l : list nat) (df df' : DataFrame) (i : nat) (era x : cell) :
  NoDup l -> In i l ->
  foldM set_era_range l df = Ok df' ->
  pd.at_ df i "Era" = Ok era ->
  pd.at_ df i "Time Period" = Ok x ->
  pd.at_ df' i "Time Period"
  = Ok (match find (fun kv => eq_str_cell (fst kv) era) era_ranges with
        | Some (_, time_range) => time_range
        | None => x
        end).
Proof.
  intros Hnd. revert df. induction Hnd as [|j l Hj Hnd IH]; intros df Hin H He Hx;
    [destruct Hin|].
  cbn [foldM] in H.
  destruct (set_era_range df j) as [d1|] eqn:E; cbn [bind] in H; [|discriminate].
  destruct (Nat.eq_dec j i) as [->|Hne].
  - rewrite (era_loop_other _ _ _ _ _ H) by (right; exact Hj).
    unfold set_era_range in E. rewrite He in E. cbn [bind] in E.
    destruct (find _ era_ranges) as [[k time_range]|].
    + destruct (set_at_spec _ _ _ _ _ E) as (_ & _ & _ & _ & Hset).
      apply (Hset x), Hx.
    + apply Ok_inj in E. subst. exact Hx.
  - destruct Hin as [Hin|Hin]; [congruence|].
    apply (IH d1 Hin H).
    + rewrite (set_era_range_other _ _ _ _ _ E) by (left; discriminate). exact He.
    + rewrite (set_era_range_other _ _ _ _ _ E) by (right; congruence). exact Hx.
Qed.

Lemma format_time_period_text (year p : cell) :
  format_time_period year = Ok p -> is_str p = true.
Proof.
  unfold format_time_period. destruct (int_of_cell year) as [z|]; cbn [bind];
    [|discriminate].
  destruct (z <? 0); intros H; apply Ok_inj in H; subst; reflexivity.
Qed.

(** The period the loader writes in a row of a table that has no period. *)
Lemma add_time_period_row (df df' : DataFrame) (i : nat) (year era : cell) :
  add_time_period df = Ok df' ->
  pd.has_col df "Time Period" = false ->
  pd.at_ df i "Year" = Ok year ->
  pd.at_ df i "Era" = Ok era ->
  (i < nrows df)%nat ->
  exists p, format_time_period year = Ok p /\
    pd.at_ df' i "Time Period"
    = Ok (match find (fun kv => eq_str_cell (fst kv) era) era_ranges with
          | Some (_, time_range) => time_range
          | None => p
          end).
Proof.
  unfold add_time_period. intros H Hno Hy He Hi. rewrite Hno in H.
  apply at_get in Hy. destruct Hy as (yc & Hyc & Hyi).
  apply getitem_get in Hyc. rewrite Hyc in H. cbn [bind] in H.
  destruct (mapM format_time_period yc) as [periods|] eqn:Ep; cbn [bind] in H;
    [|discriminate].
  apply mapM_ok_Forall2 in Ep.
  destruct (Forall2_nth_error _ _ _ _ _ Ep Hyi) as (p & Hp & Hfp).
  assert (Ht : pd.infer periods = periods).
  { apply infer_texts. clear -Ep. induction Ep as [|a b l l' Hab _ IH];
      constructor; [eapply format_time_period_text; eauto | exact IH]. }
  rewrite Ht in H.
  set (dfa := pd.setitem_series df "Time Period" periods) in *.
  exists p. split; [exact Hfp|].
  apply (era_loop_row (seq 0 (nrows dfa)) dfa df' i era p).
  - apply seq_NoDup.
  - apply in_seq. cbn [nrows dfa pd.setitem_series]. lia.
  - exact H.
  - apply at_get in He. destruct He as (ec & Hec & Hei). apply at_get.
    exists ec. split; [|exact Hei]. unfold dfa. cbn [columns pd.setitem_series].
    rewrite get_set_other by discriminate. exact Hec.
  - apply at_get. exists periods. split; [|exact Hp].
    unfold dfa. cbn [columns pd.setitem_series]. apply get_set_same.
Qed.

(** X9. A year and its time period agree where the era has no year range:
    in a table read without a Time Period column, the historical loader
    writes for a row of integer year N the period "N BCE" (N negative) or
    "N CE", and the timeline chapter reads that period back as the year N,
    for every year between -(2^63 - 1) and 2^63 - 1. A row whose era has a
    year range gets that range as its period instead. The year -2^63 is
    written but cannot be read back. *)
Theorem time_period_round_trip :
  forall (float_repr : pyfloat -> string) (raw out : DataFrame) (i : nat)
         (year : Z) (era : cell),
    reconcile_historical float_repr raw = Ok out ->
    pd.has_col raw "Time Period" = false ->
    pd.at_ raw i "Year" = Ok (VInt year) ->
    pd.at_ out i "Era" = Ok era ->
    (i < nrows raw)%nat ->
    - int64_max <= year <= int64_max ->
    match find (fun kv => eq_str_cell (fst kv) era) utils.era_ranges with
    | None =>
        exists period,
          pd.at_ out i "Time Period" = Ok (VStr period) /\
          utils.format_time_period (VInt year) = Ok (VStr period) /\
          Timeline_Year [VStr period] = Ok [year]
    | Some (_, time_range) => pd.at_ out i "Time Period" = Ok time_range
    end /\
    utils.format_time_period (VInt (- int64_max - 1))
    = Ok (VStr "9223372036854775808 BCE") /\
    Timeline_Year [VStr "9223372036854775808 BCE"] = Raise OverflowError.
Proof.
  intros fr raw out i year era H Hno Hy He Hi Hz.
  split; [|split; vm_compute; reflexivity].
  unfold reconcile_historical in H. revert H.
  generalize additional_columns as extra. intros extra H.
  destruct (required_block historical_required historical_default raw
              historical_defaults ltac:(no_dup)) as (Hg0 & _ & _).
  set (df0 := add_missing _ _ _) in *.
  assert (H0 : pd.has_col df0 "Time Period" = false).
  { unfold df0. rewrite (add_missing_has_other historical_required);
      [exact Hno | exact historical_defaults|].
    simpl. intuition discriminate. }
  destruct (add_time_period df0) as [df1|] eqn:E1; cbn [bind] in H; [|discriminate].
  destruct (add_time_period_spec _ _ E1) as [Hg1 _].
  match type of H with bind ?r _ = _ => destruct r as [df2|] eqn:E2 end;
    cbn [bind] in H; [|discriminate].
  assert (Hg2 : grows df1 df2).
  { destruct (pd.has_col df1 "Timeline Year") eqn:E.
    - apply Ok_inj in E2; subst. apply grows_refl.
    - eapply assign_copy_ok; eauto. }
  destruct (add_major_events fr df2) as [df3|] eqn:E3; cbn [bind] in H;
    [|discriminate].
  destruct (add_major_events_spec _ _ _ E3) as [Hg3 _].
  destruct (lookup_if_absent "Capital Cities" _ _ _ df3) as [df4|] eqn:E4;
    cbn [bind] in H; [|discriminate].
  destruct (lookup_if_absent_ok _ _ _ _ _ _ E4) as [Hg4 _].
  match type of H with bind ?r _ = _ => destruct r as [df5|] eqn:E5 end;
    cbn [bind] in H; [|discriminate].
  assert (Hg5 : grows df4 df5).
  { destruct (pd.has_col df4 "Key Rulers/Leaders") eqn:E; cbn [negb andb] in E5.
    - apply Ok_inj in E5; subst. apply grows_refl.
    - destruct (pd.has_col df4 "Key Figures"); [eapply assign_copy_ok; eauto|].
      apply Ok_inj in E5; subst. apply grows_setitem; exact E. }
  destruct (foldM add_additional extra df5) as [df6|] eqn:E6; cbn [bind] in H;
    [|discriminate].
  destruct (add_additional_all _ _ _ E6) as [Hg6 _].
  destruct (event_details_settle _ _ H) as [(_ & _ & Hsame & _) _].
  assert (G : grows df1 df6).
  { eapply grows_trans; [exact Hg2|]. eapply grows_trans; [exact Hg3|].
    eapply grows_trans; [exact Hg4|]. eapply grows_trans; eassumption. }
  assert (Hout : forall c v, In c ["Time Period"; "Era"] ->
                   pd.at_ df1 i c = Ok v -> pd.at_ out i c = Ok v).
  { intros c v Hc Hat. apply (grows_at _ _ _ _ _ G) in Hat.
    apply at_get in Hat. destruct Hat as (col & Hcol & Hv).
    apply at_get. exists col. split; [|exact Hv]. rewrite Hsame; [exact Hcol|].
    unfold detail_columns. simpl in Hc |- *. intuition (subst; discriminate). }
  assert (Hera0 : exists era0, pd.at_ df0 i "Era" = Ok era0).
  { assert (Hh : pd.has_col df0 "Era" = true).
    { apply (required_block historical_required historical_default raw
               historical_defaults ltac:(no_dup)). simpl; tauto. }
    apply has_col_get in Hh. destruct Hh as [ec Hec].
    pose proof (proj2 Hg1 _ _ Hec) as Hec1.
    apply at_get in He. destruct He as (ec' & Hec' & Hei).
    assert (Hec6 : Dict.get "Era" (columns out) = Some ec).
    { rewrite Hsame; [apply G, Hec1|].
      unfold detail_columns. simpl. intuition discriminate. }
    rewrite Hec6 in Hec'. apply Some_inj in Hec'. subst ec'.
    exists era. apply at_get. eauto. }
  destruct Hera0 as [era0 Hera0].
  assert (Heq : era0 = era).
  { pose proof (grows_at _ _ _ _ _ Hg1 Hera0) as H1.
    pose proof (Hout "Era" era0 ltac:(simpl; tauto) H1) as H2. congruence. }
  subst era0.
  destruct (add_time_period_row df0 df1 i (VInt year) era E1 H0) as (p & Hp & Hrow).
  - apply (grows_at raw); [exact Hg0 | exact Hy].
  - exact Hera0.
  - destruct Hg0 as [Hn _]. rewrite Hn. exact Hi.
  - destruct (period_read_back year Hz) as (period & Hf & Hread).
    rewrite Hf in Hp. apply Ok_inj in Hp. subst p.
    destruct (find _ era_ranges) as [[k time_range]|].
    + apply Hout; [simpl; tauto | exact Hrow].
    + exists period. split; [|split; assumption].
      apply Hout; [simpl; tauto | exact Hrow].
Qed.

Lemma time_period_round_trip_witness :
  exists out,
    reconcile_historical Float.repr
      (mkDF 2 [("Year", [VInt (-322); VInt (-268)]);
               ("Era", [VStr "Mauryan Empire"; VStr "Reign of Ashoka"])]) = Ok out /\
    (exists period,
       pd.at_ out 1 "Time Period" = Ok (VStr period) /\
       utils.format_time_period (VInt (-268)) = Ok (VStr period) /\
       Timeline_Year [VStr period] = Ok [-268]) /\
    utils.format_time_period (VInt (- int64_max - 1))
    = Ok (VStr "9223372036854775808 BCE") /\
    Timeline_Year [VStr "9223372036854775808 BCE"] = Raise OverflowError.
Proof.
  eexists. split; [vm_compute; reflexivity|].
  apply (time_period_round_trip Float.repr
           (mkDF 2 [("Year", [VInt (-322); VInt (-268)]);
                    ("Era", [VStr "Mauryan Empire"; VStr "Reign of Ashoka"])])
           _ 1%nat (-268) (VStr "Reign of Ashoka"));
    try (vm_compute; reflexivity); unfold int64_max; simpl; lia.
Defined.
